(** * Vegas Pool Coaches: the rule-based scoring and recommendation engine

    A shallow embedding of the deterministic water-chemistry logic of the
    backend, taken function by function from the JavaScript sources:

    - [Pool]           src/models/Pool.js  (latestWaterChemistry,
                       needsAttention, getRecommendations)
    - [MaintenanceLog] src/models/MaintenanceLog.js (calculateQualityScore)
    - [Premium]        the premium route file (calculateChemistryScore,
                       calculateClarityScore, calculateEquipmentScore,
                       calculateOverallGrade, performWeeklyAIAnalysis)
    - [Consulting]     the consulting route file (generateRuleBasedAnalysis,
                       calculateTrend)
    - [Trend]          calculateTrend again, in the arithmetic of doubles

    Modelling conventions.

    - A JavaScript number is an IEEE 754 double.  Where the code divides
      and the rounding can decide the result (the equipment score, the mean
      behind the weekly grade, the percent change of calculateTrend in
      [Trend]) the number is a binary64 float and the operations are those
      of the standard.  Where the code only compares a measurement with
      constants or counts in whole points (the bands of Pool.js, the
      chemistry and quality scores) the number is a rational [Q].
    - [Consulting.calculateTrend] is calculateTrend over the rationals,
      with [JsNum.num] adding the two infinities and NaN for its division;
      it carries the statements on the readings that enter a trend and on
      an older half of mean zero.
    - A Date is its number of milliseconds, a [Z]; "new Date()" is an explicit
      argument [now].
    - A property that may be undefined is an [option]; a comparison with
      undefined is false, as in JavaScript.
    - Array.prototype.push is an append at the end of a list. *)

From Stdlib Require Import QArith ZArith List String Ascii Bool Lia Lqa.
From Stdlib Require Import Qminmax Qround Qabs DecimalString.
From Stdlib Require Import Sorted Permutation.
From Stdlib Require Import PrimFloat.
From Stdlib Require Uint63.
From Stdlib Require FloatAxioms SpecFloat FloatOps.
Import ListNotations.

Local Open Scope string_scope.
Local Open Scope list_scope.
Local Open Scope Z_scope.
Local Open Scope Q_scope.

#[local] Set Warnings "-inexact-float".

(** ** Comparisons of JavaScript numbers *)

(** [x < y] on finite numbers. *)
Definition Qltb (x y : Q) : bool :=
  match x ?= y with
  | Lt => true
  | _ => false
  end.

(** [x <= y] and [x >= y] on finite numbers. *)
Definition Qleb (x y : Q) : bool := Qle_bool x y.
Definition Qgeb (x y : Q) : bool := Qle_bool y x.

(** [v < c] and [v > c] where [v] may be undefined: undefined converts to NaN
    and every comparison with NaN is false. *)
Definition undef_ltb (v : option Q) (c : Q) : bool :=
  match v with
  | Some x => Qltb x c
  | None => false
  end.

Definition undef_gtb (v : option Q) (c : Q) : bool :=
  match v with
  | Some x => Qltb c x
  | None => false
  end.

(** ** Array.prototype.sort

    The sort is stable (ECMAScript 2019): an element moves in front of the
    elements it compares strictly smaller than, and keeps its place among
    the elements it compares equal to. *)
Section Sort.
Context {A : Type} (compare : A -> A -> Z).

Fixpoint sort_insert (x : A) (l : list A) : list A :=
  match l with
  | [] => [x]
  | y :: l' =>
      if (compare x y <=? 0)%Z then x :: l else y :: sort_insert x l'
  end.

Definition sort (l : list A) : list A := fold_right sort_insert [] l.

End Sort.

(** ** src/models/Pool.js *)
Module Pool.

(** waterChemistrySchema: pH, chlorine, alkalinity, hardness and temperature
    are required numbers, cyanuricAcid defaults to 0 and testedAt to the
    time of creation. *)
Record reading := {
  pH : Q;
  chlorine : Q;
  alkalinity : Q;
  hardness : Q;
  cyanuricAcid : Q;
  temperature : Q;
  testedAt : Z
}.

(** poolSchema, restricted to the field the methods below read. *)
Record pool := {
  waterChemistry : list reading
}.

(** A recommendation object; the one pushed for a pool without readings
    has no priority property. *)
Record recommendation := {
  type : string;
  message : string;
  priority : option string
}.

(** The virtual latestWaterChemistry: the first element of the history
    sorted by testedAt, newest first, or null for an empty history. *)
Definition latestWaterChemistry (this : pool) : option reading :=
  if (0 <? List.length (waterChemistry this))%nat then
    hd_error
      (sort (fun a b => (testedAt b - testedAt a)%Z) (waterChemistry this))
  else None.

(** The four checks of needsAttention on the latest reading. *)
Definition phOk (latest : reading) : bool :=
  Qgeb (pH latest) 7.2 && Qleb (pH latest) 7.6.

Definition chlorineOk (latest : reading) : bool :=
  Qgeb (chlorine latest) 1.0 && Qleb (chlorine latest) 3.0.

Definition alkalinityOk (latest : reading) : bool :=
  Qgeb (alkalinity latest) 80 && Qleb (alkalinity latest) 120.

Definition recentReading (latest : reading) (now : Z) : bool :=
  (now - testedAt latest <=? 7 * 24 * 60 * 60 * 1000)%Z.

Definition needsAttention (this : pool) (now : Z) : bool :=
  match latestWaterChemistry this with
  | None => true
  | Some latest =>
      negb (phOk latest) || negb (chlorineOk latest)
      || negb (alkalinityOk latest) || negb (recentReading latest now)
  end.

Definition getRecommendations (this : pool) : list recommendation :=
  let recommendations := [] in
  match latestWaterChemistry this with
  | None =>
      recommendations ++
      [ {| type := "urgent";
           message := "Water chemistry test needed immediately";
           priority := None |} ]
  | Some latest =>
      (* pH recommendations *)
      let recommendations :=
        if Qltb (pH latest) 7.2 then
          recommendations ++
          [ {| type := "chemical";
               message := "pH is too low. Add sodium carbonate (soda ash) to raise pH.";
               priority := Some "high" |} ]
        else if Qltb 7.6 (pH latest) then
          recommendations ++
          [ {| type := "chemical";
               message := "pH is too high. Add muriatic acid or sodium bisulfate to lower pH.";
               priority := Some "high" |} ]
        else recommendations in
      (* Chlorine recommendations *)
      let recommendations :=
        if Qltb (chlorine latest) 1.0 then
          recommendations ++
          [ {| type := "chemical";
               message := "Chlorine level is too low. Add chlorine shock or liquid chlorine.";
               priority := Some "urgent" |} ]
        else if Qltb 3.0 (chlorine latest) then
          recommendations ++
          [ {| type := "safety";
               message := "Chlorine level is too high. Allow levels to decrease before swimming.";
               priority := Some "medium" |} ]
        else recommendations in
      (* Alkalinity recommendations *)
      let recommendations :=
        if Qltb (alkalinity latest) 80 then
          recommendations ++
          [ {| type := "chemical";
               message := "Total alkalinity is low. Add sodium bicarbonate to increase alkalinity.";
               priority := Some "medium" |} ]
        else if Qltb 120 (alkalinity latest) then
          recommendations ++
          [ {| type := "chemical";
               message := "Total alkalinity is high. Add muriatic acid to decrease alkalinity.";
               priority := Some "medium" |} ]
        else recommendations in
      recommendations
  end.

End Pool.

(** ** src/models/MaintenanceLog.js *)
Module MaintenanceLog.

(** taskSchema.status; the schema default is 'pending'. *)
Inductive taskStatus :=
| pending | in_progress | completed | skipped | failed.

Inductive issueSeverity :=
| minor | moderate | major | critical.

Definition taskStatus_eqb (a b : taskStatus) : bool :=
  match a, b with
  | pending, pending | in_progress, in_progress | completed, completed
  | skipped, skipped | failed, failed => true
  | _, _ => false
  end.

Definition issueSeverity_eqb (a b : issueSeverity) : bool :=
  match a, b with
  | minor, minor | moderate, moderate | major, major
  | critical, critical => true
  | _, _ => false
  end.

Record task := { status : taskStatus }.

(** An issue's severity has neither a default nor a required flag. *)
Record issue := { severity : option issueSeverity }.

Record feedback := { rating : option Q }.

(** maintenanceLogSchema, restricted to what calculateQualityScore reads. *)
Record maintenanceLog := {
  tasks : list task;
  issues : list issue;
  customerFeedback : option feedback
}.

(** [issue.severity === s]. *)
Definition severity_is (s : issueSeverity) (i : issue) : bool :=
  match severity i with
  | Some s' => issueSeverity_eqb s' s
  | None => false
  end.

(** [array.filter(p).length] as a number. *)
Definition count {A : Type} (p : A -> bool) (l : list A) : Q :=
  inject_Z (Z.of_nat (List.length (filter p l))).

(** [this.customerFeedback && this.customerFeedback.rating]: the rating
    when it is there and truthy, that is, not 0. *)
Definition truthyRating (this : maintenanceLog) : option Q :=
  match customerFeedback this with
  | Some fb =>
      match rating fb with
      | Some r => if Qeq_bool r 0 then None else Some r
      | None => None
      end
  | None => None
  end.

Definition calculateQualityScore (this : maintenanceLog) : Q :=
  let score := 100 in
  (* Deduct points for incomplete tasks *)
  let incompleteTasks :=
    count (fun task => taskStatus_eqb (status task) failed
                       || taskStatus_eqb (status task) skipped)
          (tasks this) in
  let score := score - incompleteTasks * 10 in
  (* Deduct points for issues found *)
  let criticalIssues := count (severity_is critical) (issues this) in
  let majorIssues := count (severity_is major) (issues this) in
  let score := score - (criticalIssues * 20 + majorIssues * 10) in
  (* Add points for customer satisfaction *)
  let score :=
    match truthyRating this with
    | Some r => score + (r - 3) * 5
    | None => score
    end in
  (* Ensure score is between 0 and 100 *)
  Qmax 0 (Qmin 100 score).

End MaintenanceLog.

(** ** IEEE 754 doubles

    A JavaScript number whose value depends on rounding is a binary64
    float, with the operations of the standard.  [ofZ] reads an integer
    (exactly, below 2^53 in size) and [ofQ] a decimal literal or a small
    fraction: the quotient of two such integers is the double nearest to
    the fraction, which is how a literal such as 7.2 is read. *)
Module Double.

Definition ofZ (z : Z) : PrimFloat.float :=
  match z with
  | Z0 => PrimFloat.zero
  | Zpos p => PrimFloat.of_uint63 (Uint63.of_Z (Zpos p))
  | Zneg p => PrimFloat.opp (PrimFloat.of_uint63 (Uint63.of_Z (Zpos p)))
  end.

(** The length of an array as a number. *)
Definition ofNat (n : nat) : PrimFloat.float := ofZ (Z.of_nat n).

Definition ofQ (q : Q) : PrimFloat.float :=
  PrimFloat.div (ofZ (Qnum q)) (ofZ (Zpos (Qden q))).

(** [x >= y], [x > y] and [x < y]; each is false when a side is NaN. *)
Definition geb (x y : PrimFloat.float) : bool := PrimFloat.leb y x.
Definition gtb (x y : PrimFloat.float) : bool := PrimFloat.ltb y x.
Definition ltb (x y : PrimFloat.float) : bool := PrimFloat.ltb x y.

Definition lt (x y : PrimFloat.float) : Prop := ltb x y = true.

(** ToBoolean of a number: the zeros and NaN are falsy. *)
Definition truthy (x : PrimFloat.float) : bool :=
  negb (PrimFloat.eqb x PrimFloat.zero || PrimFloat.is_nan x).

(** Math.abs. *)
Definition abs (x : PrimFloat.float) : PrimFloat.float := PrimFloat.abs x.

End Double.

(** A rational written where a double is expected is read as a literal. *)
Coercion Double.ofQ : Q >-> PrimFloat.float.

(** ** The premium route file: the weekly assessment scores *)
Module Premium.

(** waterSample.testResults; every field is optional in the request
    schema. *)
Record testResults := {
  pH : option Q;
  chlorine : option Q;
  alkalinity : option Q
}.

Record waterSample := {
  sampleTestResults : option testResults
}.

(** An entry of visualInspection.equipmentStatus. *)
Record equipmentEntry := {
  equipment : option string;
  status : option string
}.

Record visualInspection := {
  waterClarity : option string;
  equipmentStatus : option (list equipmentEntry)
}.

Record assessmentData := {
  assessmentWaterSample : option waterSample;
  assessmentVisualInspection : option visualInspection
}.

Record analysisRecommendation := {
  recPriority : string;
  action : string;
  reason : string;
  estimatedCost : Q;
  timeframe : string;
  difficulty : string
}.

Record alert := {
  alertType : string;
  alertSeverity : string;
  alertMessage : string;
  actionRequired : bool
}.

(** What [clarityScores[waterClarity] || 70] evaluates to: a number, or the
    member that the object literal inherits from Object.prototype under
    the given name (a function, or the prototype itself for __proto__).
    Such a member is truthy, so it is returned in place of the default. *)
Inductive scoreValue :=
| Number (x : PrimFloat.float)
| Inherited (name : string).

Record analysis := {
  overallGrade : string;
  chemistryScore : Q;
  clarityScore : scoreValue;
  equipmentScore : PrimFloat.float;
  recommendations : list analysisRecommendation;
  alerts : list alert
}.

(** The score is 100 less some of 20, 20 and 15, or 50: an integer, the
    same in doubles as in the rationals. *)
Definition calculateChemistryScore (results : option testResults) : Q :=
  match results with
  | None => 50
  | Some results =>
      let score := 100 in
      (* pH scoring *)
      let score :=
        if undef_ltb (pH results) 7.2 || undef_gtb (pH results) 7.6
        then score - 20 else score in
      (* Chlorine scoring *)
      let score :=
        if undef_ltb (chlorine results) 1.0
           || undef_gtb (chlorine results) 3.0
        then score - 20 else score in
      (* Alkalinity scoring *)
      let score :=
        if undef_ltb (alkalinity results) 80
           || undef_gtb (alkalinity results) 120
        then score - 15 else score in
      Qmax 0 score
  end.

(** The object literal clarityScores, as its own properties in order. *)
Definition clarityScores : list (string * PrimFloat.float) :=
  [ ("crystal_clear", 100%float);
    ("slightly_cloudy", 80%float);
    ("cloudy", 60%float);
    ("very_cloudy", 40%float);
    ("murky", 20%float) ].

(** The property names of Object.prototype, which every object literal
    inherits: a lookup of one of them on clarityScores finds the inherited
    member. *)
Definition inheritedNames : list string :=
  [ "constructor"; "__defineGetter__"; "__defineSetter__"; "hasOwnProperty";
    "__lookupGetter__"; "__lookupSetter__"; "isPrototypeOf";
    "propertyIsEnumerable"; "toString"; "valueOf"; "__proto__";
    "toLocaleString" ].

Definition inherited (key : string) : bool :=
  existsb (String.eqb key) inheritedNames.

Fixpoint lookup (table : list (string * PrimFloat.float)) (key : string)
  : option PrimFloat.float :=
  match table with
  | [] => None
  | (k, v) :: rest => if String.eqb k key then Some v else lookup rest key
  end.

(** [clarityScores[key]]: an own property first, then the prototype;
    [None] is undefined. *)
Definition member (key : string) : option scoreValue :=
  match lookup clarityScores key with
  | Some v => Some (Number v)
  | None => if inherited key then Some (Inherited key) else None
  end.

(** [clarityScores[waterClarity] || 70]: the default replaces undefined
    and a falsy number.  An undefined waterClarity is the key "undefined",
    which is no property. *)
Definition calculateClarityScore (clarity : option string) : scoreValue :=
  match clarity with
  | None => Number 70%float
  | Some key =>
      match member key with
      | Some (Number v) =>
          if Double.truthy v then Number v else Number 70%float
      | Some (Inherited name) => Inherited name
      | None => Number 70%float
      end
  end.

(** [eq.status === 'working']. *)
Definition is_working (eq : equipmentEntry) : bool :=
  match status eq with
  | Some s => String.eqb s "working"
  | None => false
  end.

(** [(workingEquipment / totalEquipment) * 100], a division and then a
    multiplication of doubles. *)
Definition calculateEquipmentScore
    (entries : option (list equipmentEntry)) : PrimFloat.float :=
  match entries with
  | None => 70%float
  | Some entries =>
      if (List.length entries =? 0)%nat then 70%float
      else
        let workingEquipment :=
          Double.ofNat (List.length (filter is_working entries)) in
        let totalEquipment := Double.ofNat (List.length entries) in
        ((workingEquipment / totalEquipment) * 100)%float
  end.

(** [(chemistryScore + clarityScore + equipmentScore) / 3].  When the
    clarity score is an inherited member the first + is a string
    concatenation, the sum is a string that is no numeral, and the quotient
    is NaN. *)
Definition avgScore (chemistry : PrimFloat.float) (clarity : scoreValue)
    (equipmentS : PrimFloat.float) : PrimFloat.float :=
  match clarity with
  | Number clarity => ((chemistry + clarity + equipmentS) / 3)%float
  | Inherited _ => PrimFloat.nan
  end.

Definition calculateOverallGrade (chemistry : PrimFloat.float)
    (clarity : scoreValue) (equipmentS : PrimFloat.float) : string :=
  let avgScore := avgScore chemistry clarity equipmentS in
  if Double.geb avgScore 97 then "A+"
  else if Double.geb avgScore 93 then "A"
  else if Double.geb avgScore 87 then "B+"
  else if Double.geb avgScore 83 then "B"
  else if Double.geb avgScore 77 then "C+"
  else if Double.geb avgScore 73 then "C"
  else if Double.geb avgScore 67 then "D"
  else "F".

(** [waterSample?.testResults]. *)
Definition testResults_of (d : assessmentData) : option testResults :=
  match assessmentWaterSample d with
  | Some ws => sampleTestResults ws
  | None => None
  end.

(** [visualInspection?.waterClarity]. *)
Definition waterClarity_of (d : assessmentData) : option string :=
  match assessmentVisualInspection d with
  | Some vi => waterClarity vi
  | None => None
  end.

(** [visualInspection?.equipmentStatus]. *)
Definition equipmentStatus_of (d : assessmentData)
  : option (list equipmentEntry) :=
  match assessmentVisualInspection d with
  | Some vi => equipmentStatus vi
  | None => None
  end.

(** The value the promise of performWeeklyAIAnalysis resolves to; the
    trends property is always the empty array and is left out. *)
Definition performWeeklyAIAnalysis (d : assessmentData) : analysis :=
  (* Calculate scores *)
  let chemistry := calculateChemistryScore (testResults_of d) in
  let clarity := calculateClarityScore (waterClarity_of d) in
  let equipmentS := calculateEquipmentScore (equipmentStatus_of d) in
  let grade := calculateOverallGrade chemistry clarity equipmentS in
  (* Generate recommendations *)
  let low := Qltb chemistry 70 in
  {| overallGrade := grade;
     chemistryScore := chemistry;
     clarityScore := clarity;
     equipmentScore := equipmentS;
     recommendations :=
       if low then
         [ {| recPriority := "high";
              action := "Adjust water chemistry";
              reason := "Chemical levels are outside optimal range";
              estimatedCost := 50;
              timeframe := "24 hours";
              difficulty := "easy" |} ]
       else [];
     alerts :=
       if low then
         [ {| alertType := "chemistry";
              alertSeverity := "warning";
              alertMessage := "Water chemistry requires immediate attention";
              actionRequired := true |} ]
       else [] |}.

End Premium.

(** A number is a score value. *)
Coercion Premium.Number : PrimFloat.float >-> Premium.scoreValue.

(** ** JavaScript numbers outside the finite range

    [Fin q] is a finite number, held exactly.  Zero is the positive zero: a
    sum that starts from [+0] never becomes [-0] under exact addition, so
    the divisors the code below forms are never [-0]. *)
Module JsNum.

Inductive num :=
| Fin (q : Q)
| PosInf
| NegInf
| NaN.

Definition is_finite (a : num) : bool :=
  match a with
  | Fin _ => true
  | _ => false
  end.

(** The infinity with the sign of [c], where [Eq] stands for [+0]. *)
Definition inf_of (c : comparison) : num :=
  match c with
  | Lt => NegInf
  | _ => PosInf
  end.

Definition flip (c : comparison) : comparison :=
  match c with
  | Lt => Gt
  | Gt => Lt
  | Eq => Eq
  end.

Definition sub (a b : num) : num :=
  match a, b with
  | NaN, _ | _, NaN => NaN
  | Fin x, Fin y => Fin (x - y)
  | PosInf, PosInf | NegInf, NegInf => NaN
  | PosInf, _ | _, NegInf => PosInf
  | NegInf, _ | _, PosInf => NegInf
  end.

Definition mul (a b : num) : num :=
  match a, b with
  | NaN, _ | _, NaN => NaN
  | Fin x, Fin y => Fin (x * y)
  | Fin x, PosInf | PosInf, Fin x =>
      match x ?= 0 with Eq => NaN | c => inf_of c end
  | Fin x, NegInf | NegInf, Fin x =>
      match x ?= 0 with Eq => NaN | c => inf_of (flip c) end
  | PosInf, PosInf | NegInf, NegInf => PosInf
  | PosInf, NegInf | NegInf, PosInf => NegInf
  end.

Definition div (a b : num) : num :=
  match a, b with
  | NaN, _ | _, NaN => NaN
  | Fin x, Fin y =>
      if Qeq_bool y 0 then
        match x ?= 0 with Eq => NaN | c => inf_of c end
      else Fin (x / y)
  | Fin _, _ => Fin 0
  | PosInf, Fin y => inf_of (y ?= 0)
  | NegInf, Fin y => inf_of (flip (y ?= 0))
  | _, _ => NaN
  end.

(** Math.abs *)
Definition abs (a : num) : num :=
  match a with
  | Fin x => Fin (Qabs x)
  | PosInf | NegInf => PosInf
  | NaN => NaN
  end.

(** [a < b]; false as soon as one side is NaN. *)
Definition ltb (a b : num) : bool :=
  match a, b with
  | NaN, _ | _, NaN => false
  | Fin x, Fin y => Qltb x y
  | _, NegInf | PosInf, _ => false
  | NegInf, _ | _, PosInf => true
  end.

(** [a > b] *)
Definition gtb (a b : num) : bool := ltb b a.

End JsNum.

(** ** Strings *)

Definition newline : string := String "010" EmptyString.

(** String.prototype.toLowerCase on the letters A to Z.  The letters of the
    three symptom keywords below are reached only from these: no character
    outside ASCII lower-cases to one of them. *)
Definition lower_ascii (c : ascii) : ascii :=
  let n := nat_of_ascii c in
  if ((65 <=? n) && (n <=? 90))%nat then ascii_of_nat (n + 32) else c.

Fixpoint toLowerCase (s : string) : string :=
  match s with
  | EmptyString => EmptyString
  | String c rest => String (lower_ascii c) (toLowerCase rest)
  end.

(** String.prototype.includes *)
Fixpoint includes (s needle : string) : bool :=
  prefix needle s
  || match s with
     | EmptyString => false
     | String _ rest => includes rest needle
     end.

(** A non-negative integer in a template literal. *)
Definition nat_to_string (n : nat) : string :=
  NilZero.string_of_uint (Nat.to_uint n).

(** ** The consulting route file: rule-based analysis and trends *)
Module Consulting.

(** A water-chemistry object as these helpers read it: the request body of
    the analysis route, where every field is optional, or a reading of a
    pool's history. *)
Record chemistry := {
  pH : option Q;
  chlorine : option Q;
  alkalinity : option Q
}.

(** The three accumulators of generateRuleBasedAnalysis. *)
Record accumulators := {
  analysis : string;
  issues : list string;
  recommendations : list string
}.

Definition add_analysis (a : accumulators) (s : string) : accumulators :=
  {| analysis := (analysis a ++ s)%string;
     issues := issues a;
     recommendations := recommendations a |}.

Definition push_issue (a : accumulators) (s : string) : accumulators :=
  {| analysis := analysis a;
     issues := issues a ++ [s];
     recommendations := recommendations a |}.

Definition push_recommendation (a : accumulators) (s : string)
  : accumulators :=
  {| analysis := analysis a;
     issues := issues a;
     recommendations := recommendations a ++ [s] |}.

(** The block guarded by [if (waterChemistry)]. *)
Definition chemistryAnalysis (waterChemistry : chemistry)
    (a : accumulators) : accumulators :=
  (* pH Analysis *)
  let a :=
    if undef_ltb (pH waterChemistry) 7.2 then
      push_recommendation
        (push_issue a "pH is too low (acidic)")
        "Add sodium carbonate (soda ash) to raise pH to 7.2-7.6 range"
    else if undef_gtb (pH waterChemistry) 7.6 then
      push_recommendation
        (push_issue a "pH is too high (basic)")
        "Add muriatic acid or sodium bisulfate to lower pH to 7.2-7.6 range"
    else
      add_analysis a
        ("✓ pH level is within optimal range (7.2-7.6)" ++ newline) in
  (* Chlorine Analysis *)
  let a :=
    if undef_ltb (chlorine waterChemistry) 1.0 then
      push_recommendation
        (push_issue a "Free chlorine is too low")
        "URGENT: Add chlorine shock or liquid chlorine to reach 1.0-3.0 ppm"
    else if undef_gtb (chlorine waterChemistry) 3.0 then
      push_recommendation
        (push_issue a "Free chlorine is too high")
        "Allow chlorine to naturally decrease before swimming, or add neutralizer"
    else
      add_analysis a
        ("✓ Free chlorine level is adequate (1.0-3.0 ppm)" ++ newline) in
  (* Alkalinity Analysis *)
  let a :=
    if undef_ltb (alkalinity waterChemistry) 80 then
      push_recommendation
        (push_issue a "Total alkalinity is low")
        "Add sodium bicarbonate to increase alkalinity to 80-120 ppm"
    else if undef_gtb (alkalinity waterChemistry) 120 then
      push_recommendation
        (push_issue a "Total alkalinity is high")
        "Add muriatic acid carefully to decrease alkalinity"
    else
      add_analysis a
        ("✓ Total alkalinity is within range (80-120 ppm)" ++ newline) in
  a.

(** The body of [symptoms.forEach]. *)
Definition symptomStep (a : accumulators) (symptom : string)
  : accumulators :=
  let a := add_analysis a ("- " ++ symptom ++ newline) in
  let a :=
    if includes (toLowerCase symptom) "algae" then
      push_recommendation a
        "Shock treatment with chlorine, brush walls, and run filtration 24/7 until clear"
    else a in
  let a :=
    if includes (toLowerCase symptom) "cloudy" then
      push_recommendation a
        "Check and clean filter, test water chemistry, consider clarifier treatment"
    else a in
  let a :=
    if includes (toLowerCase symptom) "smell" then
      push_recommendation a
        "Test chlorine levels, shock if needed, check pH balance"
    else a in
  a.

(** The accumulators once the chemistry and the symptoms are analysed,
    before the two lists are rendered into the text.  An omitted symptoms
    argument takes the default, the empty array. *)
Definition ruleBasedAccumulators (waterChemistry : option chemistry)
    (symptoms : option (list string)) : accumulators :=
  let symptoms := match symptoms with Some l => l | None => [] end in
  let a :=
    {| analysis :=
         ("Pool Analysis (Rule-Based System)" ++ newline ++ newline)%string;
       issues := [];
       recommendations := [] |} in
  let a :=
    match waterChemistry with
    | Some wc => chemistryAnalysis wc a
    | None => a
    end in
  (* Symptoms analysis *)
  let a :=
    if (0 <? List.length symptoms)%nat then
      fold_left symptomStep symptoms
        (add_analysis a (newline ++ "Reported Issues:" ++ newline))
    else a in
  a.

(** [issues.forEach(issue => analysis += `- ${issue}\n`)] *)
Definition renderIssues (text : string) (l : list string) : string :=
  fold_left (fun text issue => text ++ "- " ++ issue ++ newline)%string
            l text.

(** [recommendations.forEach((rec, index) =>
     analysis += `${index + 1}. ${rec}\n`)]; [index] is the position of
    the first element of [l]. *)
Fixpoint renderRecommendations (text : string) (index : nat)
    (l : list string) : string :=
  match l with
  | [] => text
  | rec :: rest =>
      renderRecommendations
        (text ++ nat_to_string (index + 1) ++ ". " ++ rec ++ newline)%string
        (S index) rest
  end.

Definition generateRuleBasedAnalysis (waterChemistry : option chemistry)
    (symptoms : option (list string)) : string :=
  let a := ruleBasedAccumulators waterChemistry symptoms in
  let text := analysis a in
  let text :=
    if (0 <? List.length (issues a))%nat then
      renderIssues (text ++ newline ++ "⚠️ Issues Found:" ++ newline)
                   (issues a)
    else text in
  let text :=
    if (0 <? List.length (recommendations a))%nat then
      renderRecommendations
        (text ++ newline ++ "🔧 Recommended Actions:" ++ newline)
        0 (recommendations a)
    else text in
  let text := (text ++ newline ++ "💡 General Maintenance Tips:" ++ newline)%string in
  let text := (text ++ "- Test water chemistry 2-3 times per week" ++ newline)%string in
  let text := (text ++ "- Clean skimmer and pump baskets weekly" ++ newline)%string in
  let text := (text ++ "- Brush walls and vacuum weekly" ++ newline)%string in
  let text := (text ++ "- Maintain proper water level" ++ newline)%string in
  let text := (text ++ "- Run filtration system 8-12 hours daily" ++ newline)%string in
  text.

(** [r[parameter]] *)
Definition prop (r : chemistry) (parameter : string) : option Q :=
  if String.eqb parameter "pH" then pH r
  else if String.eqb parameter "chlorine" then chlorine r
  else if String.eqb parameter "alkalinity" then alkalinity r
  else None.

(** [.filter(v => v !== undefined)] *)
Fixpoint defined (l : list (option Q)) : list Q :=
  match l with
  | [] => []
  | Some v :: rest => v :: defined rest
  | None :: rest => defined rest
  end.

(** [Math.ceil(n / 2)] for a length [n]. *)
Definition ceil_half (n : nat) : nat :=
  Z.to_nat (Qceiling (inject_Z (Z.of_nat n) / 2)).

(** [l.reduce((a, b) => a + b, 0)] *)
Definition sum (l : list Q) : Q := fold_left Qplus l 0.

(** [l.reduce((a, b) => a + b, 0) / l.length] *)
Definition average (l : list Q) : JsNum.num :=
  JsNum.div (JsNum.Fin (sum l))
            (JsNum.Fin (inject_Z (Z.of_nat (List.length l)))).

(** The usable values of [readings] for [parameter]. *)
Definition values_of (readings : list chemistry) (parameter : string)
  : list Q :=
  defined (map (fun r => prop r parameter) readings).

(** [values.slice(0, Math.ceil(values.length / 2))] and
    [values.slice(Math.ceil(values.length / 2))]: the locals recent and
    older. *)
Definition recentHalf (values : list Q) : list Q :=
  firstn (ceil_half (List.length values)) values.

Definition olderHalf (values : list Q) : list Q :=
  skipn (ceil_half (List.length values)) values.

(** The local [percentChange] of calculateTrend for the usable values. *)
Definition percentChange (values : list Q) : JsNum.num :=
  let recent := recentHalf values in
  let older := olderHalf values in
  let recentAvg := average recent in
  let olderAvg := average older in
  JsNum.mul (JsNum.div (JsNum.sub recentAvg olderAvg) olderAvg)
            (JsNum.Fin 100).

Definition calculateTrend (readings : list chemistry) (parameter : string)
  : string :=
  if (List.length readings <? 2)%nat then "insufficient_data"
  else
    let values := values_of readings parameter in
    if (List.length values <? 2)%nat then "insufficient_data"
    else
      let change := percentChange values in
      if JsNum.ltb (JsNum.abs change) (JsNum.Fin 5) then "stable"
      else if JsNum.gtb change (JsNum.Fin 0) then "increasing"
      else "decreasing".

End Consulting.


(** ** The consulting route file: calculateTrend in doubles

    [Consulting.calculateTrend] above computes with exact rationals; it
    serves the statements on which readings enter and on an older half of
    mean zero.  Near the boundary of 5 percent the rounding of the code
    decides, so the classification is stated on the function below, which
    is calculateTrend with the arithmetic of the code. *)
Module Trend.

(** A reading as calculateTrend uses it: the value of [r[parameter]] for
    every property name, own or inherited, where that value is a number or
    undefined. *)
Definition reading := string -> option PrimFloat.float.

(** [r[parameter]] *)
Definition prop (r : reading) (parameter : string)
  : option PrimFloat.float :=
  r parameter.

(** [.filter(v => v !== undefined)] *)
Fixpoint defined (l : list (option PrimFloat.float))
  : list PrimFloat.float :=
  match l with
  | [] => []
  | Some v :: rest => v :: defined rest
  | None :: rest => defined rest
  end.

(** [l.reduce((a, b) => a + b, 0)] *)
Definition sum (l : list PrimFloat.float) : PrimFloat.float :=
  fold_left PrimFloat.add l 0%float.

(** [l.reduce((a, b) => a + b, 0) / l.length] *)
Definition average (l : list PrimFloat.float) : PrimFloat.float :=
  (sum l / Double.ofNat (List.length l))%float.

(** The usable values of [readings] for [parameter]. *)
Definition values_of (readings : list reading) (parameter : string)
  : list PrimFloat.float :=
  defined (map (fun r => prop r parameter) readings).

(** [values.slice(0, Math.ceil(values.length / 2))] and
    [values.slice(Math.ceil(values.length / 2))]; half a length is exact
    in doubles. *)
Definition recentHalf (values : list PrimFloat.float)
  : list PrimFloat.float :=
  firstn (Consulting.ceil_half (List.length values)) values.

Definition olderHalf (values : list PrimFloat.float)
  : list PrimFloat.float :=
  skipn (Consulting.ceil_half (List.length values)) values.

(** The local [percentChange] of calculateTrend for the usable values. *)
Definition percentChange (values : list PrimFloat.float)
  : PrimFloat.float :=
  let recent := recentHalf values in
  let older := olderHalf values in
  let recentAvg := average recent in
  let olderAvg := average older in
  (((recentAvg - olderAvg) / olderAvg) * 100)%float.

Definition calculateTrend (readings : list reading) (parameter : string)
  : string :=
  if (List.length readings <? 2)%nat then "insufficient_data"
  else
    let values := values_of readings parameter in
    if (List.length values <? 2)%nat then "insufficient_data"
    else
      let percentChange := percentChange values in
      if Double.ltb (Double.abs percentChange) 5 then "stable"
      else if Double.gtb percentChange 0 then "increasing"
      else "decreasing".

End Trend.

(** ** Completions

    A call completes normally with a value or throws.  [completion] makes
    the outcome explicit for the statements that speak about failing. *)
Inductive completion (A : Type) :=
| Normal (value : A)
| Throw (error : string).

Arguments Normal {A} value.
Arguments Throw {A} error.

(** Sequencing: what follows a throw is not run. *)
Definition bind {A B : Type} (c : completion A) (k : A -> completion B)
  : completion B :=
  match c with
  | Normal value => k value
  | Throw error => Throw error
  end.

(** ** The specification's vocabulary

    The definitions of this part follow the words of the specification, not
    the code; the theorems compare them with the functions above. *)
Module Spec.

(** A verdict of the ChemistryEvaluator. *)
Inductive verdict := below | within | above.

(** A band [lo, hi]: below it, above it, or within. *)
Definition classify (lo hi v : Q) : verdict :=
  if Qltb v lo then below
  else if Qltb hi v then above
  else within.

Definition is_within (v : verdict) : bool :=
  match v with
  | within => true
  | _ => false
  end.

Record evaluationResult := {
  pHVerdict : verdict;
  chlorineVerdict : verdict;
  alkalinityVerdict : verdict;
  staleness : bool;
  needsAttention : bool
}.

Definition sevenDays : Z := 7 * 24 * 60 * 60 * 1000.

(** evaluate(reading, now) *)
Definition evaluate (r : Pool.reading) (now : Z) : evaluationResult :=
  let p := classify 7.2 7.6 (Pool.pH r) in
  let c := classify 1.0 3.0 (Pool.chlorine r) in
  let a := classify 80 120 (Pool.alkalinity r) in
  let stale := (sevenDays <? now - Pool.testedAt r)%Z in
  {| pHVerdict := p;
     chlorineVerdict := c;
     alkalinityVerdict := a;
     staleness := stale;
     needsAttention :=
       stale || negb (is_within p) || negb (is_within c)
       || negb (is_within a) |}.

(** The absent reading is itself a trigger. *)
Definition attention (r : option Pool.reading) (now : Z) : bool :=
  match r with
  | None => true
  | Some r => needsAttention (evaluate r now)
  end.

(** The recommendation table: kind and priority per parameter and
    verdict. *)
Inductive parameter := pHParam | chlorineParam | alkalinityParam.

Definition table (p : parameter) (v : verdict) : list (string * string) :=
  match p, v with
  | _, within => []
  | pHParam, _ => [("chemical", "high")]
  | chlorineParam, below => [("chemical", "urgent")]
  | chlorineParam, above => [("safety", "medium")]
  | alkalinityParam, _ => [("chemical", "medium")]
  end.

(** Kind and priority of a recommendation of the code, and of a row of the
    table. *)
Definition kindPriority (r : Pool.recommendation) : string * option string :=
  (Pool.type r, Pool.priority r).

Definition row (kp : string * string) : string * option string :=
  (fst kp, Some (snd kp)).

(** 1 for a verdict that is not within, 0 otherwise. *)
Definition outside (v : verdict) : nat :=
  if is_within v then 0%nat else 1%nat.

(** QualityScorer: the penalty of one task and of one issue, and the
    adjustment of a rating. *)
Definition taskPenalty (t : MaintenanceLog.task) : Q :=
  match MaintenanceLog.status t with
  | MaintenanceLog.failed | MaintenanceLog.skipped => 10
  | _ => 0
  end.

Definition issuePenalty (i : MaintenanceLog.issue) : Q :=
  match MaintenanceLog.severity i with
  | Some MaintenanceLog.critical => 20
  | Some MaintenanceLog.major => 10
  | _ => 0
  end.

Definition ratingOf (e : MaintenanceLog.maintenanceLog) : option Q :=
  match MaintenanceLog.customerFeedback e with
  | Some fb => MaintenanceLog.rating fb
  | None => None
  end.

Definition ratingAdjustment (e : MaintenanceLog.maintenanceLog) : Q :=
  match ratingOf e with
  | Some r => (r - 3) * 5
  | None => 0
  end.

Fixpoint total {A : Type} (f : A -> Q) (l : list A) : Q :=
  match l with
  | [] => 0
  | x :: rest => f x + total f rest
  end.

Definition clamp (x : Q) : Q :=
  if Qltb x 0 then 0 else if Qltb 100 x then 100 else x.

(** score(event): one clamp, after all the adjustments. *)
Definition score (e : MaintenanceLog.maintenanceLog) : Q :=
  clamp (100 - total taskPenalty (MaintenanceLog.tasks e)
             - total issuePenalty (MaintenanceLog.issues e)
             + ratingAdjustment e).

(** The counts the score depends on. *)
Definition incompleteCount (e : MaintenanceLog.maintenanceLog) : nat :=
  List.length
    (filter (fun t => match MaintenanceLog.status t with
                      | MaintenanceLog.failed | MaintenanceLog.skipped => true
                      | _ => false
                      end)
            (MaintenanceLog.tasks e)).

Definition severityCount (s : MaintenanceLog.issueSeverity)
    (e : MaintenanceLog.maintenanceLog) : nat :=
  List.length
    (filter (MaintenanceLog.severity_is s) (MaintenanceLog.issues e)).


Definition outOfBandb (lo hi : Q) (v : option Q) : bool :=
  match v with
  | Some x => Qltb x lo || Qltb hi x
  | None => false
  end.

Definition deduction (b : bool) (points : Q) : Q :=
  if b then points else 0.


(** The sum of a sequence of doubles, added up from the left on top of
    [acc]. *)
Fixpoint runningTotal (acc : PrimFloat.float) (l : list PrimFloat.float)
  : PrimFloat.float :=
  match l with
  | [] => acc
  | x :: rest => runningTotal (acc + x)%float rest
  end.

(** The mean of a sequence of doubles. *)
Definition average (l : list PrimFloat.float) : PrimFloat.float :=
  (runningTotal 0 l / Double.ofNat (List.length l))%float.

(** Trend classification on the usable values, most recent first. *)
Definition trend (values : list PrimFloat.float) : string :=
  let n := List.length values in
  if (n <? 2)%nat then "insufficient_data"
  else
    let half := Nat.div2 (S n) in
    let recent := average (firstn half values) in
    let older := average (skipn half values) in
    let change := ((recent - older) / older * 100)%float in
    if PrimFloat.ltb (PrimFloat.abs change) 5 then "stable"
    else if PrimFloat.ltb 0 change then "increasing"
    else "decreasing".

End Spec.

(** ** The recommendation objects of getRecommendations, by name *)

(** The six recommendations getRecommendations can push for a reading. *)
Definition raisePH : Pool.recommendation :=
  {| Pool.type := "chemical";
     Pool.message := "pH is too low. Add sodium carbonate (soda ash) to raise pH.";
     Pool.priority := Some "high" |}.

Definition lowerPH : Pool.recommendation :=
  {| Pool.type := "chemical";
     Pool.message := "pH is too high. Add muriatic acid or sodium bisulfate to lower pH.";
     Pool.priority := Some "high" |}.

Definition addChlorine : Pool.recommendation :=
  {| Pool.type := "chemical";
     Pool.message := "Chlorine level is too low. Add chlorine shock or liquid chlorine.";
     Pool.priority := Some "urgent" |}.

Definition waitChlorine : Pool.recommendation :=
  {| Pool.type := "safety";
     Pool.message := "Chlorine level is too high. Allow levels to decrease before swimming.";
     Pool.priority := Some "medium" |}.

Definition raiseAlkalinity : Pool.recommendation :=
  {| Pool.type := "chemical";
     Pool.message := "Total alkalinity is low. Add sodium bicarbonate to increase alkalinity.";
     Pool.priority := Some "medium" |}.

Definition lowerAlkalinity : Pool.recommendation :=
  {| Pool.type := "chemical";
     Pool.message := "Total alkalinity is high. Add muriatic acid to decrease alkalinity.";
     Pool.priority := Some "medium" |}.

Definition testNeeded : Pool.recommendation :=
  {| Pool.type := "urgent";
     Pool.message := "Water chemistry test needed immediately";
     Pool.priority := None |}.

(** What one check pushes, by verdict. *)
Definition pushed (lowRec highRec : Pool.recommendation) (v : Spec.verdict)
  : list Pool.recommendation :=
  match v with
  | Spec.below => [lowRec]
  | Spec.within => []
  | Spec.above => [highRec]
  end.

(** ** needsAttention and getRecommendations as calls

    Neither method contains a throw statement.  What could throw in them is
    the read of a property of [latest], a TypeError when latest is null;
    the two definitions below are the methods with each such read made
    explicit. *)

(** [!latest] *)
Definition is_null (latest : option Pool.reading) : bool :=
  match latest with
  | Some _ => false
  | None => true
  end.

(** An expression over the properties of [latest]. *)
Definition get {A : Type} (latest : option Pool.reading)
    (expression : Pool.reading -> A) : completion A :=
  match latest with
  | Some r => Normal (expression r)
  | None => Throw "TypeError"
  end.

Definition call_needsAttention (this : Pool.pool) (now : Z)
  : completion bool :=
  let latest := Pool.latestWaterChemistry this in
  if is_null latest then Normal true
  else
    bind (get latest Pool.phOk) (fun phOk =>
    bind (get latest Pool.chlorineOk) (fun chlorineOk =>
    bind (get latest Pool.alkalinityOk) (fun alkalinityOk =>
    bind (get latest (fun r => Pool.recentReading r now))
      (fun recentReading =>
    Normal (negb phOk || negb chlorineOk || negb alkalinityOk
            || negb recentReading))))).

(** One [if ... else if ...] of getRecommendations: two comparisons on
    latest, each followed by a push. *)
Definition pushEither (latest : option Pool.reading)
    (low high : Pool.reading -> bool) (lowRec highRec : Pool.recommendation)
    (recommendations : list Pool.recommendation)
  : completion (list Pool.recommendation) :=
  bind (get latest low) (fun isLow =>
    if isLow then Normal (recommendations ++ [lowRec])
    else
      bind (get latest high) (fun isHigh =>
        if isHigh then Normal (recommendations ++ [highRec])
        else Normal recommendations)).

Definition call_getRecommendations (this : Pool.pool)
  : completion (list Pool.recommendation) :=
  let latest := Pool.latestWaterChemistry this in
  let recommendations := [] in
  if is_null latest then Normal (recommendations ++ [testNeeded])
  else
    (* pH recommendations *)
    bind (pushEither latest
            (fun r => Qltb (Pool.pH r) 7.2) (fun r => Qltb 7.6 (Pool.pH r))
            raisePH lowerPH recommendations) (fun recommendations =>
    (* Chlorine recommendations *)
    bind (pushEither latest
            (fun r => Qltb (Pool.chlorine r) 1.0)
            (fun r => Qltb 3.0 (Pool.chlorine r))
            addChlorine waitChlorine recommendations) (fun recommendations =>
    (* Alkalinity recommendations *)
    pushEither latest
      (fun r => Qltb (Pool.alkalinity r) 80)
      (fun r => Qltb 120 (Pool.alkalinity r))
      raiseAlkalinity lowerAlkalinity recommendations)).

(** A pool whose only reading is in every band, with the given hardness,
    cyanuric acid and temperature. *)
Definition inBandPool (h c t : Q) (tested : Z) : Pool.pool :=
  {| Pool.waterChemistry :=
       [ {| Pool.pH := 7.4; Pool.chlorine := 2; Pool.alkalinity := 100;
            Pool.hardness := h; Pool.cyanuricAcid := c;
            Pool.temperature := t; Pool.testedAt := tested |} ] |}.

(** ** What one symptom contributes in generateRuleBasedAnalysis *)

Definition symptomRecommendations (symptom : string) : list string :=
  (if includes (toLowerCase symptom) "algae"
   then ["Shock treatment with chlorine, brush walls, and run filtration 24/7 until clear"]
   else [])
  ++ (if includes (toLowerCase symptom) "cloudy"
      then ["Check and clean filter, test water chemistry, consider clarifier treatment"]
      else [])
  ++ (if includes (toLowerCase symptom) "smell"
      then ["Test chlorine levels, shock if needed, check pH balance"]
      else []).

(** The symptoms argument after its default. *)
Definition suppliedSymptoms (symptoms : option (list string)) : list string :=
  match symptoms with
  | Some l => l
  | None => []
  end.

(** ** Maintenance events built from another one *)

Definition withTasks (ts : list MaintenanceLog.task)
    (e : MaintenanceLog.maintenanceLog) : MaintenanceLog.maintenanceLog :=
  {| MaintenanceLog.tasks := ts;
     MaintenanceLog.issues := MaintenanceLog.issues e;
     MaintenanceLog.customerFeedback := MaintenanceLog.customerFeedback e |}.

Definition withIssues (l : list MaintenanceLog.issue)
    (e : MaintenanceLog.maintenanceLog) : MaintenanceLog.maintenanceLog :=
  {| MaintenanceLog.tasks := MaintenanceLog.tasks e;
     MaintenanceLog.issues := l;
     MaintenanceLog.customerFeedback := MaintenanceLog.customerFeedback e |}.

Definition taskOf (s : MaintenanceLog.taskStatus) : MaintenanceLog.task :=
  {| MaintenanceLog.status := s |}.

Definition issueOf (s : MaintenanceLog.issueSeverity)
  : MaintenanceLog.issue :=
  {| MaintenanceLog.severity := Some s |}.

Definition rated (r : Q) : option MaintenanceLog.feedback :=
  Some {| MaintenanceLog.rating := Some r |}.

(** The event of the specification's example. *)
Definition exampleEvent : MaintenanceLog.maintenanceLog :=
  {| MaintenanceLog.tasks :=
       [ taskOf MaintenanceLog.completed; taskOf MaintenanceLog.failed;
         taskOf MaintenanceLog.completed ];
     MaintenanceLog.issues := [ issueOf MaintenanceLog.critical ];
     MaintenanceLog.customerFeedback := rated 5 |}.

(** The code's test for a task that counts as incomplete. *)
Definition incomplete (t : MaintenanceLog.task) : bool :=
  MaintenanceLog.taskStatus_eqb (MaintenanceLog.status t)
    MaintenanceLog.failed
  || MaintenanceLog.taskStatus_eqb (MaintenanceLog.status t)
       MaintenanceLog.skipped.

(** [Math.max(0, Math.min(100, score))] *)
Definition clampJs (x : Q) : Q := Qmax 0 (Qmin 100 x).

(** The score before the clamp, from the three counts and the rating. *)
Definition rawScore (incompleteN criticalN majorN : nat) (r : option Q) : Q :=
  let score :=
    100 - inject_Z (Z.of_nat incompleteN) * 10
    - (inject_Z (Z.of_nat criticalN) * 20 + inject_Z (Z.of_nat majorN) * 10)
  in
  match r with
  | Some r => score + (r - 3) * 5
  | None => score
  end.

(** ** Inputs of the weekly assessment examples *)


Definition equipmentWith (s : string) : Premium.equipmentEntry :=
  {| Premium.equipment := None; Premium.status := Some s |}.




(** An assessment without anything measured. *)
Definition emptyAssessment : Premium.assessmentData :=
  {| Premium.assessmentWaterSample := None;
     Premium.assessmentVisualInspection := None |}.

(** An assessment without test results whose inspection is flawless. *)
Definition flawlessInspection : Premium.assessmentData :=
  {| Premium.assessmentWaterSample :=
       Some {| Premium.sampleTestResults := None |};
     Premium.assessmentVisualInspection :=
       Some {| Premium.waterClarity := Some "crystal_clear";
               Premium.equipmentStatus :=
                 Some [ equipmentWith "working"; equipmentWith "working" ] |}
  |}.

(** ** Inputs of the trend examples *)


(** A reading whose only property is the pH. *)
Definition phOnly (v : PrimFloat.float) : Trend.reading :=
  fun name => if String.eqb name "pH" then Some v else None.

(** The pH history of the specification's example, most recent first. *)
Definition trendExample : list Trend.reading :=
  [phOnly 7.0; phOnly 7.1; phOnly 7.5; phOnly 7.6].

(** A pH history whose means are 7 and 20/3: a rise of 5 percent in the
    rationals and of a little less in doubles. *)
Definition boundaryExample : list Trend.reading :=
  [phOnly 7; phOnly 7; phOnly 7; phOnly 7; phOnly 7; phOnly 6].

(** A pH history in doubles whose older half, 1 and -1, has mean 0. *)
Definition zeroOlderDoubles : list Trend.reading :=
  [phOnly 1; phOnly 2; phOnly 1; phOnly (-1)].

(** Is the property defined? *)
Definition is_defined (v : option PrimFloat.float) : bool :=
  match v with
  | Some _ => true
  | None => false
  end.



(** ** src/models/Pool.js: the array after the getter

    latestWaterChemistry sorts [this.waterChemistry] in place: after a call
    on a pool with readings the stored array is the sorted one. *)
Definition afterLatest (this : Pool.pool) : Pool.pool :=
  if (0 <? List.length (Pool.waterChemistry this))%nat then
    {| Pool.waterChemistry :=
         sort (fun a b => (Pool.testedAt b - Pool.testedAt a)%Z)
              (Pool.waterChemistry this) |}
  else this.

(** Math.round: the nearest integer, halves towards plus infinity. *)
Definition round (x : Q) : Z := Qfloor (x + (1 # 2)).

(** ** src/models/MaintenanceLog.js: virtuals, summary and the save hook *)
Module MaintenanceDocument.

(** maintenanceLogSchema.status; the schema default is 'scheduled'. *)
Inductive logStatus :=
| scheduled | in_progress | completed | cancelled | no_show.

Definition logStatus_eqb (a b : logStatus) : bool :=
  match a, b with
  | scheduled, scheduled | in_progress, in_progress | completed, completed
  | cancelled, cancelled | no_show, no_show => true
  | _, _ => false
  end.

(** timeSpent, in minutes. *)
Record timeSpentRecord := {
  travel : option Q;
  onSite : option Q;
  total : option Q
}.

(** A maintenance log with the fields the virtuals and methods read:
    [scored] carries tasks, issues and customerFeedback; of the
    recommendations and chemicalsUsed arrays only the lengths are read. *)
Record document := {
  scored : MaintenanceLog.maintenanceLog;
  scheduledDate : Z;
  actualStartTime : option Z;
  actualEndTime : option Z;
  status : logStatus;
  recommendations : list string;
  chemicalsUsed : list string;
  timeSpent : option timeSpentRecord
}.

(** The virtual totalDuration, in minutes; null without both times. *)
Definition totalDuration (this : document) : option Z :=
  match actualStartTime this, actualEndTime this with
  | Some startTime, Some endTime =>
      Some (round (inject_Z (endTime - startTime) / inject_Z (1000 * 60)))
  | _, _ => None
  end.

(** [task.status === 'completed'] *)
Definition is_completed (t : MaintenanceLog.task) : bool :=
  MaintenanceLog.taskStatus_eqb (MaintenanceLog.status t)
    MaintenanceLog.completed.

(** The virtual completionPercentage. *)
Definition completionPercentage (this : document) : Z :=
  let tasks := MaintenanceLog.tasks (scored this) in
  if (List.length tasks =? 0)%nat then 0%Z
  else
    let completedTasks :=
      inject_Z (Z.of_nat (List.length (filter is_completed tasks))) in
    round ((completedTasks / inject_Z (Z.of_nat (List.length tasks))) * 100).

Definition isOverdue (this : document) (now : Z) : bool :=
  (scheduledDate this <? now)%Z && logStatus_eqb (status this) scheduled.

Record summary := {
  completionStatus : logStatus;
  summaryCompletionPercentage : Z;
  qualityScore : Q;
  totalTasks : nat;
  completedTasks : nat;
  issuesFound : nat;
  recommendationsGiven : nat;
  summaryChemicalsUsed : nat;
  summaryTimeSpent : Q
}.

(** A number that may be missing, as an operand of [||]: its value when it
    is there and not 0. *)
Definition truthy (v : option Q) : option Q :=
  match v with
  | Some x => if Qeq_bool x 0 then None else Some x
  | None => None
  end.

(** [this.totalDuration || this.timeSpent?.total || 0] *)
Definition summaryTime (this : document) : Q :=
  match truthy (option_map inject_Z (totalDuration this)) with
  | Some minutes => minutes
  | None =>
      match timeSpent this with
      | Some spent =>
          match truthy (total spent) with
          | Some minutes => minutes
          | None => 0
          end
      | None => 0
      end
  end.

Definition generateSummary (this : document) : summary :=
  {| completionStatus := status this;
     summaryCompletionPercentage := completionPercentage this;
     qualityScore := MaintenanceLog.calculateQualityScore (scored this);
     totalTasks := List.length (MaintenanceLog.tasks (scored this));
     completedTasks :=
       List.length (filter is_completed (MaintenanceLog.tasks (scored this)));
     issuesFound := List.length (MaintenanceLog.issues (scored this));
     recommendationsGiven := List.length (recommendations this);
     summaryChemicalsUsed := List.length (chemicalsUsed this);
     summaryTimeSpent := summaryTime this |}.

(** [v || 0] *)
Definition orZero (v : option Q) : Q :=
  match truthy v with
  | Some x => x
  | None => 0
  end.

(** The pre-save middleware, as the document it leaves; [now] is the time
    of the save. *)
Definition preSave (this : document) (now : Z) : document :=
  (* Auto-calculate total time spent *)
  let spent :=
    match timeSpent this with
    | Some ts =>
        match truthy (travel ts), truthy (onSite ts) with
        | None, None => Some ts
        | _, _ =>
            Some {| travel := travel ts;
                    onSite := onSite ts;
                    total := Some (orZero (travel ts) + orZero (onSite ts)) |}
        end
    | None => None
    end in
  (* Set actual end time *)
  let endTime :=
    match actualEndTime this with
    | Some e => Some e
    | None =>
        if logStatus_eqb (status this) completed then
          match actualStartTime this with
          | Some _ => Some now
          | None => None
          end
        else None
    end in
  {| scored := scored this;
     scheduledDate := scheduledDate this;
     actualStartTime := actualStartTime this;
     actualEndTime := endTime;
     status := status this;
     recommendations := recommendations this;
     chemicalsUsed := chemicalsUsed this;
     timeSpent := spent |}.

End MaintenanceDocument.

(** ** The premium route file: follow-up actions, the AI manager and the
    page count *)
Module PremiumRoutes.

Record followUpAction := {
  action : string;
  assignedTo : string;
  dueDate : Z;
  followUpStatus : string;
  notes : string
}.

(** generateFollowUpActions.  [Date.now()] is read once per action:
    [clock i] is the time of the reading number [i], counted from [first]. *)
Fixpoint followUps (alerts : list Premium.alert) (clock : nat -> Z)
    (first : nat) : list followUpAction :=
  match alerts with
  | [] => []
  | alert :: rest =>
      {| action := "Address " ++ Premium.alertType alert ++ " issue";
         assignedTo := "system";
         dueDate := (clock first + 24 * 60 * 60 * 1000)%Z;
         followUpStatus := "pending";
         notes := Premium.alertMessage alert |}
      :: followUps rest clock (S first)
  end.

Definition generateFollowUpActions (alerts : list Premium.alert)
    (clock : nat -> Z) : list followUpAction :=
  followUps (filter Premium.actionRequired alerts) clock 0.

(** The object literal responses of processAIManagerQuery, as its entries
    in insertion order.  The keys are matched against the lower-cased
    query; the only letters a character outside ASCII lower-cases to are k
    and an i followed by a combining dot, and no key holds a k or ends in
    i, so lower-casing A to Z decides the same matches. *)
Definition responses : list (string * string) :=
  [ ("water chemistry",
     "Based on your recent test results, I recommend adjusting your pH levels to the optimal range of 7.2-7.6.");
    ("equipment issues",
     "Your pump appears to be running efficiently, but consider cleaning the filter cartridge.");
    ("maintenance schedule",
     "Your next maintenance should include skimming, brushing, and testing water chemistry.");
    ("default",
     "I'm here to help with your pool management needs. Could you be more specific about what you'd like assistance with?") ].

(** [responses.default] *)
Definition defaultResponse : string :=
  match find (fun entry => String.eqb (fst entry) "default") responses with
  | Some entry => snd entry
  | None => ""
  end.

(** The for-of loop over [Object.entries(responses)]: the response of the
    first key the query includes replaces [responseText]. *)
Fixpoint firstMatch (entries : list (string * string)) (lowerQuery : string)
    (responseText : string) : string :=
  match entries with
  | [] => responseText
  | (key, response) :: rest =>
      if includes lowerQuery key then response
      else firstMatch rest lowerQuery responseText
  end.

Record managerResponse := {
  text : string;
  confidence : Q;
  suggestions : list string;
  timestamp : Z
}.

(** processAIManagerQuery on the query of the request body, which nothing
    validates: calling toLowerCase on a missing query throws. *)
Definition processAIManagerQuery (query : option string) (now : Z)
  : completion managerResponse :=
  match query with
  | None => Throw "TypeError"
  | Some query =>
      let lowerQuery := toLowerCase query in
      let responseText := firstMatch responses lowerQuery defaultResponse in
      Normal {| text := responseText;
                confidence := 0.8;
                suggestions :=
                  [ "Check water chemistry"; "Schedule maintenance";
                    "Review equipment status" ];
                timestamp := now |}
  end.

(** The content of an ebook, by the lengths of its strings in UTF-16 code
    units. *)
Record ebookContent := {
  introduction : nat;
  chapters : list nat;
  appendices : list nat
}.

Definition totalText (content : ebookContent) : nat :=
  (introduction content
   + fold_left (fun sum chapter => sum + chapter) (chapters content) 0
   + fold_left (fun sum appendix => sum + appendix) (appendices content) 0)%nat.

Definition estimatePageCount (content : ebookContent) : Z :=
  Qceiling (inject_Z (Z.of_nat (totalText content)) / 2000).

End PremiumRoutes.

(** ** The consulting route file: the dashboard and the pool report *)
Module ConsultingRoutes.

Record issueBreakdown := {
  waterChemistry : nat;
  equipment : nat;
  maintenance : nat;
  other : nat
}.

(** The body of [recommendations.forEach] in the dashboard. *)
Definition countRecommendation (b : issueBreakdown)
    (rec : Pool.recommendation) : issueBreakdown :=
  if String.eqb (Pool.type rec) "chemical" then
    {| waterChemistry := S (waterChemistry b); equipment := equipment b;
       maintenance := maintenance b; other := other b |}
  else if String.eqb (Pool.type rec) "equipment" then
    {| waterChemistry := waterChemistry b; equipment := S (equipment b);
       maintenance := maintenance b; other := other b |}
  else if String.eqb (Pool.type rec) "maintenance" then
    {| waterChemistry := waterChemistry b; equipment := equipment b;
       maintenance := S (maintenance b); other := other b |}
  else
    {| waterChemistry := waterChemistry b; equipment := equipment b;
       maintenance := maintenance b; other := S (other b) |}.

(** [pools.filter(pool => pool.needsAttention())]; the pool number [i] is
    asked at the time [clock i]. *)
Fixpoint urgentFrom (pools : list Pool.pool) (clock : nat -> Z) (i : nat)
  : list Pool.pool :=
  match pools with
  | [] => []
  | pool :: rest =>
      if Pool.needsAttention pool (clock i)
      then pool :: urgentFrom rest clock (S i)
      else urgentFrom rest clock (S i)
  end.

Definition urgentPools (pools : list Pool.pool) (clock : nat -> Z)
  : list Pool.pool :=
  urgentFrom pools clock 0.

(** The issue breakdown of the dashboard over the urgent pools. *)
Definition breakdown (urgent : list Pool.pool) : issueBreakdown :=
  fold_left
    (fun b pool => fold_left countRecommendation
                     (Pool.getRecommendations pool) b)
    urgent
    {| waterChemistry := 0; equipment := 0; maintenance := 0; other := 0 |}.

(** [stats.avgQualityScore] of the pool report; a score of 0 counts as 0. *)
Definition avgQualityScore
    (maintenanceHistory : list MaintenanceLog.maintenanceLog) : Q :=
  if (0 <? List.length maintenanceHistory)%nat then
    fold_left
      (fun sum m =>
         sum + (let score := MaintenanceLog.calculateQualityScore m in
                if Qeq_bool score 0 then 0 else score))
      maintenanceHistory 0
    / inject_Z (Z.of_nat (List.length maintenanceHistory))
  else 0.

(** [recentChemistry] of the pool report: the readings since the cutoff
    date, newest first, at most ten. *)
Definition recentChemistry (pool : Pool.pool) (cutoffDate : Z)
  : list Pool.reading :=
  firstn 10
    (sort (fun a b => (Pool.testedAt b - Pool.testedAt a)%Z)
       (filter (fun c => (cutoffDate <=? Pool.testedAt c)%Z)
          (Pool.waterChemistry pool))).

(** A reading of a pool as calculateTrend indexes it. *)
Definition asChemistry (r : Pool.reading) : Consulting.chemistry :=
  {| Consulting.pH := Some (Pool.pH r);
     Consulting.chlorine := Some (Pool.chlorine r);
     Consulting.alkalinity := Some (Pool.alkalinity r) |}.

(** [report.trends] *)
Record trends := {
  phTrend : string;
  chlorineTrend : string;
  alkalinityTrend : string
}.

Definition reportTrends (pool : Pool.pool) (cutoffDate : Z) : trends :=
  let recent := map asChemistry (recentChemistry pool cutoffDate) in
  {| phTrend := Consulting.calculateTrend recent "pH";
     chlorineTrend := Consulting.calculateTrend recent "chlorine";
     alkalinityTrend := Consulting.calculateTrend recent "alkalinity" |}.

End ConsultingRoutes.

(** ** Readings seen by the other rule sets *)

(** The test results of a weekly assessment that carry a pool's reading. *)
Definition asTestResults (r : Pool.reading) : Premium.testResults :=
  {| Premium.pH := Some (Pool.pH r);
     Premium.chlorine := Some (Pool.chlorine r);
     Premium.alkalinity := Some (Pool.alkalinity r) |}.

(** How many of the three parameters of test results are out of band. *)
Definition outOfBandCount (results : Premium.testResults) : nat :=
  ((if Spec.outOfBandb 7.2 7.6 (Premium.pH results) then 1 else 0)
   + (if Spec.outOfBandb 1.0 3.0 (Premium.chlorine results) then 1 else 0)
   + (if Spec.outOfBandb 80 120 (Premium.alkalinity results) then 1 else 0)
  )%nat.

(** ** Histories of readings *)

(** A reading with the given pH and time, everything else in band. *)
Definition readingAt (ph : Q) (tested : Z) : Pool.reading :=
  {| Pool.pH := ph; Pool.chlorine := 2; Pool.alkalinity := 100;
     Pool.hardness := 200; Pool.cyanuricAcid := 0; Pool.temperature := 80;
     Pool.testedAt := tested |}.

(** Newest first. *)
Definition newestFirst (l : list Pool.reading) : Prop :=
  StronglySorted (fun a b => (Pool.testedAt b <= Pool.testedAt a)%Z) l.

(** The comparator of the getter and of the pool report. *)
Definition byTestedAt (a b : Pool.reading) : Z :=
  (Pool.testedAt b - Pool.testedAt a)%Z.

(** The number of recommendations of a list of pools. *)
Definition recommendationCount (pools : list Pool.pool) : nat :=
  fold_right (fun pool n => (List.length (Pool.getRecommendations pool) + n)%nat)
             0%nat pools.

(** The types getRecommendations gives its recommendations. *)
Definition knownType (rec : Pool.recommendation) : Prop :=
  Pool.type rec = "chemical" \/ Pool.type rec = "safety"
  \/ Pool.type rec = "urgent".

(** ** Maintenance logs of the examples *)

(** A log with the given tasks and nothing else recorded. *)
Definition documentOf (ts : list MaintenanceLog.task)
    (startTime endTime : option Z) (st : MaintenanceDocument.logStatus)
    (spent : option MaintenanceDocument.timeSpentRecord)
  : MaintenanceDocument.document :=
  {| MaintenanceDocument.scored :=
       {| MaintenanceLog.tasks := ts;
          MaintenanceLog.issues := [];
          MaintenanceLog.customerFeedback := None |};
     MaintenanceDocument.scheduledDate := 0;
     MaintenanceDocument.actualStartTime := startTime;
     MaintenanceDocument.actualEndTime := endTime;
     MaintenanceDocument.status := st;
     MaintenanceDocument.recommendations := [];
     MaintenanceDocument.chemicalsUsed := [];
     MaintenanceDocument.timeSpent := spent |}.

(** [timeSpent.total] as the summary reads it: 0 when it is missing. *)
Definition recordedTotal (this : MaintenanceDocument.document) : Q :=
  match MaintenanceDocument.timeSpent this with
  | Some spent => MaintenanceDocument.orZero (MaintenanceDocument.total spent)
  | None => 0
  end.

(** ** Follow-up actions and canned answers by name *)

(** The follow-up action of the chemistry alert, with the clock read at
    [readAt]. *)
Definition chemistryFollowUp (readAt : Z) : PremiumRoutes.followUpAction :=
  {| PremiumRoutes.action := "Address chemistry issue";
     PremiumRoutes.assignedTo := "system";
     PremiumRoutes.dueDate := (readAt + 24 * 60 * 60 * 1000)%Z;
     PremiumRoutes.followUpStatus := "pending";
     PremiumRoutes.notes := "Water chemistry requires immediate attention" |}.

(** The answer of the AI manager to a lower-cased query, by topic in the
    order water chemistry, equipment issues, maintenance schedule. *)
Definition answerByTopic (lowerQuery : string) : string :=
  if includes lowerQuery "water chemistry" then
    "Based on your recent test results, I recommend adjusting your pH levels to the optimal range of 7.2-7.6."
  else if includes lowerQuery "equipment issues" then
    "Your pump appears to be running efficiently, but consider cleaning the filter cartridge."
  else if includes lowerQuery "maintenance schedule" then
    "Your next maintenance should include skimming, brushing, and testing water chemistry."
  else
    "I'm here to help with your pool management needs. Could you be more specific about what you'd like assistance with?".

(** ** The rule-based analysis, piece by piece *)

(** How many of the three parameters of a chemistry object the rule-based
    analysis flags. *)
Definition flagged (wc : Consulting.chemistry) : nat :=
  ((if Spec.outOfBandb 7.2 7.6 (Consulting.pH wc) then 1 else 0)
   + (if Spec.outOfBandb 1.0 3.0 (Consulting.chlorine wc) then 1 else 0)
   + (if Spec.outOfBandb 80 120 (Consulting.alkalinity wc) then 1 else 0)
  )%nat.

(** The first line of every analysis and the tips that close it. *)
Definition analysisHeader : string :=
  "Pool Analysis (Rule-Based System)" ++ newline ++ newline.

Definition maintenanceTips : string :=
  newline ++ "💡 General Maintenance Tips:" ++ newline
  ++ "- Test water chemistry 2-3 times per week" ++ newline
  ++ "- Clean skimmer and pump baskets weekly" ++ newline
  ++ "- Brush walls and vacuum weekly" ++ newline
  ++ "- Maintain proper water level" ++ newline
  ++ "- Run filtration system 8-12 hours daily" ++ newline.

(** * Facts about the helpers *)

Lemma Qltb_lt (x y : Q) : Qltb x y = true <-> x < y.
Proof.
  unfold Qltb. rewrite Qlt_alt.
  destruct (x ?= y); split; congruence.
Qed.

Lemma Qltb_ge (x y : Q) : Qltb x y = false <-> y <= x.
Proof.
  split; intro H.
  - apply Qnot_lt_le. intro L. apply Qltb_lt in L. congruence.
  - destruct (Qltb x y) eqn:E; [|reflexivity].
    apply Qltb_lt in E. exfalso. apply (Qlt_not_le _ _ E H).
Qed.

Lemma Qleb_le (x y : Q) : Qleb x y = true <-> x <= y.
Proof. apply Qle_bool_iff. Qed.

Lemma Qgeb_ge (x y : Q) : Qgeb x y = true <-> y <= x.
Proof. apply Qle_bool_iff. Qed.

Lemma Qleb_gt (x y : Q) : Qleb x y = false <-> y < x.
Proof.
  unfold Qleb. split; intro H.
  - apply Qnot_le_lt. intro L. apply Qle_bool_iff in L. congruence.
  - destruct (Qle_bool x y) eqn:E; [|reflexivity].
    apply Qle_bool_iff in E. exfalso. apply (Qlt_not_le _ _ H E).
Qed.

Section SortFacts.
Context {A : Type} (compare : A -> A -> Z).

Lemma sort_insert_length x l : List.length (sort_insert compare x l) = S (List.length l).
Proof.
  induction l as [|y l IH]; simpl; [reflexivity|].
  destruct (compare x y <=? 0)%Z; simpl; [reflexivity|].
  now rewrite IH.
Qed.

Lemma sort_length l : List.length (sort compare l) = List.length l.
Proof.
  induction l as [|x l IH]; simpl; [reflexivity|].
  now rewrite sort_insert_length, IH.
Qed.

Lemma sort_insert_In x l z : In z (sort_insert compare x l) <-> z = x \/ In z l.
Proof.
  induction l as [|y l IH]; simpl.
  - intuition.
  - destruct (compare x y <=? 0)%Z; simpl; [intuition|].
    rewrite IH. intuition.
Qed.

Lemma sort_In l z : In z (sort compare l) <-> In z l.
Proof.
  induction l as [|x l IH]; simpl; [reflexivity|].
  rewrite sort_insert_In, IH. intuition.
Qed.
End SortFacts.

(** * The latest reading *)

Lemma latest_none_iff (this : Pool.pool) :
  Pool.latestWaterChemistry this = None <-> Pool.waterChemistry this = [].
Proof.
  unfold Pool.latestWaterChemistry.
  destruct (Pool.waterChemistry this) as [|r l] eqn:E; simpl.
  - split; reflexivity.
  - split; [|discriminate].
    pose proof (sort_insert_length
                  (fun a b => (Pool.testedAt b - Pool.testedAt a)%Z) r
                  (sort (fun a b => (Pool.testedAt b - Pool.testedAt a)%Z) l))
      as L.
    destruct (sort_insert _ r _); simpl in *; discriminate.
Qed.

Lemma sorted_head_newest (l : list Pool.reading) (r : Pool.reading) :
  hd_error (sort (fun a b => (Pool.testedAt b - Pool.testedAt a)%Z) l)
  = Some r ->
  In r l /\
  forall r', In r' l -> (Pool.testedAt r' <= Pool.testedAt r)%Z.
Proof.
  revert r. induction l as [|x l IH]; intros r; simpl; [discriminate|].
  set (cmp := fun a b => (Pool.testedAt b - Pool.testedAt a)%Z) in *.
  destruct (sort cmp l) as [|y s] eqn:S.
  - assert (l = []) as ->.
    { pose proof (sort_length cmp l) as L. rewrite S in L.
      destruct l; [reflexivity|discriminate]. }
    simpl. intros [= <-]. split; [now left|].
    intros r' [<-|[]]. lia.
  - destruct (IH y eq_refl) as [Iy My].
    simpl. unfold cmp at 1.
    destruct (Pool.testedAt y - Pool.testedAt x <=? 0)%Z eqn:C;
      simpl; intros [= <-].
    + apply Z.leb_le in C. split; [now left|].
      intros r' [<-|I]; [lia|]. specialize (My r' I). lia.
    + apply Z.leb_gt in C. split; [now right|].
      intros r' [<-|I]; [lia|]. now apply My.
Qed.

(** The latest reading belongs to the history and no reading of the history
    is newer. *)
Lemma latest_newest (this : Pool.pool) (r : Pool.reading) :
  Pool.latestWaterChemistry this = Some r ->
  In r (Pool.waterChemistry this) /\
  forall r', In r' (Pool.waterChemistry this) ->
             (Pool.testedAt r' <= Pool.testedAt r)%Z.
Proof.
  unfold Pool.latestWaterChemistry.
  destruct (0 <? List.length (Pool.waterChemistry this))%nat; [|discriminate].
  apply sorted_head_newest.
Qed.

Lemma latest_single (r : Pool.reading) :
  Pool.latestWaterChemistry {| Pool.waterChemistry := [r] |} = Some r.
Proof. reflexivity. Qed.

(** * Bands *)

Lemma classify_within (lo hi v : Q) :
  Spec.classify lo hi v = Spec.within <-> lo <= v /\ v <= hi.
Proof.
  unfold Spec.classify.
  destruct (Qltb v lo) eqn:L; [|destruct (Qltb hi v) eqn:H].
  - apply Qltb_lt in L. split; [discriminate|]. intros [A _]. lra.
  - apply Qltb_lt in H. split; [discriminate|]. intros [_ A]. lra.
  - apply Qltb_ge in L, H. split; [now split|reflexivity].
Qed.

Lemma classify_below (lo hi v : Q) :
  Spec.classify lo hi v = Spec.below <-> v < lo.
Proof.
  unfold Spec.classify.
  destruct (Qltb v lo) eqn:L; [|destruct (Qltb hi v) eqn:H].
  - apply Qltb_lt in L. split; [now intros _|reflexivity].
  - apply Qltb_ge in L. split; [discriminate|]. intros A. lra.
  - apply Qltb_ge in L. split; [discriminate|]. intros A. lra.
Qed.

Lemma classify_above (lo hi v : Q) :
  lo <= hi -> (Spec.classify lo hi v = Spec.above <-> hi < v).
Proof.
  intros B. unfold Spec.classify.
  destruct (Qltb v lo) eqn:L; [|destruct (Qltb hi v) eqn:H].
  - apply Qltb_lt in L. split; [discriminate|]. intros A. lra.
  - apply Qltb_lt in H. split; [now intros _|reflexivity].
  - apply Qltb_ge in H. split; [discriminate|]. intros A. lra.
Qed.

(** The flag [v >= lo && v <= hi] of needsAttention is the verdict within. *)
Lemma ok_flag_within (lo hi v : Q) :
  Qgeb v lo && Qleb v hi = Spec.is_within (Spec.classify lo hi v).
Proof.
  destruct (Spec.classify lo hi v) eqn:C; simpl.
  - apply classify_below in C.
    apply andb_false_iff. left.
    destruct (Qgeb v lo) eqn:G; [|reflexivity].
    apply Qgeb_ge in G. lra.
  - apply classify_within in C. destruct C as [A B].
    apply andb_true_iff. split; [now apply Qgeb_ge|now apply Qleb_le].
  - unfold Spec.classify in C.
    destruct (Qltb v lo) eqn:L; [discriminate|].
    destruct (Qltb hi v) eqn:H; [|discriminate].
    apply Qltb_lt in H. apply andb_false_iff. right.
    now apply Qleb_gt.
Qed.

(** A latest reading with a parameter out of band needs attention. *)
Lemma needsAttention_out_of_band (this : Pool.pool) (now : Z)
    (latest : Pool.reading) :
  Pool.latestWaterChemistry this = Some latest ->
  Spec.classify 7.2 7.6 (Pool.pH latest) <> Spec.within
  \/ Spec.classify 1.0 3.0 (Pool.chlorine latest) <> Spec.within
  \/ Spec.classify 80 120 (Pool.alkalinity latest) <> Spec.within ->
  Pool.needsAttention this now = true.
Proof.
  intros H O. unfold Pool.needsAttention. rewrite H.
  unfold Pool.phOk, Pool.chlorineOk, Pool.alkalinityOk.
  rewrite !ok_flag_within.
  destruct (Spec.classify 7.2 7.6 (Pool.pH latest)),
    (Spec.classify 1.0 3.0 (Pool.chlorine latest)),
    (Spec.classify 80 120 (Pool.alkalinity latest));
    try reflexivity.
  exfalso. destruct O as [O|[O|O]]; now apply O.
Qed.

Lemma not_within_iff (v : Spec.verdict) :
  negb (Spec.is_within v) = true <-> v <> Spec.within.
Proof. destruct v; simpl; split; congruence. Qed.

(** C1. The per-parameter verdict is within exactly on the closed band
    (pH 7.2 to 7.6, chlorine 1.0 to 3.0, alkalinity 80 to 120); a reading is
    stale exactly when now minus testedAt exceeds seven days; needsAttention
    holds exactly when the reading is stale or a verdict is not within; and
    a pool without a reading needs attention.  The flags computed by
    needsAttention are these verdicts and this staleness. *)
Theorem needsAttention_evaluator (this : Pool.pool) (now : Z) :
  Pool.needsAttention this now
  = Spec.attention (Pool.latestWaterChemistry this) now
  /\
  match Pool.latestWaterChemistry this with
  | None => Pool.needsAttention this now = true
  | Some r =>
      let e := Spec.evaluate r now in
      (Spec.pHVerdict e = Spec.within
       <-> 7.2 <= Pool.pH r /\ Pool.pH r <= 7.6) /\
      (Spec.chlorineVerdict e = Spec.within
       <-> 1.0 <= Pool.chlorine r /\ Pool.chlorine r <= 3.0) /\
      (Spec.alkalinityVerdict e = Spec.within
       <-> 80 <= Pool.alkalinity r /\ Pool.alkalinity r <= 120) /\
      (Spec.staleness e = true
       <-> (7 * 24 * 60 * 60 * 1000 < now - Pool.testedAt r)%Z) /\
      Pool.phOk r = Spec.is_within (Spec.pHVerdict e) /\
      Pool.chlorineOk r = Spec.is_within (Spec.chlorineVerdict e) /\
      Pool.alkalinityOk r = Spec.is_within (Spec.alkalinityVerdict e) /\
      Pool.recentReading r now = negb (Spec.staleness e) /\
      (Pool.needsAttention this now = true
       <-> Spec.staleness e = true
           \/ Spec.pHVerdict e <> Spec.within
           \/ Spec.chlorineVerdict e <> Spec.within
           \/ Spec.alkalinityVerdict e <> Spec.within)
  end.
Proof.
  unfold Pool.needsAttention, Spec.attention.
  destruct (Pool.latestWaterChemistry this) as [r|]; [|split; reflexivity].
  assert (R : Pool.recentReading r now
              = negb (Spec.staleness (Spec.evaluate r now))).
  { unfold Pool.recentReading, Spec.evaluate, Spec.sevenDays.
    cbn [Spec.staleness]. apply Z.leb_antisym. }
  assert (P : Pool.phOk r
              = Spec.is_within (Spec.pHVerdict (Spec.evaluate r now)))
    by apply ok_flag_within.
  assert (C : Pool.chlorineOk r
              = Spec.is_within (Spec.chlorineVerdict (Spec.evaluate r now)))
    by apply ok_flag_within.
  assert (A : Pool.alkalinityOk r
              = Spec.is_within (Spec.alkalinityVerdict (Spec.evaluate r now)))
    by apply ok_flag_within.
  rewrite P, C, A, R.
  split.
  - simpl. destruct (Spec.sevenDays <? now - Pool.testedAt r)%Z;
      destruct (Spec.classify 7.2 7.6 (Pool.pH r));
      destruct (Spec.classify 1.0 3.0 (Pool.chlorine r));
      destruct (Spec.classify 80 120 (Pool.alkalinity r)); reflexivity.
  - cbv zeta.
    split; [apply classify_within|].
    split; [apply classify_within|].
    split; [apply classify_within|].
    split.
    { unfold Spec.evaluate, Spec.sevenDays; simpl. apply Z.ltb_lt. }
    do 4 (split; [reflexivity|]).
    rewrite !orb_true_iff, !not_within_iff, negb_involutive.
    tauto.
Qed.

(** * Recommendations of a pool *)

(** getRecommendations on a present reading: the three checks in order. *)
Lemma getRecommendations_present (this : Pool.pool) (latest : Pool.reading) :
  Pool.latestWaterChemistry this = Some latest ->
  Pool.getRecommendations this
  = pushed raisePH lowerPH (Spec.classify 7.2 7.6 (Pool.pH latest))
    ++ pushed addChlorine waitChlorine
         (Spec.classify 1.0 3.0 (Pool.chlorine latest))
    ++ pushed raiseAlkalinity lowerAlkalinity
         (Spec.classify 80 120 (Pool.alkalinity latest)).
Proof.
  intros H. unfold Pool.getRecommendations, Spec.classify. rewrite H.
  destruct (Qltb (Pool.pH latest) 7.2), (Qltb 7.6 (Pool.pH latest)),
    (Qltb (Pool.chlorine latest) 1.0), (Qltb 3.0 (Pool.chlorine latest)),
    (Qltb (Pool.alkalinity latest) 80), (Qltb 120 (Pool.alkalinity latest));
    reflexivity.
Qed.

Lemma getRecommendations_absent (this : Pool.pool) :
  Pool.latestWaterChemistry this = None ->
  Pool.getRecommendations this = [testNeeded].
Proof.
  intros H. unfold Pool.getRecommendations. now rewrite H.
Qed.

(** C5. For a present reading every out-of-band parameter contributes exactly
    one recommendation, with the kind and priority of the table, in the
    order pH, chlorine, alkalinity; the reading pH 7.8, chlorine 0.5,
    alkalinity 100 yields exactly lower-pH (high) then add-chlorine
    (urgent). *)
Theorem getRecommendations_table :
  (forall (this : Pool.pool) (latest : Pool.reading),
     Pool.latestWaterChemistry this = Some latest ->
     let p := Spec.classify 7.2 7.6 (Pool.pH latest) in
     let c := Spec.classify 1.0 3.0 (Pool.chlorine latest) in
     let a := Spec.classify 80 120 (Pool.alkalinity latest) in
     map Spec.kindPriority (Pool.getRecommendations this)
     = map Spec.row (Spec.table Spec.pHParam p
                     ++ Spec.table Spec.chlorineParam c
                     ++ Spec.table Spec.alkalinityParam a)
     /\ List.length (Pool.getRecommendations this)
        = (Spec.outside p + Spec.outside c + Spec.outside a)%nat)
  /\
  (forall (h cya t : Q) (tested : Z),
     Pool.getRecommendations
       {| Pool.waterChemistry :=
            [ {| Pool.pH := 7.8; Pool.chlorine := 0.5;
                 Pool.alkalinity := 100; Pool.hardness := h;
                 Pool.cyanuricAcid := cya; Pool.temperature := t;
                 Pool.testedAt := tested |} ] |}
     = [lowerPH; addChlorine]).
Proof.
  split.
  - intros this latest H p c a.
    rewrite (getRecommendations_present this latest H).
    fold p c a.
    destruct p, c, a; split; reflexivity.
  - intros h cya t tested.
    erewrite getRecommendations_present by apply latest_single.
    reflexivity.
Qed.

Lemma getRecommendations_table_witness :
  Pool.latestWaterChemistry
    {| Pool.waterChemistry :=
         [ {| Pool.pH := 7.0; Pool.chlorine := 3.5; Pool.alkalinity := 130;
              Pool.hardness := 200; Pool.cyanuricAcid := 0;
              Pool.temperature := 80; Pool.testedAt := 0 |} ] |}
  = Some {| Pool.pH := 7.0; Pool.chlorine := 3.5; Pool.alkalinity := 130;
            Pool.hardness := 200; Pool.cyanuricAcid := 0;
            Pool.temperature := 80; Pool.testedAt := 0 |}
  /\ map Spec.kindPriority
       (Pool.getRecommendations
          {| Pool.waterChemistry :=
               [ {| Pool.pH := 7.0; Pool.chlorine := 3.5;
                    Pool.alkalinity := 130; Pool.hardness := 200;
                    Pool.cyanuricAcid := 0; Pool.temperature := 80;
                    Pool.testedAt := 0 |} ] |})
     = [ ("chemical", Some "high"); ("safety", Some "medium");
         ("chemical", Some "medium") ].
Proof.
  split; [reflexivity|].
  exact (proj1 (proj1 getRecommendations_table
                  {| Pool.waterChemistry :=
                       [ {| Pool.pH := 7.0; Pool.chlorine := 3.5;
                            Pool.alkalinity := 130; Pool.hardness := 200;
                            Pool.cyanuricAcid := 0; Pool.temperature := 80;
                            Pool.testedAt := 0 |} ] |}
                  _ eq_refl)).
Defined.

(** The calls complete normally: the test of latest comes before every
    read of its properties. *)
Lemma call_needsAttention_normal (this : Pool.pool) (now : Z) :
  call_needsAttention this now = Normal (Pool.needsAttention this now).
Proof.
  unfold call_needsAttention, Pool.needsAttention.
  destruct (Pool.latestWaterChemistry this); reflexivity.
Qed.

Lemma call_getRecommendations_normal (this : Pool.pool) :
  call_getRecommendations this = Normal (Pool.getRecommendations this).
Proof.
  unfold call_getRecommendations, Pool.getRecommendations.
  destruct (Pool.latestWaterChemistry this) as [latest|]; [|reflexivity].
  cbn [is_null]. unfold pushEither. cbn [get bind].
  destruct (Qltb (Pool.pH latest) 7.2), (Qltb 7.6 (Pool.pH latest)),
    (Qltb (Pool.chlorine latest) 1.0), (Qltb 3.0 (Pool.chlorine latest)),
    (Qltb (Pool.alkalinity latest) 80), (Qltb 120 (Pool.alkalinity latest));
    reflexivity.
Qed.

(** Only pH, chlorine, alkalinity and the test time of the latest reading
    are read. *)
Lemma latest_fields_decide (this that : Pool.pool) (now : Z)
    (latest latest' : Pool.reading) :
  Pool.latestWaterChemistry this = Some latest ->
  Pool.latestWaterChemistry that = Some latest' ->
  Pool.pH latest' = Pool.pH latest ->
  Pool.chlorine latest' = Pool.chlorine latest ->
  Pool.alkalinity latest' = Pool.alkalinity latest ->
  Pool.testedAt latest' = Pool.testedAt latest ->
  Pool.getRecommendations that = Pool.getRecommendations this
  /\ Pool.needsAttention that now = Pool.needsAttention this now.
Proof.
  intros H H' P C A T. split.
  - rewrite (getRecommendations_present this latest H),
      (getRecommendations_present that latest' H').
    now rewrite P, C, A.
  - unfold Pool.needsAttention. rewrite H, H'.
    unfold Pool.phOk, Pool.chlorineOk, Pool.alkalinityOk, Pool.recentReading.
    now rewrite P, C, A, T.
Qed.

(** Counterexample to C8 as stated: asked about a reading with pH 20 the
    calls complete normally, with a band verdict, and throw nothing. *)
Lemma invalid_reading_not_rejected :
  let this :=
    {| Pool.waterChemistry :=
         [ {| Pool.pH := 20; Pool.chlorine := 2; Pool.alkalinity := 100;
              Pool.hardness := 200; Pool.cyanuricAcid := 0;
              Pool.temperature := 80; Pool.testedAt := 0 |} ] |} in
  call_getRecommendations this = Normal [lowerPH]
  /\ call_needsAttention this 0 = Normal true
  /\ call_getRecommendations this <> Throw "InvalidInputError"
  /\ call_needsAttention this 0 <> Throw "InvalidInputError".
Proof.
  cbv zeta. repeat split; try reflexivity; discriminate.
Qed.

(** C8, amended.  needsAttention and getRecommendations validate nothing and
    never fail: for every pool, also one whose latest reading breaks the
    declared ranges, both complete normally with the verdict of the three
    bands.  A pH above 14 is reported as too high, a pH below 0 as too low,
    a negative chlorine or alkalinity as too low, and the pool needs
    attention in each of these cases.  Hardness, cyanuric acid and
    temperature are not read at all: two pools whose latest readings agree
    on pH, chlorine, alkalinity and test time get the same results, so a
    negative hardness, cyanuric acid or temperature goes unnoticed, and a
    fresh reading within the three bands needs no attention and gets no
    recommendation whatever these three values are. *)
Theorem invalid_reading_gets_verdict (this : Pool.pool) (now : Z) :
  call_needsAttention this now = Normal (Pool.needsAttention this now)
  /\ call_getRecommendations this = Normal (Pool.getRecommendations this)
  /\ (forall latest,
        Pool.latestWaterChemistry this = Some latest ->
        (14 < Pool.pH latest ->
         In lowerPH (Pool.getRecommendations this)
         /\ Pool.needsAttention this now = true)
        /\ (Pool.pH latest < 0 ->
            In raisePH (Pool.getRecommendations this)
            /\ Pool.needsAttention this now = true)
        /\ (Pool.chlorine latest < 0 ->
            In addChlorine (Pool.getRecommendations this)
            /\ Pool.needsAttention this now = true)
        /\ (Pool.alkalinity latest < 0 ->
            In raiseAlkalinity (Pool.getRecommendations this)
            /\ Pool.needsAttention this now = true)
        /\ (forall that latest',
              Pool.latestWaterChemistry that = Some latest' ->
              Pool.pH latest' = Pool.pH latest ->
              Pool.chlorine latest' = Pool.chlorine latest ->
              Pool.alkalinity latest' = Pool.alkalinity latest ->
              Pool.testedAt latest' = Pool.testedAt latest ->
              Pool.getRecommendations that = Pool.getRecommendations this
              /\ Pool.needsAttention that now
                 = Pool.needsAttention this now))
  /\ (forall h c t : Q,
        call_getRecommendations (inBandPool h c t now) = Normal []
        /\ call_needsAttention (inBandPool h c t now) now = Normal false)
  /\ call_getRecommendations (inBandPool (-5) (-1) (-300) now) = Normal []
  /\ call_needsAttention (inBandPool (-5) (-1) (-300) now) now
     = Normal false.
Proof.
  assert (Q : forall h c t : Q,
            call_getRecommendations (inBandPool h c t now) = Normal []
            /\ call_needsAttention (inBandPool h c t now) now
               = Normal false).
  { intros h c t. split; [reflexivity|].
    rewrite call_needsAttention_normal. f_equal.
    unfold Pool.needsAttention, inBandPool. rewrite latest_single.
    unfold Pool.recentReading. cbn [Pool.testedAt].
    replace (now - now <=? 7 * 24 * 60 * 60 * 1000)%Z with true
      by (symmetry; apply Z.leb_le; lia).
    reflexivity. }
  split; [apply call_needsAttention_normal|].
  split; [apply call_getRecommendations_normal|].
  split; [|split; [exact Q|exact (Q (-5) (-1) (-300))]].
  intros latest H.
  pose proof (needsAttention_out_of_band this now latest H) as N.
  split; [|split; [|split; [|split]]].
  - intros I. rewrite (getRecommendations_present this latest H). split.
    + assert (C : Spec.classify 7.2 7.6 (Pool.pH latest) = Spec.above)
        by (apply classify_above; lra).
      rewrite C. simpl. now left.
    + apply N. left. intros C. apply classify_within in C. lra.
  - intros I. rewrite (getRecommendations_present this latest H). split.
    + assert (C : Spec.classify 7.2 7.6 (Pool.pH latest) = Spec.below)
        by (apply classify_below; lra).
      rewrite C. simpl. now left.
    + apply N. left. intros C. apply classify_within in C. lra.
  - intros I. rewrite (getRecommendations_present this latest H). split.
    + assert (C : Spec.classify 1.0 3.0 (Pool.chlorine latest) = Spec.below)
        by (apply classify_below; lra).
      rewrite C. apply in_or_app. right. simpl. now left.
    + apply N. right. left. intros C. apply classify_within in C. lra.
  - intros I. rewrite (getRecommendations_present this latest H). split.
    + assert (C : Spec.classify 80 120 (Pool.alkalinity latest) = Spec.below)
        by (apply classify_below; lra).
      rewrite C. apply in_or_app. right. apply in_or_app. right. simpl.
      now left.
    + apply N. right. right. intros C. apply classify_within in C. lra.
  - intros that latest' H' P C A T.
    exact (latest_fields_decide this that now latest latest' H H' P C A T).
Qed.

Lemma invalid_reading_gets_verdict_witness :
  let r := {| Pool.pH := 20; Pool.chlorine := 2; Pool.alkalinity := 100;
              Pool.hardness := 200; Pool.cyanuricAcid := 0;
              Pool.temperature := 80; Pool.testedAt := 0 |} in
  let this := {| Pool.waterChemistry := [r] |} in
  Pool.latestWaterChemistry this = Some r
  /\ 14 < Pool.pH r
  /\ In lowerPH (Pool.getRecommendations this)
  /\ Pool.needsAttention this 0 = true.
Proof.
  cbv zeta. split; [reflexivity|]. split; [reflexivity|].
  exact (proj1
           (proj1 (proj2 (proj2
              (invalid_reading_gets_verdict
                 {| Pool.waterChemistry :=
                      [ {| Pool.pH := 20; Pool.chlorine := 2;
                           Pool.alkalinity := 100; Pool.hardness := 200;
                           Pool.cyanuricAcid := 0; Pool.temperature := 80;
                           Pool.testedAt := 0 |} ] |} 0)))
              _ eq_refl)
           eq_refl).
Defined.

(** * Rule-based analysis without a reading *)

Lemma symptomStep_recommendations (a : Consulting.accumulators) (s : string) :
  Consulting.recommendations (Consulting.symptomStep a s)
  = Consulting.recommendations a ++ symptomRecommendations s.
Proof.
  unfold Consulting.symptomStep, symptomRecommendations.
  destruct (includes (toLowerCase s) "algae"),
    (includes (toLowerCase s) "cloudy"),
    (includes (toLowerCase s) "smell"); simpl;
    rewrite <- ?app_assoc; simpl; now rewrite ?app_nil_r.
Qed.

Lemma symptomStep_issues (a : Consulting.accumulators) (s : string) :
  Consulting.issues (Consulting.symptomStep a s) = Consulting.issues a.
Proof.
  unfold Consulting.symptomStep.
  destruct (includes (toLowerCase s) "algae"),
    (includes (toLowerCase s) "cloudy"),
    (includes (toLowerCase s) "smell"); reflexivity.
Qed.

Lemma forEach_symptom_recommendations (l : list string)
    (a : Consulting.accumulators) :
  Consulting.recommendations (fold_left Consulting.symptomStep l a)
  = Consulting.recommendations a ++ flat_map symptomRecommendations l.
Proof.
  revert a. induction l as [|s l IH]; intros a; simpl.
  - now rewrite app_nil_r.
  - now rewrite IH, symptomStep_recommendations, app_assoc.
Qed.

Lemma forEach_symptom_issues (l : list string) (a : Consulting.accumulators) :
  Consulting.issues (fold_left Consulting.symptomStep l a)
  = Consulting.issues a.
Proof.
  revert a. induction l as [|s l IH]; intros a; simpl; [reflexivity|].
  now rewrite IH, symptomStep_issues.
Qed.

(** Counterexample to C3 as stated, on the function that takes the
    symptoms: without a reading generateRuleBasedAnalysis still checks every
    symptom, here emitting two symptom-derived recommendations and no
    request for a water test. *)
Lemma absent_reading_symptoms_still_checked :
  let symptoms := Some ["Algae on the steps"; "cloudy water"] in
  Consulting.recommendations (Consulting.ruleBasedAccumulators None symptoms)
  = [ "Shock treatment with chlorine, brush walls, and run filtration 24/7 until clear";
      "Check and clean filter, test water chemistry, consider clarifier treatment" ]
  /\ List.length
       (Consulting.recommendations
          (Consulting.ruleBasedAccumulators None symptoms)) <> 1%nat
  /\ includes (Consulting.generateRuleBasedAnalysis None symptoms)
       "2. Check and clean filter" = true
  /\ includes (Consulting.generateRuleBasedAnalysis None symptoms)
       "Water chemistry test needed immediately" = false.
Proof.
  cbv zeta. split; [reflexivity|]. split; [discriminate|].
  split; vm_compute; reflexivity.
Qed.

(** C3, amended.  getRecommendations, which takes no symptoms, returns for a
    pool without a reading exactly the one urgent recommendation "Water
    chemistry test needed immediately".  generateRuleBasedAnalysis, which
    takes the symptoms, has no such early return: without a reading it
    skips the chemistry checks, finds no issue, and emits the
    recommendations of the symptoms, in the order of the symptoms. *)
Theorem absent_reading_recommendations :
  (forall this : Pool.pool,
     Pool.latestWaterChemistry this = None ->
     Pool.getRecommendations this = [testNeeded]
     /\ Pool.type testNeeded = "urgent"
     /\ Pool.message testNeeded = "Water chemistry test needed immediately")
  /\
  (forall symptoms : option (list string),
     Consulting.recommendations
       (Consulting.ruleBasedAccumulators None symptoms)
     = flat_map symptomRecommendations (suppliedSymptoms symptoms)
     /\ Consulting.issues (Consulting.ruleBasedAccumulators None symptoms)
        = []).
Proof.
  split.
  - intros this H. split; [now apply getRecommendations_absent|].
    split; reflexivity.
  - intros symptoms. unfold Consulting.ruleBasedAccumulators.
    fold (suppliedSymptoms symptoms).
    destruct (suppliedSymptoms symptoms) as [|s l]; [split; reflexivity|].
    cbv zeta.
    replace (0 <? List.length (s :: l))%nat with true by reflexivity.
    now rewrite forEach_symptom_recommendations, forEach_symptom_issues.
Qed.

Lemma absent_reading_recommendations_witness :
  Pool.latestWaterChemistry {| Pool.waterChemistry := [] |} = None
  /\ Pool.getRecommendations {| Pool.waterChemistry := [] |} = [testNeeded].
Proof.
  split; [reflexivity|].
  exact (proj1 (proj1 absent_reading_recommendations
                  {| Pool.waterChemistry := [] |} eq_refl)).
Defined.

(** * The quality score of a maintenance event *)

Lemma clampJs_range (x : Q) : 0 <= clampJs x /\ clampJs x <= 100.
Proof.
  unfold clampJs. split; [apply Q.le_max_l|].
  apply Q.max_lub; [lra|apply Q.le_min_l].
Qed.

Lemma clampJs_monotone (x y : Q) : x <= y -> clampJs x <= clampJs y.
Proof.
  intros H. unfold clampJs.
  now apply Q.max_le_compat_l, Q.min_le_compat_l.
Qed.

Lemma clampJs_clamp (x : Q) : clampJs x == Spec.clamp x.
Proof.
  unfold clampJs, Spec.clamp.
  destruct (Q.min_spec 100 x) as [[A B]|[A B]];
    destruct (Q.max_spec 0 (Qmin 100 x)) as [[C D]|[C D]];
    rewrite D; rewrite B in *.
  - destruct (Qltb x 0) eqn:E; [apply Qltb_lt in E; lra|].
    destruct (Qltb 100 x) eqn:F; [reflexivity|]. apply Qltb_ge in F. lra.
  - lra.
  - destruct (Qltb x 0) eqn:E; [apply Qltb_lt in E; lra|].
    destruct (Qltb 100 x) eqn:F; [apply Qltb_lt in F; lra|reflexivity].
  - destruct (Qltb x 0) eqn:E; [reflexivity|].
    apply Qltb_ge in E.
    destruct (Qltb 100 x) eqn:F; [apply Qltb_lt in F; lra|lra].
Qed.

Lemma clampJs_comp (x y : Q) : x == y -> clampJs x == clampJs y.
Proof.
  intros H. apply Qle_antisym; apply clampJs_monotone; rewrite H; lra.
Qed.

Lemma count_cons {A : Type} (p : A -> bool) (x : A) (l : list A) :
  MaintenanceLog.count p (x :: l)
  == (if p x then 1 else 0) + MaintenanceLog.count p l.
Proof.
  unfold MaintenanceLog.count. simpl.
  destruct (p x); [|lra].
  cbn [List.length]. rewrite Nat2Z.inj_succ. unfold Z.succ.
  rewrite inject_Z_plus. change (inject_Z 1) with 1. lra.
Qed.

Lemma incomplete_penalty (l : list MaintenanceLog.task) :
  MaintenanceLog.count incomplete l * 10 == Spec.total Spec.taskPenalty l.
Proof.
  induction l as [|t l IH]; [reflexivity|].
  rewrite count_cons. cbn [Spec.total]. rewrite <- IH.
  unfold incomplete, Spec.taskPenalty.
  destruct (MaintenanceLog.status t); simpl; lra.
Qed.

Lemma severity_penalty (l : list MaintenanceLog.issue) :
  MaintenanceLog.count (MaintenanceLog.severity_is MaintenanceLog.critical) l
  * 20
  + MaintenanceLog.count (MaintenanceLog.severity_is MaintenanceLog.major) l
    * 10
  == Spec.total Spec.issuePenalty l.
Proof.
  induction l as [|i l IH]; [reflexivity|].
  rewrite !count_cons. cbn [Spec.total]. rewrite <- IH.
  unfold MaintenanceLog.severity_is, Spec.issuePenalty.
  destruct (MaintenanceLog.severity i) as [[]|]; simpl; lra.
Qed.

(** The score is the clamp of the raw score of the counts. *)
Lemma calculateQualityScore_counts (e : MaintenanceLog.maintenanceLog) :
  MaintenanceLog.calculateQualityScore e
  = clampJs
      (rawScore
         (List.length (filter incomplete (MaintenanceLog.tasks e)))
         (Spec.severityCount MaintenanceLog.critical e)
         (Spec.severityCount MaintenanceLog.major e)
         (MaintenanceLog.truthyRating e)).
Proof.
  unfold MaintenanceLog.calculateQualityScore, clampJs, rawScore,
    Spec.severityCount, MaintenanceLog.count.
  destruct (MaintenanceLog.truthyRating e); reflexivity.
Qed.

Lemma incomplete_filter (l : list MaintenanceLog.task) :
  filter incomplete l
  = filter (fun t => match MaintenanceLog.status t with
                     | MaintenanceLog.failed | MaintenanceLog.skipped => true
                     | _ => false
                     end) l.
Proof.
  apply filter_ext. intros t. unfold incomplete.
  destruct (MaintenanceLog.status t); reflexivity.
Qed.

Lemma truthyRating_valid (e : MaintenanceLog.maintenanceLog) :
  (forall r, Spec.ratingOf e = Some r -> ~ r == 0) ->
  MaintenanceLog.truthyRating e = Spec.ratingOf e.
Proof.
  unfold MaintenanceLog.truthyRating, Spec.ratingOf.
  destruct (MaintenanceLog.customerFeedback e) as [fb|]; [|reflexivity].
  destruct (MaintenanceLog.rating fb) as [r|]; [|reflexivity].
  intros H. destruct (Qeq_bool r 0) eqn:E; [|reflexivity].
  apply Qeq_bool_iff in E. now destruct (H r eq_refl).
Qed.

Lemma rawScore_total (e : MaintenanceLog.maintenanceLog) :
  rawScore
    (List.length (filter incomplete (MaintenanceLog.tasks e)))
    (Spec.severityCount MaintenanceLog.critical e)
    (Spec.severityCount MaintenanceLog.major e)
    (Spec.ratingOf e)
  == 100 - Spec.total Spec.taskPenalty (MaintenanceLog.tasks e)
     - Spec.total Spec.issuePenalty (MaintenanceLog.issues e)
     + Spec.ratingAdjustment e.
Proof.
  rewrite <- incomplete_penalty, <- severity_penalty.
  unfold rawScore, Spec.ratingAdjustment, Spec.severityCount,
    MaintenanceLog.count.
  destruct (Spec.ratingOf e); cbv zeta; lra.
Qed.

Lemma of_nat_le (n m : nat) :
  (n <= m)%nat -> inject_Z (Z.of_nat n) <= inject_Z (Z.of_nat m).
Proof. intros H. rewrite <- Zle_Qle. lia. Qed.

Lemma rawScore_antitone (i1 c1 m1 i2 c2 m2 : nat) (r : option Q) :
  (i1 <= i2)%nat -> (c1 <= c2)%nat -> (m1 <= m2)%nat ->
  rawScore i2 c2 m2 r <= rawScore i1 c1 m1 r.
Proof.
  intros I C M. apply of_nat_le in I, C, M.
  unfold rawScore. destruct r; cbv zeta; lra.
Qed.

(** C2. The quality score is 100, minus 10 per failed or skipped task, minus
    20 per critical and 10 per major issue, plus (rating - 3) * 5 for a
    rating that is present, clamped to [0,100] once at the end; a minor or
    moderate issue changes nothing; the example event scores 80, and eleven
    failed tasks with a rating of 5 score 0, the clamp of 0 and not 10. *)
Theorem calculateQualityScore_formula :
  (forall e : MaintenanceLog.maintenanceLog,
     (forall r, Spec.ratingOf e = Some r -> ~ r == 0) ->
     MaintenanceLog.calculateQualityScore e == Spec.score e)
  /\
  (forall (e : MaintenanceLog.maintenanceLog) (i : MaintenanceLog.issue),
     MaintenanceLog.severity i = Some MaintenanceLog.minor
     \/ MaintenanceLog.severity i = Some MaintenanceLog.moderate ->
     MaintenanceLog.calculateQualityScore
       (withIssues (i :: MaintenanceLog.issues e) e)
     = MaintenanceLog.calculateQualityScore e)
  /\ MaintenanceLog.calculateQualityScore exampleEvent == 80
  /\ MaintenanceLog.calculateQualityScore
       {| MaintenanceLog.tasks := repeat (taskOf MaintenanceLog.failed) 11;
          MaintenanceLog.issues := [];
          MaintenanceLog.customerFeedback := rated 5 |} == 0.
Proof.
  split; [|split; [|split]].
  - intros e V.
    rewrite calculateQualityScore_counts, (truthyRating_valid e V).
    unfold Spec.score. rewrite <- clampJs_clamp.
    apply clampJs_comp, rawScore_total.
  - intros e i H.
    assert (C : MaintenanceLog.severity_is MaintenanceLog.critical i = false)
      by (unfold MaintenanceLog.severity_is; destruct H as [-> | ->];
          reflexivity).
    assert (M : MaintenanceLog.severity_is MaintenanceLog.major i = false)
      by (unfold MaintenanceLog.severity_is; destruct H as [-> | ->];
          reflexivity).
    rewrite !calculateQualityScore_counts.
    unfold Spec.severityCount, withIssues.
    cbn [MaintenanceLog.tasks MaintenanceLog.issues filter].
    now rewrite C, M.
  - vm_compute. reflexivity.
  - vm_compute. reflexivity.
Qed.

Lemma calculateQualityScore_formula_witness :
  (forall r, Spec.ratingOf exampleEvent = Some r -> ~ r == 0)
  /\ MaintenanceLog.calculateQualityScore exampleEvent
     == Spec.score exampleEvent.
Proof.
  assert (V : forall r, Spec.ratingOf exampleEvent = Some r -> ~ r == 0).
  { intros r [= <-]. discriminate. }
  split; [exact V|].
  exact (proj1 calculateQualityScore_formula exampleEvent V).
Defined.

(** C7. With the feedback fixed, the quality score does not increase when the
    number of failed or skipped tasks, of critical issues or of major issues
    grows; and for every event, fifty critical issues included, the score
    lies in [0,100]. *)
Theorem calculateQualityScore_monotone_bounded :
  (forall e : MaintenanceLog.maintenanceLog,
     0 <= MaintenanceLog.calculateQualityScore e
     /\ MaintenanceLog.calculateQualityScore e <= 100)
  /\
  (forall e1 e2 : MaintenanceLog.maintenanceLog,
     MaintenanceLog.customerFeedback e1 = MaintenanceLog.customerFeedback e2 ->
     (Spec.incompleteCount e1 <= Spec.incompleteCount e2)%nat ->
     (Spec.severityCount MaintenanceLog.critical e1
      <= Spec.severityCount MaintenanceLog.critical e2)%nat ->
     (Spec.severityCount MaintenanceLog.major e1
      <= Spec.severityCount MaintenanceLog.major e2)%nat ->
     MaintenanceLog.calculateQualityScore e2
     <= MaintenanceLog.calculateQualityScore e1)
  /\
  (let e := {| MaintenanceLog.tasks := [];
               MaintenanceLog.issues :=
                 repeat (issueOf MaintenanceLog.critical) 50;
               MaintenanceLog.customerFeedback := rated 5 |} in
   MaintenanceLog.calculateQualityScore e == 0).
Proof.
  split; [|split].
  - intros e. rewrite calculateQualityScore_counts. apply clampJs_range.
  - intros e1 e2 F I C M.
    rewrite !calculateQualityScore_counts.
    unfold Spec.incompleteCount in I. rewrite <- !incomplete_filter in I.
    assert (R : MaintenanceLog.truthyRating e2
                = MaintenanceLog.truthyRating e1).
    { unfold MaintenanceLog.truthyRating. now rewrite F. }
    rewrite R. now apply clampJs_monotone, rawScore_antitone.
  - vm_compute. reflexivity.
Qed.

Lemma calculateQualityScore_monotone_bounded_witness :
  let e1 := exampleEvent in
  let e2 := withIssues (issueOf MaintenanceLog.major
                        :: MaintenanceLog.issues exampleEvent)
              (withTasks (taskOf MaintenanceLog.skipped
                          :: MaintenanceLog.tasks exampleEvent)
                 exampleEvent) in
  (Spec.incompleteCount e1 < Spec.incompleteCount e2)%nat
  /\ MaintenanceLog.calculateQualityScore e2
     <= MaintenanceLog.calculateQualityScore e1.
Proof.
  cbv zeta. split; [vm_compute; lia|].
  apply (proj1 (proj2 calculateQualityScore_monotone_bounded)).
  - reflexivity.
  - vm_compute. lia.
  - vm_compute. lia.
  - vm_compute. lia.
Defined.

(** * The weekly grade *)


Lemma undef_tests_outOfBandb (lo hi : Q) (v : option Q) :
  undef_ltb v lo || undef_gtb v hi = Spec.outOfBandb lo hi v.
Proof. destruct v; reflexivity. Qed.

Lemma calculateChemistryScore_present (results : Premium.testResults) :
  Premium.calculateChemistryScore (Some results)
  == 100
     - Spec.deduction (Spec.outOfBandb 7.2 7.6 (Premium.pH results)) 20
     - Spec.deduction (Spec.outOfBandb 1.0 3.0 (Premium.chlorine results)) 20
     - Spec.deduction (Spec.outOfBandb 80 120 (Premium.alkalinity results)) 15.
Proof.
  unfold Premium.calculateChemistryScore.
  rewrite !undef_tests_outOfBandb.
  destruct (Spec.outOfBandb 7.2 7.6 (Premium.pH results)),
    (Spec.outOfBandb 1.0 3.0 (Premium.chlorine results)),
    (Spec.outOfBandb 80 120 (Premium.alkalinity results));
    vm_compute; reflexivity.
Qed.

(** ** The order of doubles *)













(** * Missing test results *)

(** C9. Without test results, whether the water sample is missing or has
    none, the chemistry sub-score of the weekly analysis is 50, neither the
    70 of a missing clarity or equipment nor a failure, and it is this 50
    that enters the mean behind the overall grade, next to the clarity and
    equipment scores: a flawless inspection without test results is graded
    B, the grade of (50, 100, 100), where 70 would have given B+.  The
    score 50 also raises the chemistry recommendation and alert. *)
Theorem missing_test_results_score_50 :
  (forall d : Premium.assessmentData,
     Premium.testResults_of d = None ->
     let a := Premium.performWeeklyAIAnalysis d in
     Premium.chemistryScore a = 50
     /\ Premium.overallGrade a
        = Premium.calculateOverallGrade 50 (Premium.clarityScore a)
            (Premium.equipmentScore a)
     /\ Premium.clarityScore a
        = Premium.calculateClarityScore (Premium.waterClarity_of d)
     /\ Premium.equipmentScore a
        = Premium.calculateEquipmentScore (Premium.equipmentStatus_of d)
     /\ List.length (Premium.recommendations a) = 1%nat
     /\ List.length (Premium.alerts a) = 1%nat)
  /\ Premium.calculateChemistryScore None = 50
  /\ ~ Premium.calculateChemistryScore None == 70
  /\ Premium.calculateClarityScore None = 70
  /\ Premium.calculateEquipmentScore None = 70
  /\ Premium.chemistryScore (Premium.performWeeklyAIAnalysis emptyAssessment)
     = 50
  /\ Premium.overallGrade (Premium.performWeeklyAIAnalysis emptyAssessment)
     = Premium.calculateOverallGrade 50 70 70
  /\ Premium.overallGrade
       (Premium.performWeeklyAIAnalysis flawlessInspection) = "B"
  /\ Premium.calculateOverallGrade 50 100 100 = "B"
  /\ Premium.calculateOverallGrade 70 100 100 = "B+".
Proof.
  split.
  - intros d H a. unfold a, Premium.performWeeklyAIAnalysis.
    cbn [Premium.chemistryScore Premium.overallGrade Premium.clarityScore
         Premium.equipmentScore].
    rewrite H. cbn [Premium.calculateChemistryScore].
    cbn [Premium.recommendations Premium.alerts].
    repeat split; reflexivity.
  - repeat split; try reflexivity. discriminate.
Qed.

Lemma missing_test_results_score_50_witness :
  Premium.testResults_of flawlessInspection = None
  /\ Premium.chemistryScore
       (Premium.performWeeklyAIAnalysis flawlessInspection) = 50.
Proof.
  split; [reflexivity|].
  exact (proj1 (proj1 missing_test_results_score_50 flawlessInspection
                  eq_refl)).
Defined.

(** * Trends *)

Lemma ceil_half_div2 (n : nat) : Consulting.ceil_half n = Nat.div2 (S n).
Proof.
  unfold Consulting.ceil_half. rewrite Nat.div2_div.
  apply Nat2Z.inj. rewrite Nat2Z.inj_div.
  assert (E : Qceiling (inject_Z (Z.of_nat n) / 2)
              = (- (- Z.of_nat n / 2))%Z).
  { unfold Qceiling, Qfloor, Qdiv, Qmult, Qinv, Qopp, inject_Z. simpl.
    now rewrite Z.mul_1_r. }
  rewrite E.
  assert (P : (0 <= - (- Z.of_nat n / 2))%Z).
  { pose proof (Nat2Z.is_nonneg n).
    Z.to_euclidean_division_equations. lia. }
  rewrite Z2Nat.id by exact P.
  pose proof (Nat2Z.is_nonneg n).
  rewrite Nat2Z.inj_succ.
  Z.to_euclidean_division_equations. lia.
Qed.


Lemma defined_length (l : list (option Q)) :
  (List.length (Consulting.defined l) <= List.length l)%nat.
Proof.
  induction l as [|[v|] l IH]; simpl; lia.
Qed.

Lemma values_of_length (readings : list Consulting.chemistry)
    (parameter : string) :
  (List.length (Consulting.values_of readings parameter)
   <= List.length readings)%nat.
Proof.
  unfold Consulting.values_of.
  rewrite <- (length_map (fun r => Consulting.prop r parameter) readings).
  apply defined_length.
Qed.






(** calculateTrend decides on the usable values alone. *)
Lemma calculateTrend_values (readings : list Consulting.chemistry)
    (parameter : string) :
  Consulting.calculateTrend readings parameter
  = let values := Consulting.values_of readings parameter in
    if (List.length values <? 2)%nat then "insufficient_data"
    else
      let change := Consulting.percentChange values in
      if JsNum.ltb (JsNum.abs change) (JsNum.Fin 5) then "stable"
      else if JsNum.gtb change (JsNum.Fin 0) then "increasing"
      else "decreasing".
Proof.
  unfold Consulting.calculateTrend. cbv zeta.
  destruct (List.length readings <? 2)%nat eqn:E; [|reflexivity].
  apply Nat.ltb_lt in E.
  pose proof (values_of_length readings parameter) as L.
  replace (List.length (Consulting.values_of readings parameter) <? 2)%nat
    with true; [reflexivity|].
  symmetry. apply Nat.ltb_lt. lia.
Qed.



(** ** The trend in doubles *)

Lemma runningTotal_fold (l : list PrimFloat.float) (acc : PrimFloat.float) :
  Spec.runningTotal acc l = fold_left PrimFloat.add l acc.
Proof.
  revert acc. induction l as [|x l IH]; intros acc; simpl; [reflexivity|].
  apply IH.
Qed.

Lemma average_double (l : list PrimFloat.float) :
  Trend.average l = Spec.average l.
Proof.
  unfold Trend.average, Spec.average, Trend.sum.
  now rewrite runningTotal_fold.
Qed.

Lemma defined_length_double (l : list (option PrimFloat.float)) :
  (List.length (Trend.defined l) <= List.length l)%nat.
Proof.
  induction l as [|[v|] l IH]; simpl; lia.
Qed.

Lemma values_of_length_double (readings : list Trend.reading)
    (parameter : string) :
  (List.length (Trend.values_of readings parameter)
   <= List.length readings)%nat.
Proof.
  unfold Trend.values_of.
  rewrite <- (length_map (fun r => Trend.prop r parameter) readings).
  apply defined_length_double.
Qed.

(** The usable values are the defined properties, in the order of the
    readings. *)
Lemma values_of_defined (readings : list Trend.reading)
    (parameter : string) :
  map Some (Trend.values_of readings parameter)
  = filter is_defined (map (fun r => r parameter) readings).
Proof.
  unfold Trend.values_of, Trend.prop.
  induction readings as [|r l IH]; [reflexivity|].
  cbn [map]. destruct (r parameter) as [v|]; cbn [Trend.defined filter
    is_defined map]; [now rewrite IH | exact IH].
Qed.

(** calculateTrend in doubles decides on the usable values alone. *)
Lemma calculateTrend_values_double (readings : list Trend.reading)
    (parameter : string) :
  Trend.calculateTrend readings parameter
  = let values := Trend.values_of readings parameter in
    if (List.length values <? 2)%nat then "insufficient_data"
    else
      let change := Trend.percentChange values in
      if PrimFloat.ltb (PrimFloat.abs change) 5 then "stable"
      else if PrimFloat.ltb 0 change then "increasing"
      else "decreasing".
Proof.
  unfold Trend.calculateTrend. cbv zeta.
  destruct (List.length readings <? 2)%nat eqn:E; [|reflexivity].
  apply Nat.ltb_lt in E.
  pose proof (values_of_length_double readings parameter) as L.
  replace (List.length (Trend.values_of readings parameter) <? 2)%nat
    with true; [reflexivity|].
  symmetry. apply Nat.ltb_lt. lia.
Qed.

(** The percent change in terms of the two means. *)
Lemma percentChange_double (values : list PrimFloat.float) :
  Trend.percentChange values
  = let half := Nat.div2 (S (List.length values)) in
    let recent := Spec.average (firstn half values) in
    let older := Spec.average (skipn half values) in
    ((recent - older) / older * 100)%float.
Proof.
  unfold Trend.percentChange, Trend.recentHalf, Trend.olderHalf.
  cbv zeta. now rewrite !average_double, ceil_half_div2.
Qed.

Lemma Prim2SF_five :
  FloatOps.Prim2SF 5%float
  = SpecFloat.S754_finite false 5629499534213120 (-50).
Proof. vm_compute. reflexivity. Qed.

Lemma Prim2SF_zero : FloatOps.Prim2SF 0%float = SpecFloat.S754_zero false.
Proof. vm_compute. reflexivity. Qed.

(** A number that is neither within 5 of zero nor above zero is below
    zero. *)
Lemma change_negative (c : PrimFloat.float) :
  PrimFloat.is_nan c = false ->
  PrimFloat.ltb (PrimFloat.abs c) 5 = false ->
  PrimFloat.ltb 0 c = false ->
  PrimFloat.ltb c 0 = true.
Proof.
  unfold PrimFloat.is_nan.
  rewrite (FloatAxioms.ltb_spec (PrimFloat.abs c) 5),
    (FloatAxioms.ltb_spec 0 c), (FloatAxioms.ltb_spec c 0),
    (FloatAxioms.eqb_spec c c), (FloatAxioms.abs_spec c),
    Prim2SF_five, Prim2SF_zero.
  destruct (FloatOps.Prim2SF c) as [s|s| |s m e]; try destruct s;
    unfold SpecFloat.SFltb, SpecFloat.SFeqb, SpecFloat.SFabs,
      SpecFloat.SFcompare;
    try congruence.
  cbn [negb]. discriminate.
Qed.

(** No number is both above and below zero. *)
Lemma above_not_below (c : PrimFloat.float) :
  PrimFloat.ltb 0 c = true -> PrimFloat.ltb c 0 = true -> False.
Proof.
  rewrite (FloatAxioms.ltb_spec 0 c), (FloatAxioms.ltb_spec c 0),
    Prim2SF_zero.
  destruct (FloatOps.Prim2SF c) as [s|s| |s m e]; try destruct s;
    unfold SpecFloat.SFltb, SpecFloat.SFcompare; congruence.
Qed.

(** C6. The trend is the classification of the specification on the
    usable values, the defined properties in the order of the readings:
    with fewer than two of them it is insufficient_data; otherwise the
    values are split into the ceil(n/2) most recent and the rest, the
    percent change is (recent mean - older mean) / older mean * 100 in the
    arithmetic of doubles, and the trend is stable when its absolute value
    is below 5, else increasing when it is above 0 and decreasing when it
    is not, which for a number means below 0.  The pH readings 7.0, 7.1,
    7.5, 7.6, most recent first, are decreasing; five readings of 7 before
    one of 6 change by a little less than 5 percent and are stable. *)
Theorem calculateTrend_classification :
  (forall (readings : list Trend.reading) (parameter : string),
     Trend.calculateTrend readings parameter
     = Spec.trend (Trend.values_of readings parameter))
  /\
  (forall (readings : list Trend.reading) (parameter : string),
     map Some (Trend.values_of readings parameter)
     = filter is_defined (map (fun r => r parameter) readings))
  /\
  (forall (readings : list Trend.reading) (parameter : string),
     (List.length (Trend.values_of readings parameter) < 2)%nat ->
     Trend.calculateTrend readings parameter = "insufficient_data")
  /\
  (forall (readings : list Trend.reading) (parameter : string),
     let values := Trend.values_of readings parameter in
     let half := Nat.div2 (S (List.length values)) in
     let recent := Spec.average (firstn half values) in
     let older := Spec.average (skipn half values) in
     let change := ((recent - older) / older * 100)%float in
     let result := Trend.calculateTrend readings parameter in
     (2 <= List.length values)%nat ->
     (result = "stable" <-> Double.lt (Double.abs change) 5)
     /\ (result = "increasing"
         <-> ~ Double.lt (Double.abs change) 5 /\ Double.lt 0 change)
     /\ (result = "decreasing"
         <-> ~ Double.lt (Double.abs change) 5 /\ ~ Double.lt 0 change)
     /\ (PrimFloat.is_nan change = false ->
         (result = "decreasing"
          <-> ~ Double.lt (Double.abs change) 5 /\ Double.lt change 0)))
  /\ Trend.calculateTrend
       [phOnly 7.0; phOnly 7.1; phOnly 7.5; phOnly 7.6] "pH"
     = "decreasing"
  /\ Trend.percentChange [7.0; 7.1; 7.5; 7.6]%float
     = (-6.6225165562913908)%float
  /\ Trend.calculateTrend boundaryExample "pH" = "stable"
  /\ Trend.percentChange [7; 7; 7; 7; 7; 6]%float
     = 4.9999999999999956%float.
Proof.
  split; [|split; [|split; [|split]]].
  - intros readings parameter.
    rewrite calculateTrend_values_double. unfold Spec.trend. cbv zeta.
    destruct (List.length (Trend.values_of readings parameter) <? 2)%nat;
      [reflexivity|].
    now rewrite percentChange_double.
  - apply values_of_defined.
  - intros readings parameter H.
    rewrite calculateTrend_values_double. cbv zeta.
    apply Nat.ltb_lt in H. now rewrite H.
  - intros readings parameter values half recent older change result H.
    unfold result. rewrite calculateTrend_values_double. cbv zeta.
    fold values.
    replace (List.length values <? 2)%nat with false
      by (symmetry; now apply Nat.ltb_ge).
    rewrite percentChange_double. cbv zeta. fold half recent older change.
    unfold Double.lt, Double.ltb, Double.abs.
    destruct (PrimFloat.ltb (PrimFloat.abs change) 5) eqn:A.
    { split; [split; reflexivity|].
      split; [split; [discriminate|intros [K _]; now contradiction K]|].
      split; [split; [discriminate|intros [K _]; now contradiction K]|].
      intros _. split; [discriminate|intros [K _]; now contradiction K]. }
    destruct (PrimFloat.ltb 0 change) eqn:B.
    { split; [split; discriminate|].
      split; [split; [intros _; split; [discriminate|reflexivity]
                     |reflexivity]|].
      split; [split; [discriminate|intros [_ K]; now contradiction K]|].
      intros _. split; [discriminate|].
      intros [_ K]. exfalso. exact (above_not_below change B K). }
    split; [split; discriminate|].
    split; [split; [discriminate|intros [_ K]; discriminate K]|].
    split; [split; [intros _; split; discriminate|reflexivity]|].
    intros N. split; [|reflexivity].
    intros _. split; [discriminate|].
    now apply change_negative.
  - repeat split; reflexivity.
Qed.

Lemma calculateTrend_classification_witness :
  let values := Trend.values_of trendExample "pH" in
  let recent := Spec.average (firstn 2 values) in
  let older := Spec.average (skipn 2 values) in
  let change := ((recent - older) / older * 100)%float in
  (2 <= List.length values)%nat
  /\ PrimFloat.is_nan change = false
  /\ ~ Double.lt (Double.abs change) 5
  /\ Double.lt change 0
  /\ Trend.calculateTrend trendExample "pH" = "decreasing".
Proof.
  cbv zeta.
  set (values := Trend.values_of trendExample "pH").
  assert (L : (2 <= List.length values)%nat) by (vm_compute; lia).
  assert (N : PrimFloat.is_nan
                ((Spec.average (firstn 2 values)
                  - Spec.average (skipn 2 values))
                 / Spec.average (skipn 2 values) * 100)%float = false)
    by reflexivity.
  assert (A : ~ Double.lt
                (Double.abs
                   ((Spec.average (firstn 2 values)
                     - Spec.average (skipn 2 values))
                    / Spec.average (skipn 2 values) * 100)%float) 5)
    by (vm_compute; discriminate).
  assert (B : Double.lt
                ((Spec.average (firstn 2 values)
                  - Spec.average (skipn 2 values))
                 / Spec.average (skipn 2 values) * 100)%float 0)
    by reflexivity.
  split; [exact L|]. split; [exact N|]. split; [exact A|].
  split; [exact B|].
  exact (proj2
           (proj2 (proj2 (proj2
              (proj1 (proj2 (proj2 (proj2 calculateTrend_classification)))
                 trendExample "pH" L))) N)
           (conj A B)).
Defined.









(** * A zero older mean in doubles *)

Lemma Prim2SF_hundred :
  FloatOps.Prim2SF 100%float
  = SpecFloat.S754_finite false 7036874417766400 (-46).
Proof. vm_compute. reflexivity. Qed.

Lemma Prim2SF_infinity :
  FloatOps.Prim2SF PrimFloat.infinity = SpecFloat.S754_infinity false.
Proof. vm_compute. reflexivity. Qed.

Lemma eqb_zero (x : PrimFloat.float) :
  PrimFloat.eqb x 0 = true ->
  exists s, FloatOps.Prim2SF x = SpecFloat.S754_zero s.
Proof.
  rewrite (FloatAxioms.eqb_spec x 0), Prim2SF_zero.
  destruct (FloatOps.Prim2SF x) as [s|s| |s m e];
    unfold SpecFloat.SFeqb, SpecFloat.SFcompare.
  - intros _. now exists s.
  - destruct s; discriminate.
  - discriminate.
  - destruct s; discriminate.
Qed.

(** A quotient by zero, times 100, is NaN or an infinity. *)
Lemma change_over_zero (r o : PrimFloat.float) :
  PrimFloat.eqb o 0 = true ->
  let change := ((r - o) / o * 100)%float in
  FloatOps.Prim2SF change = SpecFloat.S754_nan
  \/ exists s, FloatOps.Prim2SF change = SpecFloat.S754_infinity s.
Proof.
  intros Z change. destruct (eqb_zero o Z) as [s E]. unfold change.
  rewrite (FloatAxioms.mul_spec ((r - o) / o) 100),
    (FloatAxioms.div_spec (r - o) o), (FloatAxioms.sub_spec r o), E,
    Prim2SF_hundred.
  unfold FloatAxioms.SF64mul, FloatAxioms.SF64div, FloatAxioms.SF64sub.
  destruct (FloatOps.Prim2SF r) as [sr|sr| |sr m e];
    unfold SpecFloat.SFsub, SpecFloat.SFdiv, SpecFloat.SFmul.
  - left. now destruct sr, s.
  - right. now exists (xorb (xorb sr s) false).
  - now left.
  - right. now exists (xorb (xorb sr s) false).
Qed.

(** NaN and the infinities are not finite and not within 5 of zero. *)
Lemma not_finite_not_small (c : PrimFloat.float) :
  FloatOps.Prim2SF c = SpecFloat.S754_nan
  \/ (exists s, FloatOps.Prim2SF c = SpecFloat.S754_infinity s) ->
  PrimFloat.is_finite c = false
  /\ PrimFloat.ltb (PrimFloat.abs c) 5 = false.
Proof.
  unfold PrimFloat.is_finite, PrimFloat.is_nan, PrimFloat.is_infinity.
  rewrite (FloatAxioms.eqb_spec c c),
    (FloatAxioms.eqb_spec (PrimFloat.abs c) PrimFloat.infinity),
    (FloatAxioms.ltb_spec (PrimFloat.abs c) 5), (FloatAxioms.abs_spec c),
    Prim2SF_five, Prim2SF_infinity.
  intros [E|[s E]]; rewrite E; [|destruct s]; split; reflexivity.
Qed.

(** Of these, only the positive infinity is above zero. *)
Lemma not_finite_positive (c : PrimFloat.float) :
  FloatOps.Prim2SF c = SpecFloat.S754_nan
  \/ (exists s, FloatOps.Prim2SF c = SpecFloat.S754_infinity s) ->
  (PrimFloat.ltb 0 c = true <-> c = PrimFloat.infinity).
Proof.
  intros H. rewrite (FloatAxioms.ltb_spec 0 c), Prim2SF_zero. split.
  - intros L. apply FloatAxioms.Prim2SF_inj. rewrite Prim2SF_infinity.
    destruct H as [E|[s E]]; rewrite E in L |- *.
    + discriminate L.
    + destruct s; [discriminate L|reflexivity].
  - intros E. rewrite E, Prim2SF_infinity. reflexivity.
Qed.

Lemma nan_not_positive (c : PrimFloat.float) :
  FloatOps.Prim2SF c = SpecFloat.S754_nan ->
  PrimFloat.is_nan c = true /\ PrimFloat.ltb 0 c = false.
Proof.
  intros E. unfold PrimFloat.is_nan.
  rewrite (FloatAxioms.eqb_spec c c), (FloatAxioms.ltb_spec 0 c), E,
    Prim2SF_zero.
  split; reflexivity.
Qed.

(** X25. In the arithmetic of doubles the division by the older average
    has no guard either: with at least two usable values and an older half
    whose average is zero, the percent change is NaN or an infinity and the
    trend is increasing, exactly when the percent change is the positive
    infinity, or decreasing; it is never stable and never
    insufficient_data.  When the recent average is zero as well, the
    percent change is NaN and the trend is decreasing. *)
Theorem calculateTrend_zero_older_average (readings : list Trend.reading)
    (parameter : string) :
  let values := Trend.values_of readings parameter in
  let result := Trend.calculateTrend readings parameter in
  (2 <= List.length values)%nat ->
  PrimFloat.eqb (Trend.average (Trend.olderHalf values)) 0 = true ->
  PrimFloat.is_finite (Trend.percentChange values) = false
  /\ (result = "increasing" \/ result = "decreasing")
  /\ result <> "stable"
  /\ result <> "insufficient_data"
  /\ (result = "increasing"
      <-> Trend.percentChange values = PrimFloat.infinity)
  /\ (PrimFloat.eqb (Trend.average (Trend.recentHalf values)) 0 = true ->
      PrimFloat.is_nan (Trend.percentChange values) = true
      /\ result = "decreasing").
Proof.
  intros values result H Z.
  pose proof (change_over_zero (Trend.average (Trend.recentHalf values))
                (Trend.average (Trend.olderHalf values)) Z) as C.
  cbv zeta in C. fold (Trend.percentChange values) in C.
  destruct (not_finite_not_small _ C) as [F S].
  pose proof (not_finite_positive _ C) as P.
  assert (R : result
              = if PrimFloat.ltb 0 (Trend.percentChange values)
                then "increasing" else "decreasing").
  { unfold result. rewrite calculateTrend_values_double. cbv zeta.
    fold values.
    replace (List.length values <? 2)%nat with false
      by (symmetry; now apply Nat.ltb_ge).
    now rewrite S. }
  split; [exact F|].
  split; [rewrite R; destruct (PrimFloat.ltb 0 _); [now left|now right]|].
  split; [rewrite R; destruct (PrimFloat.ltb 0 _); discriminate|].
  split; [rewrite R; destruct (PrimFloat.ltb 0 _); discriminate|].
  split.
  - rewrite R, <- P.
    destruct (PrimFloat.ltb 0 _); split; try reflexivity; discriminate.
  - intros Z'. destruct (eqb_zero _ Z) as [so Eo].
    destruct (eqb_zero _ Z') as [sr Er].
    assert (N : FloatOps.Prim2SF (Trend.percentChange values)
                = SpecFloat.S754_nan).
    { unfold Trend.percentChange. cbv zeta.
      rewrite (FloatAxioms.mul_spec _ 100), (FloatAxioms.div_spec _ _),
        (FloatAxioms.sub_spec _ _), Eo, Er.
      unfold FloatAxioms.SF64mul, FloatAxioms.SF64div, FloatAxioms.SF64sub,
        SpecFloat.SFsub, SpecFloat.SFdiv, SpecFloat.SFmul.
      now destruct sr, so. }
    destruct (nan_not_positive _ N) as [N1 N2].
    split; [exact N1|]. now rewrite R, N2.
Qed.

Lemma calculateTrend_zero_older_average_witness :
  let values := Trend.values_of zeroOlderDoubles "pH" in
  (2 <= List.length values)%nat
  /\ PrimFloat.eqb (Trend.average (Trend.olderHalf values)) 0 = true
  /\ PrimFloat.is_finite (Trend.percentChange values) = false
  /\ Trend.calculateTrend zeroOlderDoubles "pH" <> "stable".
Proof.
  cbv zeta.
  set (values := Trend.values_of zeroOlderDoubles "pH").
  assert (L : (2 <= List.length values)%nat) by (vm_compute; lia).
  assert (Z : PrimFloat.eqb (Trend.average (Trend.olderHalf values)) 0
              = true) by reflexivity.
  split; [exact L|]. split; [exact Z|].
  split.
  - exact (proj1 (calculateTrend_zero_older_average zeroOlderDoubles "pH"
                    L Z)).
  - exact (proj1 (proj2 (proj2
             (calculateTrend_zero_older_average zeroOlderDoubles "pH"
                L Z)))).
Defined.

(** * More on the latest reading *)

(** X1. The latest reading is the first of the newest readings of the
    stored history: every reading stored before it is strictly older and
    every reading stored after it is not newer. *)
Theorem latest_first_of_newest (this : Pool.pool) (r : Pool.reading) :
  Pool.latestWaterChemistry this = Some r ->
  exists before after,
    Pool.waterChemistry this = before ++ r :: after
    /\ (forall a, In a before -> (Pool.testedAt a < Pool.testedAt r)%Z)
    /\ (forall a, In a after -> (Pool.testedAt a <= Pool.testedAt r)%Z).
Proof.
  unfold Pool.latestWaterChemistry.
  destruct (0 <? List.length (Pool.waterChemistry this))%nat; [|discriminate].
  generalize (Pool.waterChemistry this). clear this.
  intros l. revert r. induction l as [|x l IH]; intros r; simpl; [discriminate|].
  set (cmp := fun a b => (Pool.testedAt b - Pool.testedAt a)%Z) in *.
  destruct (sort cmp l) as [|y s] eqn:S.
  - assert (l = []) as ->.
    { pose proof (sort_length cmp l) as L. rewrite S in L.
      destruct l; [reflexivity|discriminate]. }
    simpl. intros [= <-]. exists [], []. repeat split; intros a [].
  - destruct (IH y eq_refl) as (l1 & l2 & E & B & A).
    simpl. unfold cmp at 1.
    destruct (Pool.testedAt y - Pool.testedAt x <=? 0)%Z eqn:C;
      simpl; intros [= <-].
    + apply Z.leb_le in C. exists [], l. split; [reflexivity|].
      split; [intros a []|].
      intros a I. rewrite E in I. apply in_app_or in I.
      destruct I as [I|[<-|I]].
      * specialize (B a I). lia.
      * lia.
      * specialize (A a I). lia.
    + apply Z.leb_gt in C. exists (x :: l1), l2.
      split; [now rewrite E|]. split; [|exact A].
      intros a [<-|I]; [lia|now apply B].
Qed.

Lemma latest_first_of_newest_witness :
  let this :=
    {| Pool.waterChemistry :=
         [readingAt 7.4 10; readingAt 7.0 20; readingAt 7.8 20] |} in
  Pool.latestWaterChemistry this = Some (readingAt 7.0 20)
  /\ exists before after,
       Pool.waterChemistry this = before ++ readingAt 7.0 20 :: after
       /\ (forall a, In a before -> (Pool.testedAt a < 20)%Z)
       /\ (forall a, In a after -> (Pool.testedAt a <= 20)%Z).
Proof.
  cbv zeta. split; [reflexivity|].
  exact (latest_first_of_newest
           {| Pool.waterChemistry :=
                [readingAt 7.4 10; readingAt 7.0 20; readingAt 7.8 20] |}
           _ eq_refl).
Defined.


Lemma sort_insert_newestFirst (x : Pool.reading) (l : list Pool.reading) :
  newestFirst l -> newestFirst (sort_insert byTestedAt x l).
Proof.
  unfold newestFirst. induction 1 as [|y l S IH F]; simpl.
  - constructor; constructor.
  - unfold byTestedAt at 1.
    destruct (Pool.testedAt y - Pool.testedAt x <=? 0)%Z eqn:C.
    + apply Z.leb_le in C. constructor; [now constructor|].
      constructor; [lia|].
      rewrite Forall_forall in *. intros a I. specialize (F a I). lia.
    + apply Z.leb_gt in C. constructor; [exact IH|].
      rewrite Forall_forall in *. intros a I.
      apply sort_insert_In in I. destruct I as [->|I]; [lia|now apply F].
Qed.

Lemma sort_newestFirst (l : list Pool.reading) :
  newestFirst (sort byTestedAt l).
Proof.
  induction l as [|x l IH]; simpl; [constructor|].
  now apply sort_insert_newestFirst.
Qed.

Lemma sort_of_newestFirst (l : list Pool.reading) :
  newestFirst l -> sort byTestedAt l = l.
Proof.
  unfold newestFirst. induction 1 as [|x l S IH F]; simpl; [reflexivity|].
  rewrite IH. destruct l as [|y l]; [reflexivity|].
  simpl. unfold byTestedAt at 1.
  replace (Pool.testedAt y - Pool.testedAt x <=? 0)%Z with true;
    [reflexivity|].
  symmetry. apply Z.leb_le.
  apply Forall_inv in F. lia.
Qed.

Lemma sort_insert_permutation {A : Type} (compare : A -> A -> Z) (x : A)
    (l : list A) :
  Permutation (x :: l) (sort_insert compare x l).
Proof.
  induction l as [|y l IH]; simpl; [reflexivity|].
  destruct (compare x y <=? 0)%Z; [reflexivity|].
  rewrite perm_swap. now constructor.
Qed.

Lemma sort_permutation {A : Type} (compare : A -> A -> Z) (l : list A) :
  Permutation l (sort compare l).
Proof.
  induction l as [|x l IH]; simpl; [reflexivity|].
  rewrite <- sort_insert_permutation. now constructor.
Qed.

(** X2. The getter sorts the stored array in place.  What it leaves is the
    same readings, newest first, and a fixed point of the sort: later calls
    of latestWaterChemistry, needsAttention and getRecommendations on the
    sorted array answer as on the original one. *)
Theorem getter_sort_is_harmless (this : Pool.pool) (now : Z) :
  Permutation (Pool.waterChemistry this)
              (Pool.waterChemistry (afterLatest this))
  /\ newestFirst (Pool.waterChemistry (afterLatest this))
  /\ afterLatest (afterLatest this) = afterLatest this
  /\ Pool.latestWaterChemistry (afterLatest this)
     = Pool.latestWaterChemistry this
  /\ Pool.needsAttention (afterLatest this) now
     = Pool.needsAttention this now
  /\ Pool.getRecommendations (afterLatest this)
     = Pool.getRecommendations this.
Proof.
  assert (L : Pool.latestWaterChemistry (afterLatest this)
              = Pool.latestWaterChemistry this).
  { unfold afterLatest, Pool.latestWaterChemistry.
    destruct (0 <? List.length (Pool.waterChemistry this))%nat eqn:E.
    - cbn [Pool.waterChemistry]. fold byTestedAt.
      rewrite sort_length, E.
      now rewrite (sort_of_newestFirst _ (sort_newestFirst _)).
    - now rewrite E. }
  split; [|split; [|split; [|split; [exact L|]]]].
  - unfold afterLatest.
    destruct (0 <? List.length (Pool.waterChemistry this))%nat;
      [apply sort_permutation|reflexivity].
  - unfold afterLatest.
    destruct (0 <? List.length (Pool.waterChemistry this))%nat eqn:E.
    + apply sort_newestFirst.
    + destruct (Pool.waterChemistry this); [constructor|discriminate].
  - unfold afterLatest.
    destruct (0 <? List.length (Pool.waterChemistry this))%nat eqn:E.
    + cbn [Pool.waterChemistry]. fold byTestedAt.
      rewrite sort_length, E.
      now rewrite (sort_of_newestFirst _ (sort_newestFirst _)).
    + now rewrite E.
  - unfold Pool.needsAttention, Pool.getRecommendations. now rewrite L.
Qed.

Lemma injective_on_NoDup {A B : Type} (f : A -> B) (l : list A) (a b : A) :
  NoDup (map f l) -> In a l -> In b l -> f a = f b -> a = b.
Proof.
  induction l as [|x l IH]; simpl; [contradiction|].
  intros N Ia Ib E. inversion N as [|? ? X N']; subst.
  destruct Ia as [<-|Ia], Ib as [<-|Ib].
  - reflexivity.
  - exfalso. apply X. rewrite E. now apply in_map.
  - exfalso. apply X. rewrite <- E. now apply in_map.
  - now apply IH.
Qed.

(** X3. When no two readings of a history carry the same time, the order
    in which they are stored does not matter: two pools whose histories are
    permutations of each other have the same latest reading, need attention
    alike and get the same recommendations. *)
Theorem storage_order_irrelevant (p1 p2 : Pool.pool) (now : Z) :
  Permutation (Pool.waterChemistry p1) (Pool.waterChemistry p2) ->
  NoDup (map Pool.testedAt (Pool.waterChemistry p1)) ->
  Pool.latestWaterChemistry p1 = Pool.latestWaterChemistry p2
  /\ Pool.needsAttention p1 now = Pool.needsAttention p2 now
  /\ Pool.getRecommendations p1 = Pool.getRecommendations p2.
Proof.
  intros P N.
  assert (L : Pool.latestWaterChemistry p1 = Pool.latestWaterChemistry p2).
  { destruct (Pool.latestWaterChemistry p1) as [r1|] eqn:E1;
      destruct (Pool.latestWaterChemistry p2) as [r2|] eqn:E2.
    - destruct (latest_newest p1 r1 E1) as [I1 M1].
      destruct (latest_newest p2 r2 E2) as [I2 M2].
      assert (I2' : In r2 (Pool.waterChemistry p1))
        by (eapply Permutation_in; [symmetry; exact P|exact I2]).
      assert (I1' : In r1 (Pool.waterChemistry p2))
        by (eapply Permutation_in; [exact P|exact I1]).
      f_equal. apply (injective_on_NoDup Pool.testedAt _ r1 r2 N I1 I2').
      specialize (M1 r2 I2'). specialize (M2 r1 I1'). lia.
    - apply latest_none_iff in E2. rewrite E2 in P.
      symmetry in P. apply Permutation_nil in P.
      apply latest_none_iff in P. congruence.
    - apply latest_none_iff in E1. rewrite E1 in P.
      apply Permutation_nil in P.
      apply latest_none_iff in P. congruence.
    - reflexivity. }
  split; [exact L|].
  unfold Pool.needsAttention, Pool.getRecommendations. now rewrite L.
Qed.

Lemma storage_order_irrelevant_witness :
  let p1 := {| Pool.waterChemistry :=
                 [readingAt 7.4 10; readingAt 7.0 20] |} in
  let p2 := {| Pool.waterChemistry :=
                 [readingAt 7.0 20; readingAt 7.4 10] |} in
  Permutation (Pool.waterChemistry p1) (Pool.waterChemistry p2)
  /\ NoDup (map Pool.testedAt (Pool.waterChemistry p1))
  /\ Pool.getRecommendations p1 = Pool.getRecommendations p2.
Proof.
  cbv zeta.
  assert (P : Permutation
                (Pool.waterChemistry
                   {| Pool.waterChemistry :=
                        [readingAt 7.4 10; readingAt 7.0 20] |})
                (Pool.waterChemistry
                   {| Pool.waterChemistry :=
                        [readingAt 7.0 20; readingAt 7.4 10] |}))
    by apply perm_swap.
  assert (N : NoDup (map Pool.testedAt
                       (Pool.waterChemistry
                          {| Pool.waterChemistry :=
                               [readingAt 7.4 10; readingAt 7.0 20] |}))).
  { simpl. constructor.
    - intros [H|[]]. discriminate.
    - constructor; [intros []|constructor]. }
  split; [exact P|]. split; [exact N|].
  exact (proj2 (proj2 (storage_order_irrelevant _ _ 0 P N))).
Defined.

(** * Attention and recommendations together *)

Lemma pushed_nil (lowRec highRec : Pool.recommendation) (v : Spec.verdict) :
  pushed lowRec highRec v = [] <-> v = Spec.within.
Proof. destruct v; simpl; split; congruence. Qed.

Lemma getRecommendations_nil (this : Pool.pool) (latest : Pool.reading) :
  Pool.latestWaterChemistry this = Some latest ->
  (Pool.getRecommendations this = []
   <-> Pool.phOk latest = true /\ Pool.chlorineOk latest = true
       /\ Pool.alkalinityOk latest = true).
Proof.
  intros H. rewrite (getRecommendations_present this latest H).
  unfold Pool.phOk, Pool.chlorineOk, Pool.alkalinityOk.
  rewrite !ok_flag_within.
  destruct (Spec.classify 7.2 7.6 (Pool.pH latest)),
    (Spec.classify 1.0 3.0 (Pool.chlorine latest)),
    (Spec.classify 80 120 (Pool.alkalinity latest)); simpl;
    split; try discriminate; try tauto;
    intros (A & B & C); discriminate.
Qed.

(** X4. needsAttention and getRecommendations agree: a pool that does not
    need attention gets no recommendation, and a pool with a reading needs
    attention exactly when it gets a recommendation or its latest reading
    is older than seven days. *)
Theorem attention_iff_recommendation_or_stale (this : Pool.pool) (now : Z) :
  (Pool.needsAttention this now = false -> Pool.getRecommendations this = [])
  /\
  (forall latest,
     Pool.latestWaterChemistry this = Some latest ->
     (Pool.needsAttention this now = true
      <-> Pool.getRecommendations this <> []
          \/ (7 * 24 * 60 * 60 * 1000 < now - Pool.testedAt latest)%Z)).
Proof.
  assert (G : forall latest,
            Pool.latestWaterChemistry this = Some latest ->
            Pool.needsAttention this now
            = negb (Pool.phOk latest && Pool.chlorineOk latest
                    && Pool.alkalinityOk latest)
              || negb (Pool.recentReading latest now)).
  { intros latest H. unfold Pool.needsAttention. rewrite H.
    destruct (Pool.phOk latest), (Pool.chlorineOk latest),
      (Pool.alkalinityOk latest); reflexivity. }
  split.
  - destruct (Pool.latestWaterChemistry this) as [latest|] eqn:H.
    + rewrite (G latest eq_refl). intros N.
      apply orb_false_iff in N. destruct N as [N _].
      apply negb_false_iff in N. apply andb_true_iff in N.
      destruct N as [N C]. apply andb_true_iff in N. destruct N as [A B].
      now apply (getRecommendations_nil this latest H).
    + unfold Pool.needsAttention. rewrite H. discriminate.
  - intros latest H. rewrite (G latest H).
    pose proof (getRecommendations_nil this latest H) as R.
    assert (E : Pool.phOk latest && Pool.chlorineOk latest
                && Pool.alkalinityOk latest = false
                <-> Pool.getRecommendations this <> []).
    { rewrite R, <- !andb_true_iff, not_true_iff_false, andb_assoc.
      reflexivity. }
    unfold Pool.recentReading.
    rewrite orb_true_iff, !negb_true_iff, Z.leb_gt, E. reflexivity.
Qed.

Lemma attention_iff_recommendation_or_stale_witness :
  let this := {| Pool.waterChemistry := [readingAt 7.4 0] |} in
  Pool.needsAttention this 1000 = false
  /\ Pool.getRecommendations this = [].
Proof.
  cbv zeta. split; [reflexivity|].
  exact (proj1 (attention_iff_recommendation_or_stale
                  {| Pool.waterChemistry := [readingAt 7.4 0] |} 1000)
           eq_refl).
Defined.

(** X5. getRecommendations returns at most three recommendations, each of
    type chemical, safety or urgent, and never advises both to raise and to
    lower the same parameter. *)
Theorem getRecommendations_shape (this : Pool.pool) :
  (List.length (Pool.getRecommendations this) <= 3)%nat
  /\ Forall (fun rec => Pool.type rec = "chemical"
                        \/ Pool.type rec = "safety"
                        \/ Pool.type rec = "urgent")
            (Pool.getRecommendations this)
  /\ ~ (In raisePH (Pool.getRecommendations this)
        /\ In lowerPH (Pool.getRecommendations this))
  /\ ~ (In addChlorine (Pool.getRecommendations this)
        /\ In waitChlorine (Pool.getRecommendations this))
  /\ ~ (In raiseAlkalinity (Pool.getRecommendations this)
        /\ In lowerAlkalinity (Pool.getRecommendations this)).
Proof.
  destruct (Pool.latestWaterChemistry this) as [latest|] eqn:H.
  - rewrite (getRecommendations_present this latest H).
    destruct (Spec.classify 7.2 7.6 (Pool.pH latest)),
      (Spec.classify 1.0 3.0 (Pool.chlorine latest)),
      (Spec.classify 80 120 (Pool.alkalinity latest)); simpl.
    all: split; [lia|].
    all: split;
      [repeat apply Forall_cons; try apply Forall_nil; simpl; auto|].
    all: split; [|split]; intros [A B]; simpl in A, B;
      repeat (destruct A as [A|A]; try discriminate A);
      repeat (destruct B as [B|B]; try discriminate B); auto.
  - rewrite (getRecommendations_absent this H). simpl.
    split; [lia|].
    split; [repeat apply Forall_cons; try apply Forall_nil; simpl; auto|].
    split; [|split]; intros [[A|[]] _]; discriminate A.
Qed.

(** * The dashboard *)

Lemma getRecommendations_types (this : Pool.pool) :
  Forall knownType (Pool.getRecommendations this).
Proof.
  unfold knownType.
  destruct (Pool.latestWaterChemistry this) as [latest|] eqn:H.
  - rewrite (getRecommendations_present this latest H).
    destruct (Spec.classify 7.2 7.6 (Pool.pH latest)),
      (Spec.classify 1.0 3.0 (Pool.chlorine latest)),
      (Spec.classify 80 120 (Pool.alkalinity latest)); simpl;
      repeat apply Forall_cons; try apply Forall_nil; simpl; auto.
  - rewrite (getRecommendations_absent this H).
    repeat apply Forall_cons; try apply Forall_nil; simpl; auto.
Qed.

Lemma countRecommendation_known (b : ConsultingRoutes.issueBreakdown)
    (rec : Pool.recommendation) :
  knownType rec ->
  let b' := ConsultingRoutes.countRecommendation b rec in
  ConsultingRoutes.equipment b' = ConsultingRoutes.equipment b
  /\ ConsultingRoutes.maintenance b' = ConsultingRoutes.maintenance b
  /\ (ConsultingRoutes.waterChemistry b' + ConsultingRoutes.other b'
      = S (ConsultingRoutes.waterChemistry b + ConsultingRoutes.other b))%nat.
Proof.
  unfold knownType, ConsultingRoutes.countRecommendation.
  intros [E|[E|E]]; rewrite E; simpl; repeat split; lia.
Qed.

Lemma forEach_recommendation_known (recs : list Pool.recommendation)
    (b : ConsultingRoutes.issueBreakdown) :
  Forall knownType recs ->
  let b' := fold_left ConsultingRoutes.countRecommendation recs b in
  ConsultingRoutes.equipment b' = ConsultingRoutes.equipment b
  /\ ConsultingRoutes.maintenance b' = ConsultingRoutes.maintenance b
  /\ (ConsultingRoutes.waterChemistry b' + ConsultingRoutes.other b'
      = ConsultingRoutes.waterChemistry b + ConsultingRoutes.other b
        + List.length recs)%nat.
Proof.
  intros F. revert b. induction F as [|rec recs K F IH]; intros b; simpl.
  - repeat split; lia.
  - destruct (countRecommendation_known b rec K) as (E & M & S).
    destruct (IH (ConsultingRoutes.countRecommendation b rec))
      as (E' & M' & S').
    cbv zeta in *. repeat split; lia.
Qed.

Lemma forEach_pool_known (pools : list Pool.pool)
    (b : ConsultingRoutes.issueBreakdown) :
  let b' :=
    fold_left
      (fun b pool => fold_left ConsultingRoutes.countRecommendation
                       (Pool.getRecommendations pool) b)
      pools b in
  ConsultingRoutes.equipment b' = ConsultingRoutes.equipment b
  /\ ConsultingRoutes.maintenance b' = ConsultingRoutes.maintenance b
  /\ (ConsultingRoutes.waterChemistry b' + ConsultingRoutes.other b'
      = ConsultingRoutes.waterChemistry b + ConsultingRoutes.other b
        + recommendationCount pools)%nat.
Proof.
  revert b. induction pools as [|pool pools IH]; intros b; simpl.
  - repeat split; lia.
  - destruct (forEach_recommendation_known _ b
                (getRecommendations_types pool)) as (E & M & S).
    destruct (IH (fold_left ConsultingRoutes.countRecommendation
                    (Pool.getRecommendations pool) b)) as (E' & M' & S').
    cbv zeta in *. repeat split; lia.
Qed.

Lemma urgentFrom_attention (pools : list Pool.pool) (clock : nat -> Z)
    (i : nat) :
  (List.length (ConsultingRoutes.urgentFrom pools clock i)
   <= List.length pools)%nat
  /\ forall pool, In pool (ConsultingRoutes.urgentFrom pools clock i) ->
       In pool pools /\ exists j, Pool.needsAttention pool (clock j) = true.
Proof.
  revert i. induction pools as [|p pools IH]; intros i; simpl.
  - split; [lia|contradiction].
  - destruct (IH (S i)) as [L M].
    destruct (Pool.needsAttention p (clock i)) eqn:N; simpl.
    + split; [lia|]. intros pool [<-|I].
      * split; [now left|now exists i].
      * destruct (M pool I) as [I' X]. split; [now right|exact X].
    + split; [lia|]. intros pool I.
      destruct (M pool I) as [I' X]. split; [now right|exact X].
Qed.

(** X6. In the issue breakdown of the dashboard the equipment and
    maintenance counters always stay 0, because getRecommendations only
    produces chemical, safety and urgent recommendations; waterChemistry
    and other together count every recommendation of the urgent pools, and
    the urgent pools are pools that needed attention when asked. *)
Theorem dashboard_breakdown (pools : list Pool.pool) (clock : nat -> Z) :
  let urgent := ConsultingRoutes.urgentPools pools clock in
  let b := ConsultingRoutes.breakdown urgent in
  ConsultingRoutes.equipment b = 0%nat
  /\ ConsultingRoutes.maintenance b = 0%nat
  /\ (ConsultingRoutes.waterChemistry b + ConsultingRoutes.other b
      = recommendationCount urgent)%nat
  /\ (List.length urgent <= List.length pools)%nat
  /\ forall pool, In pool urgent ->
       In pool pools /\ exists j, Pool.needsAttention pool (clock j) = true.
Proof.
  cbv zeta. unfold ConsultingRoutes.breakdown.
  destruct (forEach_pool_known (ConsultingRoutes.urgentPools pools clock)
              {| ConsultingRoutes.waterChemistry := 0;
                 ConsultingRoutes.equipment := 0;
                 ConsultingRoutes.maintenance := 0;
                 ConsultingRoutes.other := 0 |}) as (E & M & S).
  cbv zeta in *. simpl in E, M, S.
  split; [exact E|]. split; [exact M|]. split; [exact S|].
  apply urgentFrom_attention.
Qed.

(** * Durations and completion of a maintenance log *)

Lemma round_bounds (x : Q) :
  x - (1 # 2) < inject_Z (round x) /\ inject_Z (round x) <= x + (1 # 2).
Proof.
  unfold round. split; [|apply Qfloor_le].
  pose proof (Qlt_floor (x + (1 # 2))) as H.
  rewrite inject_Z_plus in H. change (inject_Z 1) with 1 in H. lra.
Qed.

Lemma inject_Z_le (a b : Z) : inject_Z a <= inject_Z b -> (a <= b)%Z.
Proof. now rewrite <- Zle_Qle. Qed.

Lemma inject_Z_lt (a b : Z) : inject_Z a < inject_Z b -> (a < b)%Z.
Proof. now rewrite <- Zlt_Qlt. Qed.

(** The rounded quotient of two integers, by a positive divisor. *)
Lemma round_quotient (n d : Z) :
  (0 < d)%Z ->
  let m := round (inject_Z n / inject_Z d) in
  (2 * n - d < 2 * d * m)%Z /\ (2 * d * m <= 2 * n + d)%Z.
Proof.
  intros D m.
  assert (Dq : 0 < inject_Z d)
    by (change 0 with (inject_Z 0); now rewrite <- Zlt_Qlt).
  destruct (round_bounds (inject_Z n / inject_Z d)) as [L U]. fold m in L, U.
  assert (E : inject_Z n / inject_Z d * inject_Z d == inject_Z n)
    by (field; lra).
  set (x := inject_Z n / inject_Z d) in *.
  assert (L' : inject_Z n * 2 - inject_Z d < 2 * inject_Z d * inject_Z m)
    by nra.
  assert (U' : 2 * inject_Z d * inject_Z m <= inject_Z n * 2 + inject_Z d)
    by nra.
  split.
  - apply inject_Z_lt.
    unfold Z.sub. rewrite inject_Z_plus, inject_Z_opp, !inject_Z_mult.
    change (inject_Z 2) with 2. lra.
  - apply inject_Z_le.
    rewrite inject_Z_plus, !inject_Z_mult.
    change (inject_Z 2) with 2. lra.
Qed.

(** X7. totalDuration is null exactly when the start or the end time is
    missing; otherwise it is the whole number of minutes nearest to the
    elapsed time, at most half a minute away from it, the half rounding up. *)
Theorem totalDuration_nearest_minute (this : MaintenanceDocument.document) :
  (MaintenanceDocument.totalDuration this = None
   <-> MaintenanceDocument.actualStartTime this = None
       \/ MaintenanceDocument.actualEndTime this = None)
  /\
  (forall startTime endTime,
     MaintenanceDocument.actualStartTime this = Some startTime ->
     MaintenanceDocument.actualEndTime this = Some endTime ->
     exists minutes,
       MaintenanceDocument.totalDuration this = Some minutes
       /\ (60000 * minutes - 30000 <= endTime - startTime)%Z
       /\ (endTime - startTime < 60000 * minutes + 30000)%Z).
Proof.
  unfold MaintenanceDocument.totalDuration. split.
  - destruct (MaintenanceDocument.actualStartTime this),
      (MaintenanceDocument.actualEndTime this); split;
      try discriminate; auto; intros [H|H]; discriminate.
  - intros s e -> ->. eexists. split; [reflexivity|].
    destruct (round_quotient (e - s) (1000 * 60) eq_refl) as [L U].
    cbv zeta in L, U. lia.
Qed.

Lemma totalDuration_nearest_minute_witness :
  let this := documentOf [] (Some 0%Z) (Some 90000%Z)
                MaintenanceDocument.completed None in
  MaintenanceDocument.actualStartTime this = Some 0%Z
  /\ MaintenanceDocument.actualEndTime this = Some 90000%Z
  /\ exists minutes,
       MaintenanceDocument.totalDuration this = Some minutes
       /\ (60000 * minutes - 30000 <= 90000 - 0)%Z
       /\ (90000 - 0 < 60000 * minutes + 30000)%Z.
Proof.
  cbv zeta. split; [reflexivity|]. split; [reflexivity|].
  exact (proj2 (totalDuration_nearest_minute
                  (documentOf [] (Some 0%Z) (Some 90000%Z)
                     MaintenanceDocument.completed None))
           0%Z 90000%Z eq_refl eq_refl).
Defined.

Lemma summaryTime_of_duration (this : MaintenanceDocument.document) :
  MaintenanceDocument.summaryTime this
  = match MaintenanceDocument.totalDuration this with
    | Some minutes =>
        if (minutes =? 0)%Z then recordedTotal this else inject_Z minutes
    | None => recordedTotal this
    end.
Proof.
  unfold MaintenanceDocument.summaryTime, recordedTotal,
    MaintenanceDocument.orZero.
  destruct (MaintenanceDocument.totalDuration this) as [m|]; simpl.
  - destruct (m =? 0)%Z eqn:E.
    + apply Z.eqb_eq in E. subst m. reflexivity.
    + apply Z.eqb_neq in E.
      replace (Qeq_bool (inject_Z m) 0) with false; [reflexivity|].
      symmetry. apply not_true_iff_false. intros Q.
      apply Qeq_bool_iff in Q. unfold Qeq in Q. simpl in Q. lia.
  - reflexivity.
Qed.

(** X8. The time the summary reports: the measured minutes when both times
    are there and the visit rounds to something other than 0 minutes; but a
    visit of less than half a minute rounds to 0, counts as missing, and the
    summary reports the recorded timeSpent.total instead (0 when that is
    missing or 0), as it does without a start or end time. *)
Theorem summary_time_fallback (this : MaintenanceDocument.document) :
  (forall startTime endTime,
     MaintenanceDocument.actualStartTime this = Some startTime ->
     MaintenanceDocument.actualEndTime this = Some endTime ->
     (-30000 <= endTime - startTime < 30000)%Z ->
     MaintenanceDocument.summaryTimeSpent
       (MaintenanceDocument.generateSummary this)
     = recordedTotal this)
  /\
  (forall startTime endTime,
     MaintenanceDocument.actualStartTime this = Some startTime ->
     MaintenanceDocument.actualEndTime this = Some endTime ->
     (endTime - startTime < -30000 \/ 30000 <= endTime - startTime)%Z ->
     exists minutes,
       MaintenanceDocument.totalDuration this = Some minutes
       /\ minutes <> 0%Z
       /\ MaintenanceDocument.summaryTimeSpent
            (MaintenanceDocument.generateSummary this)
          = inject_Z minutes)
  /\
  (MaintenanceDocument.totalDuration this = None ->
   MaintenanceDocument.summaryTimeSpent
     (MaintenanceDocument.generateSummary this)
   = recordedTotal this).
Proof.
  cbn [MaintenanceDocument.generateSummary
       MaintenanceDocument.summaryTimeSpent].
  rewrite summaryTime_of_duration.
  split; [|split].
  - intros s e Hs He B. unfold MaintenanceDocument.totalDuration.
    rewrite Hs, He.
    destruct (round_quotient (e - s) (1000 * 60) eq_refl) as [L U].
    cbv zeta in L, U.
    replace (round (inject_Z (e - s) / inject_Z (1000 * 60)) =? 0)%Z
      with true; [reflexivity|].
    symmetry. apply Z.eqb_eq. lia.
  - intros s e Hs He B. unfold MaintenanceDocument.totalDuration.
    rewrite Hs, He.
    destruct (round_quotient (e - s) (1000 * 60) eq_refl) as [L U].
    cbv zeta in L, U.
    assert (N : round (inject_Z (e - s) / inject_Z (1000 * 60)) <> 0%Z)
      by lia.
    eexists. split; [reflexivity|]. split; [exact N|].
    apply Z.eqb_neq in N. now rewrite N.
  - intros ->. reflexivity.
Qed.

Lemma summary_time_fallback_witness :
  let this :=
    documentOf [] (Some 0%Z) (Some 20000%Z) MaintenanceDocument.completed
      (Some {| MaintenanceDocument.travel := None;
               MaintenanceDocument.onSite := None;
               MaintenanceDocument.total := Some 45 |}) in
  MaintenanceDocument.actualStartTime this = Some 0%Z
  /\ MaintenanceDocument.actualEndTime this = Some 20000%Z
  /\ (-30000 <= 20000 - 0 < 30000)%Z
  /\ MaintenanceDocument.summaryTimeSpent
       (MaintenanceDocument.generateSummary this) = 45.
Proof.
  cbv zeta. split; [reflexivity|]. split; [reflexivity|].
  assert (B : (-30000 <= 20000 - 0 < 30000)%Z) by lia.
  split; [exact B|].
  exact (proj1 (summary_time_fallback
                  (documentOf [] (Some 0%Z) (Some 20000%Z)
                     MaintenanceDocument.completed
                     (Some {| MaintenanceDocument.travel := None;
                              MaintenanceDocument.onSite := None;
                              MaintenanceDocument.total := Some 45 |})))
           0%Z 20000%Z eq_refl eq_refl B).
Defined.

Lemma filter_length_le {A : Type} (p : A -> bool) (l : list A) :
  (List.length (filter p l) <= List.length l)%nat.
Proof.
  induction l as [|x l IH]; simpl; [lia|].
  destruct (p x); simpl; lia.
Qed.


(** * The save hook *)

(** X10. Saving twice is saving once: the pre-save hook leaves a document it
    has already treated unchanged, whatever the time of the second save.
    It never touches the start time, the status or what the quality score
    reads, and it leaves an end time that is already there alone. *)
Theorem preSave_idempotent (this : MaintenanceDocument.document)
    (now later : Z) :
  MaintenanceDocument.preSave (MaintenanceDocument.preSave this now) later
  = MaintenanceDocument.preSave this now
  /\ MaintenanceLog.calculateQualityScore
       (MaintenanceDocument.scored (MaintenanceDocument.preSave this now))
     = MaintenanceLog.calculateQualityScore (MaintenanceDocument.scored this)
  /\ MaintenanceDocument.actualStartTime
       (MaintenanceDocument.preSave this now)
     = MaintenanceDocument.actualStartTime this
  /\ (MaintenanceDocument.actualEndTime this <> None ->
      MaintenanceDocument.actualEndTime
        (MaintenanceDocument.preSave this now)
      = MaintenanceDocument.actualEndTime this).
Proof.
  split; [|split; [reflexivity|split; [reflexivity|]]].
  - unfold MaintenanceDocument.preSave.
    cbn [MaintenanceDocument.scored MaintenanceDocument.scheduledDate
         MaintenanceDocument.actualStartTime
         MaintenanceDocument.actualEndTime MaintenanceDocument.status
         MaintenanceDocument.recommendations
         MaintenanceDocument.chemicalsUsed MaintenanceDocument.timeSpent].
    f_equal.
    + destruct (MaintenanceDocument.actualEndTime this); [reflexivity|].
      destruct (MaintenanceDocument.logStatus_eqb
                  (MaintenanceDocument.status this)
                  MaintenanceDocument.completed);
        destruct (MaintenanceDocument.actualStartTime this); reflexivity.
    + destruct (MaintenanceDocument.timeSpent this) as [ts|]; [|reflexivity].
      destruct (MaintenanceDocument.truthy (MaintenanceDocument.travel ts))
        eqn:T;
        destruct (MaintenanceDocument.truthy (MaintenanceDocument.onSite ts))
          eqn:O;
        cbn [MaintenanceDocument.travel MaintenanceDocument.onSite];
        rewrite ?T, ?O; reflexivity.
  - unfold MaintenanceDocument.preSave.
    cbn [MaintenanceDocument.actualEndTime].
    destruct (MaintenanceDocument.actualEndTime this); [reflexivity|].
    intros N. now destruct N.
Qed.

Lemma preSave_idempotent_witness :
  let this := documentOf [] (Some 0%Z) (Some 90000%Z)
                MaintenanceDocument.completed None in
  MaintenanceDocument.actualEndTime this <> None
  /\ MaintenanceDocument.actualEndTime (MaintenanceDocument.preSave this 5)
     = Some 90000%Z.
Proof.
  cbv zeta.
  assert (N : MaintenanceDocument.actualEndTime
                (documentOf [] (Some 0%Z) (Some 90000%Z)
                   MaintenanceDocument.completed None) <> None)
    by discriminate.
  split; [exact N|].
  exact (proj2 (proj2 (proj2
           (preSave_idempotent
              (documentOf [] (Some 0%Z) (Some 90000%Z)
                 MaintenanceDocument.completed None) 5 6))) N).
Defined.

(** X11. After the save hook a completed log that has a start time has an
    end time, hence a total duration: the one it had, or else the time of
    the save.  A log that is not completed, or has no start time, gets no
    end time from the hook. *)
Theorem preSave_completes_duration (this : MaintenanceDocument.document)
    (now : Z) :
  (forall startTime,
     MaintenanceDocument.status this = MaintenanceDocument.completed ->
     MaintenanceDocument.actualStartTime this = Some startTime ->
     exists endTime,
       MaintenanceDocument.actualEndTime
         (MaintenanceDocument.preSave this now) = Some endTime
       /\ (MaintenanceDocument.actualEndTime this = None -> endTime = now)
       /\ (forall e,
             MaintenanceDocument.actualEndTime this = Some e -> endTime = e)
       /\ MaintenanceDocument.totalDuration
            (MaintenanceDocument.preSave this now)
          = Some (round (inject_Z (endTime - startTime)
                         / inject_Z (1000 * 60))))
  /\
  (MaintenanceDocument.status this <> MaintenanceDocument.completed
   \/ MaintenanceDocument.actualStartTime this = None ->
   MaintenanceDocument.actualEndTime (MaintenanceDocument.preSave this now)
   = MaintenanceDocument.actualEndTime this).
Proof.
  split.
  - intros s S H.
    unfold MaintenanceDocument.totalDuration, MaintenanceDocument.preSave.
    cbn [MaintenanceDocument.actualStartTime
         MaintenanceDocument.actualEndTime].
    rewrite S, H. cbn [MaintenanceDocument.logStatus_eqb].
    destruct (MaintenanceDocument.actualEndTime this) as [e|].
    + exists e. split; [reflexivity|]. split; [discriminate|].
      split; [|reflexivity]. intros e' E. now injection E.
    + exists now. split; [reflexivity|]. split; [reflexivity|].
      split; [discriminate|reflexivity].
  - intros H. unfold MaintenanceDocument.preSave.
    cbn [MaintenanceDocument.actualEndTime].
    destruct (MaintenanceDocument.actualEndTime this); [reflexivity|].
    destruct H as [H|H].
    + destruct (MaintenanceDocument.status this); try reflexivity.
      now destruct H.
    + rewrite H.
      now destruct (MaintenanceDocument.logStatus_eqb _ _).
Qed.

Lemma preSave_completes_duration_witness :
  let this := documentOf [] (Some 0%Z) None
                MaintenanceDocument.completed None in
  MaintenanceDocument.status this = MaintenanceDocument.completed
  /\ MaintenanceDocument.actualStartTime this = Some 0%Z
  /\ exists endTime,
       MaintenanceDocument.actualEndTime
         (MaintenanceDocument.preSave this 120000) = Some endTime
       /\ (MaintenanceDocument.actualEndTime this = None
           -> endTime = 120000%Z)
       /\ (forall e,
             MaintenanceDocument.actualEndTime this = Some e -> endTime = e)
       /\ MaintenanceDocument.totalDuration
            (MaintenanceDocument.preSave this 120000)
          = Some (round (inject_Z (endTime - 0) / inject_Z (1000 * 60))).
Proof.
  cbv zeta. split; [reflexivity|]. split; [reflexivity|].
  exact (proj1 (preSave_completes_duration
                  (documentOf [] (Some 0%Z) None
                     MaintenanceDocument.completed None) 120000)
           0%Z eq_refl eq_refl).
Defined.

(** * The summary of a flawless visit *)

Lemma all_completed_none_incomplete (l : list MaintenanceLog.task) :
  List.length (filter MaintenanceDocument.is_completed l) = List.length l ->
  filter incomplete l = [].
Proof.
  induction l as [|t l IH]; simpl; [reflexivity|].
  pose proof (filter_length_le MaintenanceDocument.is_completed l) as B.
  unfold MaintenanceDocument.is_completed at 1, incomplete at 1.
  destruct (MaintenanceLog.status t); simpl; intros H; try lia.
  apply IH. lia.
Qed.

(** X12. In a summary the completed tasks never exceed the total and the
    quality score lies in [0,100].  When the summary shows all tasks
    completed, no issue is critical or major, and the rating is missing or
    at least 3, the quality score is 100: pending work and minor or moderate
    issues cost nothing, and a rating above 3 cannot lift the score over
    100. *)
Theorem summary_of_flawless_visit (this : MaintenanceDocument.document) :
  let s := MaintenanceDocument.generateSummary this in
  (MaintenanceDocument.completedTasks s
   <= MaintenanceDocument.totalTasks s)%nat
  /\ 0 <= MaintenanceDocument.qualityScore s
  /\ MaintenanceDocument.qualityScore s <= 100
  /\ (MaintenanceDocument.completedTasks s
      = MaintenanceDocument.totalTasks s ->
      Spec.severityCount MaintenanceLog.critical
        (MaintenanceDocument.scored this) = 0%nat ->
      Spec.severityCount MaintenanceLog.major
        (MaintenanceDocument.scored this) = 0%nat ->
      (forall r, Spec.ratingOf (MaintenanceDocument.scored this) = Some r ->
                 3 <= r) ->
      MaintenanceDocument.qualityScore s == 100).
Proof.
  cbv zeta.
  cbn [MaintenanceDocument.generateSummary MaintenanceDocument.completedTasks
       MaintenanceDocument.totalTasks MaintenanceDocument.qualityScore].
  split; [apply filter_length_le|].
  rewrite calculateQualityScore_counts.
  split; [apply clampJs_range|]. split; [apply clampJs_range|].
  intros A C M R.
  rewrite (all_completed_none_incomplete _ A), C, M.
  assert (T : forall r,
            MaintenanceLog.truthyRating (MaintenanceDocument.scored this)
            = Some r -> 3 <= r).
  { intros r. unfold MaintenanceLog.truthyRating, Spec.ratingOf in *.
    destruct (MaintenanceLog.customerFeedback
                (MaintenanceDocument.scored this)) as [fb|]; [|discriminate].
    destruct (MaintenanceLog.rating fb) as [q|]; [|discriminate].
    destruct (Qeq_bool q 0); [discriminate|].
    intros [= <-]. now apply R. }
  rewrite clampJs_clamp. unfold rawScore, Spec.clamp.
  destruct (MaintenanceLog.truthyRating (MaintenanceDocument.scored this))
    as [r|]; cbv zeta; simpl List.length.
  - specialize (T r eq_refl).
    change (inject_Z (Z.of_nat 0)) with 0.
    destruct (Qltb _ 0) eqn:E1; [apply Qltb_lt in E1; lra|].
    destruct (Qltb 100 _) eqn:E2; [reflexivity|].
    apply Qltb_ge in E2. lra.
  - reflexivity.
Qed.

Lemma summary_of_flawless_visit_witness :
  let this :=
    documentOf [taskOf MaintenanceLog.completed;
                taskOf MaintenanceLog.completed]
      None None MaintenanceDocument.completed None in
  MaintenanceDocument.completedTasks (MaintenanceDocument.generateSummary this)
  = MaintenanceDocument.totalTasks (MaintenanceDocument.generateSummary this)
  /\ MaintenanceDocument.qualityScore
       (MaintenanceDocument.generateSummary this) == 100.
Proof.
  cbv zeta. split; [reflexivity|].
  apply (proj2 (proj2 (proj2
           (summary_of_flawless_visit
              (documentOf [taskOf MaintenanceLog.completed;
                           taskOf MaintenanceLog.completed]
                 None None MaintenanceDocument.completed None)))));
    try reflexivity.
  intros r H. discriminate H.
Defined.

(** * The chemistry score and its alert *)

Lemma calculateChemistryScore_by_count (results : Premium.testResults) :
  let score := Premium.calculateChemistryScore (Some results) in
  (outOfBandCount results = 0%nat -> score == 100)
  /\ (outOfBandCount results = 1%nat -> score == 80 \/ score == 85)
  /\ (outOfBandCount results = 2%nat -> score == 60 \/ score == 65)
  /\ (outOfBandCount results = 3%nat -> score == 45).
Proof.
  cbv zeta. rewrite calculateChemistryScore_present. unfold outOfBandCount.
  destruct (Spec.outOfBandb 7.2 7.6 (Premium.pH results)),
    (Spec.outOfBandb 1.0 3.0 (Premium.chlorine results)),
    (Spec.outOfBandb 80 120 (Premium.alkalinity results)); simpl;
    repeat split; intros H; try discriminate H;
    try (left; reflexivity); try (right; reflexivity); reflexivity.
Qed.

Lemma outOfBandCount_le3 (results : Premium.testResults) :
  (outOfBandCount results <= 3)%nat.
Proof.
  unfold outOfBandCount.
  destruct (Spec.outOfBandb 7.2 7.6 (Premium.pH results)),
    (Spec.outOfBandb 1.0 3.0 (Premium.chlorine results)),
    (Spec.outOfBandb 80 120 (Premium.alkalinity results)); simpl; lia.
Qed.

(** X13. The chemistry score of present test results is never below 45, so
    the floor at 0 never acts; it is 100 exactly when no measured parameter
    is out of band, a parameter that was not measured counting as in band;
    and only results with all three parameters out of band score below the
    50 given to missing results. *)
Theorem calculateChemistryScore_range (results : Premium.testResults) :
  let score := Premium.calculateChemistryScore (Some results) in
  45 <= score /\ score <= 100
  /\ (score == 100 <-> outOfBandCount results = 0%nat)
  /\ (score < Premium.calculateChemistryScore None
      <-> outOfBandCount results = 3%nat)
  /\ (Premium.pH results = None -> Premium.chlorine results = None ->
      Premium.alkalinity results = None -> score == 100).
Proof.
  cbv zeta.
  destruct (calculateChemistryScore_by_count results) as (C0 & C1 & C2 & C3).
  cbv zeta in *.
  pose proof (outOfBandCount_le3 results) as B.
  change (Premium.calculateChemistryScore None) with 50.
  assert (K : (outOfBandCount results = 0 \/ outOfBandCount results = 1
               \/ outOfBandCount results = 2
               \/ outOfBandCount results = 3)%nat) by lia.
  split; [|split; [|split; [|split]]].
  - destruct K as [K|[K|[K|K]]];
      [ rewrite (C0 K) | destruct (C1 K) as [E|E]; rewrite E
      | destruct (C2 K) as [E|E]; rewrite E | rewrite (C3 K) ]; lra.
  - destruct K as [K|[K|[K|K]]];
      [ rewrite (C0 K) | destruct (C1 K) as [E|E]; rewrite E
      | destruct (C2 K) as [E|E]; rewrite E | rewrite (C3 K) ]; lra.
  - split; [|exact C0]. intros S.
    destruct K as [K|[K|[K|K]]]; [exact K| | |];
      [ destruct (C1 K) as [E|E] | destruct (C2 K) as [E|E]
      | pose proof (C3 K) as E ]; rewrite E in S; lra.
  - split.
    + intros S.
      destruct K as [K|[K|[K|K]]]; [| | |exact K];
        [ pose proof (C0 K) as E | destruct (C1 K) as [E|E]
        | destruct (C2 K) as [E|E] ]; rewrite E in S; lra.
    + intros K'. rewrite (C3 K'). lra.
  - intros P C A. apply C0. unfold outOfBandCount. now rewrite P, C, A.
Qed.

Lemma calculateChemistryScore_range_witness :
  let results := {| Premium.pH := None; Premium.chlorine := None;
                    Premium.alkalinity := None |} in
  Premium.pH results = None
  /\ Premium.calculateChemistryScore (Some results) == 100.
Proof.
  cbv zeta. split; [reflexivity|].
  exact (proj2 (proj2 (proj2 (proj2
           (calculateChemistryScore_range
              {| Premium.pH := None; Premium.chlorine := None;
                 Premium.alkalinity := None |}))))
           eq_refl eq_refl eq_refl).
Defined.

(** X14. The weekly analysis raises its chemistry recommendation and its
    chemistry alert together, at most one of each, and exactly when the
    test results are missing or at least two of the three parameters are
    out of band; a single parameter out of band raises nothing. *)
Theorem weekly_alert_condition (d : Premium.assessmentData) :
  let a := Premium.performWeeklyAIAnalysis d in
  (Premium.alerts a <> [] <-> Premium.recommendations a <> [])
  /\ (List.length (Premium.alerts a) <= 1)%nat
  /\ (List.length (Premium.recommendations a) <= 1)%nat
  /\ (Premium.alerts a <> []
      <-> match Premium.testResults_of d with
          | None => True
          | Some results => (2 <= outOfBandCount results)%nat
          end).
Proof.
  cbv zeta. unfold Premium.performWeeklyAIAnalysis.
  cbn [Premium.alerts Premium.recommendations].
  destruct (Premium.testResults_of d) as [results|].
  - destruct (calculateChemistryScore_by_count results)
      as (C0 & C1 & C2 & C3). cbv zeta in *.
    pose proof (outOfBandCount_le3 results) as B.
    set (score := Premium.calculateChemistryScore (Some results)) in *.
    assert (L : Qltb score 70 = true <-> (2 <= outOfBandCount results)%nat).
    { rewrite Qltb_lt. split.
      - intros S.
        destruct (outOfBandCount results) as [|[|n]]; [| |lia].
        + rewrite (C0 eq_refl) in S. lra.
        + destruct (C1 eq_refl) as [E|E]; rewrite E in S; lra.
      - intros K.
        assert (K' : (outOfBandCount results = 2
                      \/ outOfBandCount results = 3)%nat) by lia.
        destruct K' as [K'|K'].
        + destruct (C2 K') as [E|E]; rewrite E; lra.
        + rewrite (C3 K'). lra. }
    destruct (Qltb score 70); simpl.
    + split; [split; discriminate|]. split; [lia|]. split; [lia|].
      split; [intros _; now apply L|discriminate].
    + split; [split; intros N; now destruct N|]. split; [lia|].
      split; [lia|].
      split; [intros N; now destruct N|].
      intros K. apply L in K. discriminate.
  - simpl. split; [split; discriminate|]. split; [lia|]. split; [lia|].
    split; [trivial|discriminate].
Qed.

(** * Follow-up actions *)

Lemma followUps_facts (alerts : list Premium.alert) (clock : nat -> Z)
    (first : nat) :
  List.length (PremiumRoutes.followUps alerts clock first)
  = List.length alerts
  /\ map PremiumRoutes.notes (PremiumRoutes.followUps alerts clock first)
     = map Premium.alertMessage alerts
  /\ forall i action,
       nth_error (PremiumRoutes.followUps alerts clock first) i = Some action ->
       PremiumRoutes.dueDate action
       = (clock (first + i)%nat + 24 * 60 * 60 * 1000)%Z
       /\ PremiumRoutes.assignedTo action = "system"
       /\ PremiumRoutes.followUpStatus action = "pending".
Proof.
  revert first. induction alerts as [|alert rest IH]; intros first; simpl.
  - repeat split; destruct i; discriminate.
  - destruct (IH (S first)) as (L & N & D).
    split; [now rewrite L|]. split; [now rewrite N|].
    intros [|i] action; simpl.
    + intros [= <-]. simpl. rewrite Nat.add_0_r. repeat split.
    + intros H. destruct (D i action H) as (D1 & D2 & D3).
      rewrite Nat.add_succ_r. repeat split; assumption.
Qed.

(** X15. generateFollowUpActions makes one action per alert that requires
    action, in the order of the alerts and carrying their messages, and
    none for the others; each action is assigned to the system, pending,
    and due exactly 24 hours after the clock was read for it.  For the
    weekly analysis this is the single action "Address chemistry issue"
    when its chemistry alert was raised, and nothing otherwise. *)
Theorem generateFollowUpActions_per_alert (alerts : list Premium.alert)
    (clock : nat -> Z) :
  let actions := PremiumRoutes.generateFollowUpActions alerts clock in
  List.length actions
  = List.length (filter Premium.actionRequired alerts)
  /\ map PremiumRoutes.notes actions
     = map Premium.alertMessage (filter Premium.actionRequired alerts)
  /\ (forall i action,
        nth_error actions i = Some action ->
        PremiumRoutes.dueDate action = (clock i + 24 * 60 * 60 * 1000)%Z
        /\ PremiumRoutes.assignedTo action = "system"
        /\ PremiumRoutes.followUpStatus action = "pending")
  /\ (forall d : Premium.assessmentData,
        PremiumRoutes.generateFollowUpActions
          (Premium.alerts (Premium.performWeeklyAIAnalysis d)) clock
        = if Qltb (Premium.chemistryScore (Premium.performWeeklyAIAnalysis d))
                  70
          then [chemistryFollowUp (clock 0%nat)] else []).
Proof.
  cbv zeta. unfold PremiumRoutes.generateFollowUpActions.
  destruct (followUps_facts (filter Premium.actionRequired alerts) clock 0)
    as (L & N & D).
  split; [exact L|]. split; [exact N|]. split; [exact D|].
  intros d. unfold Premium.performWeeklyAIAnalysis.
  cbn [Premium.alerts Premium.chemistryScore].
  destruct (Qltb (Premium.calculateChemistryScore (Premium.testResults_of d))
                 70); reflexivity.
Qed.

(** * The AI manager *)

(** X16. processAIManagerQuery throws a TypeError for a missing query.
    Otherwise it matches the topics on the lower-cased query in a fixed
    order: a query that mentions water chemistry gets that answer whatever
    else it mentions, then equipment issues, then maintenance schedule, and
    any other query, also one that contains the word default, gets the
    default answer; the confidence is always 0.8. *)
Theorem processAIManagerQuery_by_topic (now : Z) :
  PremiumRoutes.processAIManagerQuery None now = Throw "TypeError"
  /\ forall query : string,
       exists response,
         PremiumRoutes.processAIManagerQuery (Some query) now
         = Normal response
         /\ PremiumRoutes.text response = answerByTopic (toLowerCase query)
         /\ PremiumRoutes.confidence response = 0.8
         /\ PremiumRoutes.timestamp response = now.
Proof.
  split; [reflexivity|]. intros query.
  eexists. split; [reflexivity|].
  cbn [PremiumRoutes.text PremiumRoutes.confidence PremiumRoutes.timestamp].
  split; [|split; reflexivity].
  unfold answerByTopic, PremiumRoutes.responses, PremiumRoutes.firstMatch.
  destruct (includes (toLowerCase query) "water chemistry");
    [reflexivity|].
  destruct (includes (toLowerCase query) "equipment issues");
    [reflexivity|].
  destruct (includes (toLowerCase query) "maintenance schedule");
    [reflexivity|].
  destruct (includes (toLowerCase query) "default"); reflexivity.
Qed.

(** * The page count of an ebook *)

Lemma fold_add_sum (l : list nat) (a : nat) :
  fold_left (fun sum x => (sum + x)%nat) l a = (a + list_sum l)%nat.
Proof.
  revert a. induction l as [|x l IH]; intros a; simpl; [lia|].
  rewrite IH. lia.
Qed.

(** X17. estimatePageCount is the least number of pages of 2000 characters
    that hold the introduction, the chapters and the appendices together:
    0 pages exactly for an empty text, and never fewer pages for more
    text. *)
Theorem estimatePageCount_least_pages (content : PremiumRoutes.ebookContent) :
  let characters :=
    Z.of_nat (PremiumRoutes.introduction content
              + list_sum (PremiumRoutes.chapters content)
              + list_sum (PremiumRoutes.appendices content)) in
  let pages := PremiumRoutes.estimatePageCount content in
  (2000 * (pages - 1) < characters <= 2000 * pages)%Z
  /\ (pages = 0%Z <-> characters = 0%Z)
  /\ forall more : PremiumRoutes.ebookContent,
       (PremiumRoutes.totalText content <= PremiumRoutes.totalText more)%nat ->
       (pages <= PremiumRoutes.estimatePageCount more)%Z.
Proof.
  intros characters pages.
  assert (T : Z.of_nat (PremiumRoutes.totalText content) = characters).
  { unfold characters, PremiumRoutes.totalText.
    now rewrite !fold_add_sum, !Nat.add_0_l. }
  assert (B : forall n : nat,
            let p := Qceiling (inject_Z (Z.of_nat n) / 2000) in
            (2000 * (p - 1) < Z.of_nat n <= 2000 * p)%Z).
  { intros n p.
    pose proof (Qle_ceiling (inject_Z (Z.of_nat n) / 2000)) as U.
    pose proof (Qceiling_lt (inject_Z (Z.of_nat n) / 2000)) as L.
    fold p in U, L.
    assert (E : inject_Z (Z.of_nat n) / 2000 * 2000 == inject_Z (Z.of_nat n))
      by (field; lra).
    set (x := inject_Z (Z.of_nat n) / 2000) in *.
    split.
    - apply inject_Z_lt. rewrite inject_Z_mult.
      change (inject_Z 2000) with 2000. lra.
    - apply inject_Z_le. rewrite inject_Z_mult.
      change (inject_Z 2000) with 2000. lra. }
  pose proof (B (PremiumRoutes.totalText content)) as P.
  cbv zeta in P. fold (PremiumRoutes.estimatePageCount content) in P.
  fold pages in P. rewrite T in P.
  split; [exact P|]. split; [lia|].
  intros more H. pose proof (B (PremiumRoutes.totalText more)) as M.
  cbv zeta in M. fold (PremiumRoutes.estimatePageCount more) in M.
  rewrite <- T in P. lia.
Qed.

Lemma estimatePageCount_least_pages_witness :
  let content := {| PremiumRoutes.introduction := 100%nat;
                    PremiumRoutes.chapters := [1900%nat; 1%nat];
                    PremiumRoutes.appendices := [] |} in
  let more := {| PremiumRoutes.introduction := 100%nat;
                 PremiumRoutes.chapters := [1900%nat; 1%nat];
                 PremiumRoutes.appendices := [4000%nat] |} in
  (PremiumRoutes.totalText content <= PremiumRoutes.totalText more)%nat
  /\ (PremiumRoutes.estimatePageCount content
      <= PremiumRoutes.estimatePageCount more)%Z.
Proof.
  cbv zeta.
  assert (H : (PremiumRoutes.totalText
                 {| PremiumRoutes.introduction := 100%nat;
                    PremiumRoutes.chapters := [1900%nat; 1%nat];
                    PremiumRoutes.appendices := [] |}
               <= PremiumRoutes.totalText
                    {| PremiumRoutes.introduction := 100%nat;
                       PremiumRoutes.chapters := [1900%nat; 1%nat];
                       PremiumRoutes.appendices := [4000%nat] |})%nat)
    by (vm_compute; lia).
  split; [exact H|].
  exact (proj2 (proj2 (estimatePageCount_least_pages _)) _ H).
Defined.

(** * The pool report *)

Lemma score_or_zero_range (m : MaintenanceLog.maintenanceLog) :
  let score := MaintenanceLog.calculateQualityScore m in
  0 <= (if Qeq_bool score 0 then 0 else score)
  /\ (if Qeq_bool score 0 then 0 else score) <= 100
  /\ (if Qeq_bool score 0 then 0 else score) == score.
Proof.
  cbv zeta. rewrite calculateQualityScore_counts.
  match goal with |- context [clampJs ?x] =>
    destruct (clampJs_range x) as [L U]; set (s := clampJs x) in * end.
  destruct (Qeq_bool s 0) eqn:E.
  - apply Qeq_bool_iff in E. repeat split; lra.
  - repeat split; lra.
Qed.

Lemma quality_sum_range (history : list MaintenanceLog.maintenanceLog)
    (a : Q) :
  let total :=
    fold_left
      (fun sum m =>
         sum + (let score := MaintenanceLog.calculateQualityScore m in
                if Qeq_bool score 0 then 0 else score))
      history a in
  a <= total
  /\ total <= a + 100 * inject_Z (Z.of_nat (List.length history))
  /\ (Forall (fun m => MaintenanceLog.calculateQualityScore m == 100) history
      -> total == a + 100 * inject_Z (Z.of_nat (List.length history))).
Proof.
  revert a. induction history as [|m history IH]; intros a; simpl.
  - change (inject_Z 0) with 0. repeat split; lra.
  - destruct (score_or_zero_range m) as (L & U & E). cbv zeta in L, U, E.
    set (s := if Qeq_bool (MaintenanceLog.calculateQualityScore m) 0
              then 0 else MaintenanceLog.calculateQualityScore m) in *.
    destruct (IH (a + s)) as (L' & U' & A').
    cbv zeta in L', U', A'.
    rewrite Zpos_P_of_succ_nat. unfold Z.succ.
    rewrite inject_Z_plus. change (inject_Z 1) with 1.
    split; [lra|]. split; [lra|].
    intros F. inversion F as [|? ? F1 F2]; subst.
    rewrite (A' F2). rewrite E, F1. ring.
Qed.

(** X18. The average quality score of the pool report is 0 without
    maintenance history and otherwise lies in [0,100]; it is 100 when every
    visit scores 100. *)
Theorem avgQualityScore_range
    (history : list MaintenanceLog.maintenanceLog) :
  0 <= ConsultingRoutes.avgQualityScore history
  /\ ConsultingRoutes.avgQualityScore history <= 100
  /\ (history = [] -> ConsultingRoutes.avgQualityScore history = 0)
  /\ (history <> [] ->
      Forall (fun m => MaintenanceLog.calculateQualityScore m == 100) history ->
      ConsultingRoutes.avgQualityScore history == 100).
Proof.
  unfold ConsultingRoutes.avgQualityScore.
  destruct history as [|m history].
  - simpl. repeat split; try lra. congruence.
  - replace (0 <? List.length (m :: history))%nat with true by reflexivity.
    destruct (quality_sum_range (m :: history) 0) as (L & U & A).
    cbv zeta in L, U, A.
    set (total := fold_left _ (m :: history) 0) in *.
    set (n := inject_Z (Z.of_nat (List.length (m :: history)))) in *.
    assert (N : 0 < n).
    { unfold n. change 0 with (inject_Z 0). rewrite <- Zlt_Qlt.
      simpl. lia. }
    assert (E : total / n * n == total) by (field; lra).
    set (avg := total / n) in *.
    split; [nra|]. split; [nra|]. split; [discriminate|].
    intros _ F. specialize (A F). nra.
Qed.

Lemma avgQualityScore_range_witness :
  let visit := withIssues [] (withTasks [] exampleEvent) in
  let quiet :=
    {| MaintenanceLog.tasks := MaintenanceLog.tasks visit;
       MaintenanceLog.issues := MaintenanceLog.issues visit;
       MaintenanceLog.customerFeedback := None |} in
  [quiet; quiet] <> []
  /\ Forall (fun m => MaintenanceLog.calculateQualityScore m == 100)
            [quiet; quiet]
  /\ ConsultingRoutes.avgQualityScore [quiet; quiet] == 100.
Proof.
  cbv zeta.
  set (quiet := {| MaintenanceLog.tasks := _ |}).
  assert (N : [quiet; quiet] <> []) by discriminate.
  assert (F : Forall (fun m => MaintenanceLog.calculateQualityScore m == 100)
                     [quiet; quiet])
    by (repeat constructor).
  split; [exact N|]. split; [exact F|].
  exact (proj2 (proj2 (proj2 (avgQualityScore_range [quiet; quiet]))) N F).
Defined.

Lemma calculateTrend_insufficient_iff (readings : list Consulting.chemistry)
    (parameter : string) :
  Consulting.calculateTrend readings parameter = "insufficient_data"
  <-> (List.length (Consulting.values_of readings parameter) < 2)%nat.
Proof.
  rewrite calculateTrend_values. cbv zeta.
  destruct (List.length (Consulting.values_of readings parameter) <? 2)%nat
    eqn:E.
  - apply Nat.ltb_lt in E. split; [now intros _|reflexivity].
  - apply Nat.ltb_ge in E. split; [|lia].
    destruct (JsNum.ltb _ _); [discriminate|].
    destruct (JsNum.gtb _ _); discriminate.
Qed.

Lemma values_of_pool_readings (l : list Pool.reading) :
  Consulting.values_of (map ConsultingRoutes.asChemistry l) "pH"
  = map Pool.pH l
  /\ Consulting.values_of (map ConsultingRoutes.asChemistry l) "chlorine"
     = map Pool.chlorine l
  /\ Consulting.values_of (map ConsultingRoutes.asChemistry l) "alkalinity"
     = map Pool.alkalinity l.
Proof.
  unfold Consulting.values_of.
  induction l as [|r l (IH1 & IH2 & IH3)]; simpl; [repeat split|].
  simpl in IH1, IH2, IH3. rewrite IH1, IH2, IH3.
  repeat split.
Qed.

Lemma sorted_app_order (l1 l2 : list Pool.reading) :
  newestFirst (l1 ++ l2) ->
  forall a b, In a l1 -> In b l2 -> (Pool.testedAt b <= Pool.testedAt a)%Z.
Proof.
  unfold newestFirst. induction l1 as [|x l1 IH]; simpl; [contradiction|].
  intros S a b [<-|Ia] Ib.
  - apply StronglySorted_inv in S. destruct S as [_ F].
    rewrite Forall_forall in F. apply F. apply in_or_app. now right.
  - apply StronglySorted_inv in S. destruct S as [S _].
    now apply (IH S a b).
Qed.

(** X19. The pool report bases its trends on at most ten readings, the
    newest of those taken since the cutoff date: every other reading since
    the cutoff is no newer than any of them.  The three trends are
    insufficient_data together, exactly when fewer than two readings were
    taken since the cutoff. *)
Theorem reportTrends_window (pool : Pool.pool) (cutoffDate : Z) :
  let window :=
    filter (fun c => (cutoffDate <=? Pool.testedAt c)%Z)
           (Pool.waterChemistry pool) in
  let recent := ConsultingRoutes.recentChemistry pool cutoffDate in
  let t := ConsultingRoutes.reportTrends pool cutoffDate in
  List.length recent = Nat.min 10 (List.length window)
  /\ (forall r, In r recent ->
        In r (Pool.waterChemistry pool)
        /\ (cutoffDate <= Pool.testedAt r)%Z)
  /\ (exists rest,
        Permutation (recent ++ rest) window
        /\ forall a b, In a recent -> In b rest ->
             (Pool.testedAt b <= Pool.testedAt a)%Z)
  /\ (ConsultingRoutes.phTrend t = "insufficient_data"
      <-> (List.length window < 2)%nat)
  /\ (ConsultingRoutes.chlorineTrend t = "insufficient_data"
      <-> (List.length window < 2)%nat)
  /\ (ConsultingRoutes.alkalinityTrend t = "insufficient_data"
      <-> (List.length window < 2)%nat).
Proof.
  intros window recent t.
  assert (L : List.length recent = Nat.min 10 (List.length window)).
  { unfold recent, ConsultingRoutes.recentChemistry. fold window.
    now rewrite length_firstn, sort_length. }
  split; [exact L|]. split; [|split].
  - intros r I. unfold recent, ConsultingRoutes.recentChemistry in I.
    assert (I' : In r (sort (fun a b => (Pool.testedAt b - Pool.testedAt a)%Z)
                         window)).
    { rewrite <- (firstn_skipn 10 (sort _ window)).
      apply in_or_app. now left. }
    clear I. rename I' into I. apply sort_In in I.
    apply filter_In in I. destruct I as [I C].
    split; [exact I|now apply Z.leb_le].
  - exists (skipn 10 (sort byTestedAt window)). split.
    + unfold recent, ConsultingRoutes.recentChemistry. fold window byTestedAt.
      rewrite firstn_skipn. symmetry. apply sort_permutation.
    + apply sorted_app_order.
      unfold recent, ConsultingRoutes.recentChemistry. fold window byTestedAt.
      rewrite firstn_skipn. apply sort_newestFirst.
  - unfold t, ConsultingRoutes.reportTrends.
    cbn [ConsultingRoutes.phTrend ConsultingRoutes.chlorineTrend
         ConsultingRoutes.alkalinityTrend].
    fold recent.
    destruct (values_of_pool_readings recent) as (V1 & V2 & V3).
    rewrite !calculateTrend_insufficient_iff, V1, V2, V3, !length_map, L.
    repeat split; lia.
Qed.

(** * The three rule sets on one reading *)

Lemma chemistryAnalysis_counts (wc : Consulting.chemistry)
    (a : Consulting.accumulators) :
  List.length (Consulting.issues (Consulting.chemistryAnalysis wc a))
  = (List.length (Consulting.issues a) + flagged wc)%nat
  /\ List.length
       (Consulting.recommendations (Consulting.chemistryAnalysis wc a))
     = (List.length (Consulting.recommendations a) + flagged wc)%nat.
Proof.
  unfold Consulting.chemistryAnalysis, flagged.
  rewrite <- !undef_tests_outOfBandb.
  destruct (undef_ltb (Consulting.pH wc) 7.2),
    (undef_gtb (Consulting.pH wc) 7.6),
    (undef_ltb (Consulting.chlorine wc) 1.0),
    (undef_gtb (Consulting.chlorine wc) 3.0),
    (undef_ltb (Consulting.alkalinity wc) 80),
    (undef_gtb (Consulting.alkalinity wc) 120);
    cbn [orb Consulting.issues Consulting.recommendations
         Consulting.push_issue Consulting.push_recommendation
         Consulting.add_analysis];
    rewrite ?length_app; simpl; split; lia.
Qed.

Lemma flagged_pool_reading (r : Pool.reading) :
  flagged (ConsultingRoutes.asChemistry r) = outOfBandCount (asTestResults r)
  /\ outOfBandCount (asTestResults r)
     = (Spec.outside (Spec.classify 7.2 7.6 (Pool.pH r))
        + Spec.outside (Spec.classify 1.0 3.0 (Pool.chlorine r))
        + Spec.outside (Spec.classify 80 120 (Pool.alkalinity r)))%nat.
Proof.
  split; [reflexivity|].
  unfold outOfBandCount, asTestResults, Spec.outOfBandb, Spec.classify,
    Spec.outside.
  cbn [Premium.pH Premium.chlorine Premium.alkalinity].
  destruct (Qltb (Pool.pH r) 7.2), (Qltb 7.6 (Pool.pH r)),
    (Qltb (Pool.chlorine r) 1.0), (Qltb 3.0 (Pool.chlorine r)),
    (Qltb (Pool.alkalinity r) 80), (Qltb 120 (Pool.alkalinity r));
    reflexivity.
Qed.

(** X22. The three rule sets use the same bands.  For the latest reading of
    a pool, the number of recommendations of getRecommendations, the number
    of issues of the rule-based analysis of that reading and the number of
    parameters the weekly chemistry score deducts for are the same; so the
    chemistry score of the reading is 100 exactly when getRecommendations
    returns nothing. *)
Theorem rule_sets_agree (this : Pool.pool) (latest : Pool.reading) :
  Pool.latestWaterChemistry this = Some latest ->
  List.length (Pool.getRecommendations this)
  = outOfBandCount (asTestResults latest)
  /\ List.length
       (Consulting.issues
          (Consulting.ruleBasedAccumulators
             (Some (ConsultingRoutes.asChemistry latest)) None))
     = outOfBandCount (asTestResults latest)
  /\ (Premium.calculateChemistryScore (Some (asTestResults latest)) == 100
      <-> Pool.getRecommendations this = []).
Proof.
  intros H.
  destruct (flagged_pool_reading latest) as [F O].
  assert (L : List.length (Pool.getRecommendations this)
              = outOfBandCount (asTestResults latest)).
  { rewrite O, (getRecommendations_present this latest H).
    destruct (Spec.classify 7.2 7.6 (Pool.pH latest)),
      (Spec.classify 1.0 3.0 (Pool.chlorine latest)),
      (Spec.classify 80 120 (Pool.alkalinity latest)); reflexivity. }
  split; [exact L|]. split.
  - unfold Consulting.ruleBasedAccumulators. cbv zeta.
    cbn [List.length Nat.ltb Nat.leb].
    destruct (chemistryAnalysis_counts (ConsultingRoutes.asChemistry latest)
                {| Consulting.analysis :=
                     ("Pool Analysis (Rule-Based System)" ++ newline
                      ++ newline)%string;
                   Consulting.issues := [];
                   Consulting.recommendations := [] |}) as [I _].
    rewrite I, F. reflexivity.
  - destruct (calculateChemistryScore_by_count (asTestResults latest))
      as (C0 & C1 & C2 & C3). cbv zeta in *.
    pose proof (outOfBandCount_le3 (asTestResults latest)) as B.
    split.
    + intros S. apply length_zero_iff_nil. rewrite L.
      destruct (outOfBandCount (asTestResults latest)) as [|[|[|n]]];
        [reflexivity| | |].
      * destruct (C1 eq_refl) as [E|E]; rewrite E in S; lra.
      * destruct (C2 eq_refl) as [E|E]; rewrite E in S; lra.
      * assert (n = 0%nat) as -> by lia.
        rewrite (C3 eq_refl) in S. lra.
    + intros N. apply C0. rewrite <- L, N. reflexivity.
Qed.

Lemma rule_sets_agree_witness :
  let this := {| Pool.waterChemistry := [readingAt 7.8 0] |} in
  Pool.latestWaterChemistry this = Some (readingAt 7.8 0)
  /\ List.length (Pool.getRecommendations this) = 1%nat.
Proof.
  cbv zeta. split; [reflexivity|].
  exact (proj1 (rule_sets_agree
                  {| Pool.waterChemistry := [readingAt 7.8 0] |}
                  (readingAt 7.8 0) eq_refl)).
Defined.

(** * Size and frame of the rule-based analysis *)

Lemma symptomRecommendations_le3 (symptom : string) :
  (List.length (symptomRecommendations symptom) <= 3)%nat.
Proof.
  unfold symptomRecommendations.
  destruct (includes (toLowerCase symptom) "algae"),
    (includes (toLowerCase symptom) "cloudy"),
    (includes (toLowerCase symptom) "smell"); simpl; lia.
Qed.

Lemma flat_map_le3 (l : list string) :
  (List.length (flat_map symptomRecommendations l) <= 3 * List.length l)%nat.
Proof.
  induction l as [|s l IH]; simpl; [lia|].
  rewrite length_app. pose proof (symptomRecommendations_le3 s). lia.
Qed.

Lemma flagged_le3 (wc : Consulting.chemistry) : (flagged wc <= 3)%nat.
Proof.
  unfold flagged.
  destruct (Spec.outOfBandb 7.2 7.6 (Consulting.pH wc)),
    (Spec.outOfBandb 1.0 3.0 (Consulting.chlorine wc)),
    (Spec.outOfBandb 80 120 (Consulting.alkalinity wc)); simpl; lia.
Qed.

(** X23. Whatever the input, the rule-based analysis finds at most three
    issues, one per flagged parameter and none without a chemistry object;
    it recommends one action per issue and then at most three per symptom,
    the symptom-derived ones in the order of the symptoms. *)
Theorem ruleBased_sizes (waterChemistry : option Consulting.chemistry)
    (symptoms : option (list string)) :
  let a := Consulting.ruleBasedAccumulators waterChemistry symptoms in
  let found := match waterChemistry with
               | Some wc => flagged wc
               | None => 0%nat
               end in
  List.length (Consulting.issues a) = found
  /\ (found <= 3)%nat
  /\ List.length (Consulting.recommendations a)
     = (found
        + List.length
            (flat_map symptomRecommendations (suppliedSymptoms symptoms)))%nat
  /\ (List.length (Consulting.recommendations a)
      <= 3 + 3 * List.length (suppliedSymptoms symptoms))%nat
  /\ skipn found (Consulting.recommendations a)
     = flat_map symptomRecommendations (suppliedSymptoms symptoms).
Proof.
  intros a found.
  set (start := {| Consulting.analysis :=
                     ("Pool Analysis (Rule-Based System)" ++ newline
                      ++ newline)%string;
                   Consulting.issues := [];
                   Consulting.recommendations := [] |}).
  set (mid := match waterChemistry with
              | Some wc => Consulting.chemistryAnalysis wc start
              | None => start
              end).
  assert (M : List.length (Consulting.issues mid) = found
              /\ List.length (Consulting.recommendations mid) = found).
  { unfold mid, found. destruct waterChemistry as [wc|]; [|split; reflexivity].
    destruct (chemistryAnalysis_counts wc start) as [I R].
    now rewrite I, R. }
  destruct M as [MI MR].
  assert (A : Consulting.issues a = Consulting.issues mid
              /\ Consulting.recommendations a
                 = Consulting.recommendations mid
                   ++ flat_map symptomRecommendations
                        (suppliedSymptoms symptoms)).
  { unfold a, Consulting.ruleBasedAccumulators.
    fold (suppliedSymptoms symptoms). cbv zeta. fold start. fold mid.
    destruct (suppliedSymptoms symptoms) as [|s l].
    - simpl. now rewrite app_nil_r.
    - replace (0 <? List.length (s :: l))%nat with true by reflexivity.
      now rewrite forEach_symptom_recommendations, forEach_symptom_issues. }
  destruct A as [AI AR].
  assert (F : (found <= 3)%nat).
  { unfold found. destruct waterChemistry as [wc|]; [apply flagged_le3|lia]. }
  pose proof (flat_map_le3 (suppliedSymptoms symptoms)) as S.
  rewrite AI, AR, length_app, MI, MR.
  split; [reflexivity|]. split; [exact F|]. split; [reflexivity|].
  split; [lia|].
  rewrite <- MR at 1. rewrite skipn_app, skipn_all, Nat.sub_diag. reflexivity.
Qed.

Lemma append_assoc (a b c : string) :
  ((a ++ b) ++ c = a ++ (b ++ c))%string.
Proof.
  induction a as [|x a IH]; simpl; [reflexivity|]. now rewrite IH.
Qed.

Lemma analysis_grows_chemistry (wc : Consulting.chemistry)
    (a : Consulting.accumulators) :
  exists t,
    Consulting.analysis (Consulting.chemistryAnalysis wc a)
    = (Consulting.analysis a ++ t)%string.
Proof.
  unfold Consulting.chemistryAnalysis.
  destruct (undef_ltb (Consulting.pH wc) 7.2),
    (undef_gtb (Consulting.pH wc) 7.6),
    (undef_ltb (Consulting.chlorine wc) 1.0),
    (undef_gtb (Consulting.chlorine wc) 3.0),
    (undef_ltb (Consulting.alkalinity wc) 80),
    (undef_gtb (Consulting.alkalinity wc) 120);
    cbn [Consulting.analysis Consulting.push_issue
         Consulting.push_recommendation Consulting.add_analysis];
    rewrite ?append_assoc; eexists; try reflexivity.
  all: instantiate (1 := ""%string);
    clear; induction (Consulting.analysis a) as [|x s IH]; simpl;
    [reflexivity|now rewrite <- IH].
Qed.

Lemma append_nil_r (s : string) : (s ++ "")%string = s.
Proof. induction s as [|x s IH]; simpl; [reflexivity|]. now rewrite IH. Qed.

Lemma analysis_grows_symptom (a : Consulting.accumulators) (s : string) :
  exists t,
    Consulting.analysis (Consulting.symptomStep a s)
    = (Consulting.analysis a ++ t)%string.
Proof.
  unfold Consulting.symptomStep.
  destruct (includes (toLowerCase s) "algae"),
    (includes (toLowerCase s) "cloudy"),
    (includes (toLowerCase s) "smell");
    cbn [Consulting.analysis Consulting.push_recommendation
         Consulting.add_analysis]; eexists; reflexivity.
Qed.

Lemma analysis_grows_symptoms (l : list string)
    (a : Consulting.accumulators) :
  exists t,
    Consulting.analysis (fold_left Consulting.symptomStep l a)
    = (Consulting.analysis a ++ t)%string.
Proof.
  revert a. induction l as [|s l IH]; intros a; simpl.
  - exists ""%string. now rewrite append_nil_r.
  - destruct (IH (Consulting.symptomStep a s)) as [t E].
    destruct (analysis_grows_symptom a s) as [u F].
    exists (u ++ t)%string. now rewrite E, F, append_assoc.
Qed.

Lemma renderIssues_grows (l : list string) (text : string) :
  exists t, Consulting.renderIssues text l = (text ++ t)%string.
Proof.
  unfold Consulting.renderIssues.
  revert text. induction l as [|i l IH]; intros text; cbn [fold_left].
  - exists ""%string. now rewrite append_nil_r.
  - destruct (IH (text ++ "- " ++ i ++ newline)%string) as [t E].
    rewrite E, append_assoc. eexists. reflexivity.
Qed.

Lemma renderRecommendations_grows (l : list string) (text : string)
    (index : nat) :
  exists t,
    Consulting.renderRecommendations text index l = (text ++ t)%string.
Proof.
  revert text index. induction l as [|r l IH]; intros text index;
    cbn [Consulting.renderRecommendations].
  - exists ""%string. now rewrite append_nil_r.
  - destruct (IH (text ++ nat_to_string (index + 1) ++ ". " ++ r ++ newline)%string
                 (S index)) as [t E].
    rewrite E, append_assoc. eexists. reflexivity.
Qed.

(** X24. Every analysis text, whatever the chemistry and the symptoms, also
    with nothing supplied at all, opens with the title line and closes with
    the five general maintenance tips. *)
Theorem analysis_text_frame (waterChemistry : option Consulting.chemistry)
    (symptoms : option (list string)) :
  exists body,
    Consulting.generateRuleBasedAnalysis waterChemistry symptoms
    = (analysisHeader ++ body ++ maintenanceTips)%string.
Proof.
  unfold Consulting.generateRuleBasedAnalysis. cbv zeta.
  set (a := Consulting.ruleBasedAccumulators waterChemistry symptoms).
  assert (A : exists t, Consulting.analysis a = (analysisHeader ++ t)%string).
  { unfold a, Consulting.ruleBasedAccumulators. cbv zeta.
    set (start := {| Consulting.analysis := _ |}).
    assert (M : exists t,
              Consulting.analysis
                match waterChemistry with
                | Some wc => Consulting.chemistryAnalysis wc start
                | None => start
                end = (analysisHeader ++ t)%string).
    { destruct waterChemistry as [wc|].
      - destruct (analysis_grows_chemistry wc start) as [t E].
        exists t. exact E.
      - exists ""%string. now rewrite append_nil_r. }
    destruct M as [t M].
    set (mid := match waterChemistry with
                | Some wc => Consulting.chemistryAnalysis wc start
                | None => start
                end) in *.
    destruct (0 <? List.length match symptoms with
                               | Some l => l
                               | None => []
                               end)%nat.
    - destruct (analysis_grows_symptoms
                  match symptoms with Some l => l | None => [] end
                  (Consulting.add_analysis mid
                     (newline ++ "Reported Issues:" ++ newline)))
        as [u E].
      rewrite E. cbn [Consulting.analysis Consulting.add_analysis].
      rewrite M, !append_assoc. eexists. reflexivity.
    - exists t. exact M. }
  destruct A as [t A]. rewrite A.
  assert (I : exists u,
            (if (0 <? List.length (Consulting.issues a))%nat
             then Consulting.renderIssues
                    ((analysisHeader ++ t) ++ newline
                     ++ "⚠️ Issues Found:" ++ newline)
                    (Consulting.issues a)
             else (analysisHeader ++ t)%string)
            = (analysisHeader ++ u)%string).
  { destruct (0 <? List.length (Consulting.issues a))%nat.
    - destruct (renderIssues_grows (Consulting.issues a)
                  ((analysisHeader ++ t) ++ newline
                   ++ "⚠️ Issues Found:" ++ newline)) as [u E].
      rewrite E, !append_assoc. eexists. reflexivity.
    - exists t. reflexivity. }
  destruct I as [u I]. rewrite I.
  assert (R : exists v,
            (if (0 <? List.length (Consulting.recommendations a))%nat
             then Consulting.renderRecommendations
                    ((analysisHeader ++ u) ++ newline
                     ++ "🔧 Recommended Actions:" ++ newline)
                    0 (Consulting.recommendations a)
             else (analysisHeader ++ u)%string)
            = (analysisHeader ++ v)%string).
  { destruct (0 <? List.length (Consulting.recommendations a))%nat.
    - destruct (renderRecommendations_grows (Consulting.recommendations a)
                  ((analysisHeader ++ u) ++ newline
                   ++ "🔧 Recommended Actions:" ++ newline) 0) as [v E].
      rewrite E, !append_assoc. eexists. reflexivity.
    - exists u. reflexivity. }
  destruct R as [v R]. rewrite R.
  exists v. unfold maintenanceTips. now rewrite !append_assoc.
Qed.
